(** * tvfmt: a shallow embedding of the renamer and its verified properties

    The development follows the layout of the Python package:
    - [Uchar], [Ustring]: Unicode text, the values of Python's [str];
    - [Py], [Re], [Pathlib], [ConfigParser]: the fragments of the Python
      runtime and standard library the package relies on (str methods, int
      parsing and formatting, [re.findall], pure POSIX paths as of
      Python 3.9 to 3.12, [ConfigParser.set] and [write]);
    - [TvShow], [TvSeason], [TvEpisode], [TraktAPI]: [tvfmt/api.py];
    - [Sys]: the world a run acts on (file system, console, questions) and
      the state-and-exception monad the effectful code is written in; the
      operating system, the provider and the user are the fields of [Env];
    - [Utils]: [tvfmt/utils.py];
    - [Config]: [tvfmt/config.py] ([CliConfig.set]);
    - [Main]: [tvfmt/main.py] ([PathChange] and the [TvFormatter] class;
      the two typer commands that only forward to them are left out).
    The modules after [Main] hold the vocabulary of the specification and
    a small concrete world; the properties follow.

    The names of files, shows and episodes, and every text a run handles,
    are [ustring] values: sequences of code points, with no bound on them.
    The regular-expression class [\d] and [int] read the decimal digits of
    the Unicode database, of every script.  The text of the configuration
    goes through [str.lower], whose Unicode tables are not part of the
    development: it is modelled as [string], one [ascii] per code point,
    which covers the configuration text whose code points are below 256. *)

From Stdlib Require Import ZArith NArith List Bool Ascii String Lia.
From Stdlib Require Import DecimalString DecimalPos Sorted Permutation.
Import ListNotations.

(* ================================================================== *)
(** * Unicode text *)
(* ================================================================== *)

(** A code point, and a Python [str]: the sequence of its code points. *)
Definition uchar : Type := N.

Inductive ustring : Type :=
| UEmpty
| UString (c : uchar) (s : ustring).

Module Uchar.

(** A character of the ASCII range written between quotes stands for its
    code point. *)
Definition of_bytes (bs : list Byte.byte) : option N :=
  match bs with
  | [b] =>
      let n := N_of_ascii (ascii_of_byte b) in
      if (n <? 128)%N then Some n else None
  | _ => None
  end.

Definition to_bytes (c : N) : option (list Byte.byte) :=
  if (c <? 128)%N then Some [byte_of_ascii (ascii_of_N c)] else None.

(** [a == b] and the order of code points. *)
Definition eqb (a b : uchar) : bool := N.eqb a b.

Definition compare (a b : uchar) : comparison := N.compare a b.

(** The digit zero of each decimal system of the Unicode database, here
    in its version 14.0, the one of Python 3.11: from ASCII, Arabic-Indic
    and Devanagari to the mathematical and the segmented digits.  The ten
    digits of a system follow each other from its zero, in the order of
    their values. *)
Definition decimal_zeros : list N :=
  [48; 1632; 1776; 1984; 2406; 2534; 2662; 2790; 2918; 3046; 3174; 3302;
   3430; 3558; 3664; 3792; 3872; 4160; 4240; 6112; 6160; 6470; 6608; 6784;
   6800; 6992; 7088; 7232; 7248; 42528; 43216; 43264; 43472; 43504; 43600;
   44016; 65296; 66720; 68912; 69734; 69872; 69942; 70096; 70384; 70736;
   70864; 71248; 71360; 71472; 71904; 72016; 72784; 73040; 73120; 92768;
   92864; 93008; 120782; 120792; 120802; 120812; 120822; 123200; 123632;
   125264; 130032]%N.

(** The value of a decimal digit (a character of general category [Nd]),
    [None] for every other character. *)
Definition decimal (c : uchar) : option N :=
  option_map (fun zero => c - zero)%N
    (find (fun zero => (zero <=? c) && (c <? zero + 10))%N decimal_zeros).

End Uchar.

Module Ustring.

(** A text of the ASCII range written between quotes stands for the
    sequence of its code points. *)
Fixpoint of_bytes (bs : list Byte.byte) : option ustring :=
  match bs with
  | [] => Some UEmpty
  | b :: bs' =>
      match Uchar.of_bytes [b], of_bytes bs' with
      | Some c, Some s => Some (UString c s)
      | _, _ => None
      end
  end.

Fixpoint to_bytes (s : ustring) : option (list Byte.byte) :=
  match s with
  | UEmpty => Some []
  | UString c s' =>
      match Uchar.to_bytes c, to_bytes s' with
      | Some b, Some bs => Some (b ++ bs)
      | _, _ => None
      end
  end.

(** The text of an 8-bit string, character by character. *)
Fixpoint of_string (s : string) : ustring :=
  match s with
  | EmptyString => UEmpty
  | String c s' => UString (N_of_ascii c) (of_string s')
  end.

(** The text of a sequence of code points, and back. *)
Fixpoint of_list (l : list uchar) : ustring :=
  match l with
  | [] => UEmpty
  | c :: l' => UString c (of_list l')
  end.

Fixpoint to_list (s : ustring) : list uchar :=
  match s with
  | UEmpty => []
  | UString c s' => c :: to_list s'
  end.

Fixpoint length (s : ustring) : nat :=
  match s with
  | UEmpty => O
  | UString _ s' => S (length s')
  end.

(** [a + b] *)
Fixpoint append (a b : ustring) : ustring :=
  match a with
  | UEmpty => b
  | UString c a' => UString c (append a' b)
  end.

(** [a == b] *)
Fixpoint eqb (a b : ustring) : bool :=
  match a, b with
  | UEmpty, UEmpty => true
  | UString c a', UString d b' => Uchar.eqb c d && eqb a' b'
  | _, _ => false
  end.

Definition eq_dec (a b : ustring) : {a = b} + {a <> b}.
Proof. decide equality. apply N.eq_dec. Defined.

(** [p] is a prefix of [s]. *)
Fixpoint prefix (p s : ustring) : bool :=
  match p with
  | UEmpty => true
  | UString a p' =>
      match s with
      | UEmpty => false
      | UString b s' => if Uchar.eqb a b then prefix p' s' else false
      end
  end.

(** Texts compare code point by code point, a proper prefix coming
    first. *)
Fixpoint compare (a b : ustring) : comparison :=
  match a, b with
  | UEmpty, UEmpty => Eq
  | UEmpty, UString _ _ => Lt
  | UString _ _, UEmpty => Gt
  | UString c a', UString d b' =>
      match Uchar.compare c d with
      | Eq => compare a' b'
      | ne => ne
      end
  end.

(** [a <= b] *)
Definition leb (a b : ustring) : bool :=
  match compare a b with Gt => false | _ => true end.

(** The [m] characters of [s] from position [n] on. *)
Fixpoint substring (n m : nat) (s : ustring) : ustring :=
  match n, m, s with
  | O, O, _ => UEmpty
  | O, S m', UEmpty => s
  | O, S m', UString c s' => UString c (substring 0 m' s')
  | S n', _, UEmpty => s
  | S n', _, UString c s' => substring n' m s'
  end.

(** The texts of [ls] with [sep] between them. *)
Fixpoint concat (sep : ustring) (ls : list ustring) : ustring :=
  match ls with
  | [] => UEmpty
  | [x] => x
  | x :: xs => append x (append sep (concat sep xs))
  end.

End Ustring.

Declare Scope uchar_scope.
Delimit Scope uchar_scope with uchar.
Bind Scope uchar_scope with uchar.
String Notation N Uchar.of_bytes Uchar.to_bytes : uchar_scope.

Declare Scope ustring_scope.
Delimit Scope ustring_scope with ustring.
Bind Scope ustring_scope with ustring.
String Notation ustring Ustring.of_bytes Ustring.to_bytes : ustring_scope.
Notation "a ++ b" := (Ustring.append a b) : ustring_scope.

Local Open Scope string_scope.
Local Open Scope ustring_scope.
Local Open Scope list_scope.
Local Open Scope Z_scope.

(* ================================================================== *)
(** * Python runtime fragments *)
(* ================================================================== *)

Module Py.

(** [len(s)] *)
Definition len (s : ustring) : nat := Ustring.length s.

(** Decimal digits: the characters [\d] matches and [int] reads. *)
Definition isdecimal (c : uchar) : bool :=
  match Uchar.decimal c with
  | Some _ => true
  | None => false
  end.

(** [int(s)] on a non-empty string of decimal digits, the only form the
    package passes to it: the digits are read by their values, whatever
    their script.  [None] stands for a text outside that form. *)
Fixpoint int_digits (acc : Z) (s : ustring) : option Z :=
  match s with
  | UEmpty => Some acc
  | UString c s' =>
      match Uchar.decimal c with
      | Some d => int_digits (10 * acc + Z.of_N d) s'
      | None => None
      end
  end.

Definition int (s : ustring) : option Z :=
  match s with
  | UEmpty => None
  | _ => int_digits 0 s
  end.

(** [str(n)] for an [int]: ASCII digits after the sign. *)
Definition str_int (n : Z) : ustring :=
  Ustring.of_string (NilZero.string_of_int (Z.to_int n)).

Fixpoint repeat_char (c : uchar) (n : nat) : ustring :=
  match n with
  | O => UEmpty
  | S k => UString c (repeat_char c k)
  end.

(** [format(n, "02")], the conversion behind [f"{n:02}"]: the ['0'] flag
    pads with zeros between the sign and the digits up to the width, which
    counts the sign. *)
Definition format_02 (n : Z) : ustring :=
  let sign := if n <? 0 then "-" else "" in
  let digits := str_int (Z.abs n) in
  sign ++ repeat_char "0" (2 - len sign - len digits) ++ digits.

(** [s.startswith(p)] *)
Definition startswith (s p : ustring) : bool := Ustring.prefix p s.

(** [s[i:]] and [s[i:j]] for indices that are not negative. *)
Fixpoint slice_from (i : nat) (s : ustring) : ustring :=
  match i, s with
  | O, _ => s
  | S k, UEmpty => UEmpty
  | S k, UString _ s' => slice_from k s'
  end.

Fixpoint slice_to (j : nat) (s : ustring) : ustring :=
  match j, s with
  | O, _ => UEmpty
  | S k, UEmpty => UEmpty
  | S k, UString c s' => UString c (slice_to k s')
  end.

Definition slice (i j : nat) (s : ustring) : ustring :=
  slice_from i (slice_to j s).

(** [s.replace(old, new)] for a non-empty [old]: occurrences are replaced
    left to right and do not overlap.  [skip] counts the characters of the
    occurrence just replaced that are still to be dropped. *)
Fixpoint replace_from (old new : ustring) (skip : nat) (s : ustring)
  : ustring :=
  match s with
  | UEmpty => UEmpty
  | UString c s' =>
      match skip with
      | S k => replace_from old new k s'
      | O =>
          if Ustring.prefix old s
          then new ++ replace_from old new (len old - 1) s'
          else UString c (replace_from old new 0 s')
      end
  end.

Definition replace (old new s : ustring) : ustring := replace_from old new 0 s.

(** [s.rfind(".")]-style search for one character: the index of its last
    occurrence, [None] for Python's [-1]. *)
Fixpoint rfind_char (c : uchar) (s : ustring) : option nat :=
  match s with
  | UEmpty => None
  | UString a s' =>
      match rfind_char c s' with
      | Some i => Some (S i)
      | None => if Uchar.eqb a c then Some O else None
      end
  end.

(** [sep.join(l)] *)
Definition join (sep : ustring) (l : list ustring) : ustring :=
  Ustring.concat sep l.

(** [str(x)], also what an f-string field without a format spec renders. *)
Class Str (A : Type) := str : A -> ustring.

#[global] Instance Str_ustring : Str ustring := fun s => s.
#[global] Instance Str_int : Str Z := str_int.
(** [None] renders as the text [None]. *)
#[global] Instance Str_option {A} `{Str A} : Str (option A) :=
  fun o => match o with Some a => str a | None => "None" end.

(** Values compared by [==] in the dynamic attribute lookup. *)
Inductive value : Type :=
| VNone
| VInt (n : Z)
| VStr (s : ustring).

Definition value_eqb (a b : value) : bool :=
  match a, b with
  | VNone, VNone => true
  | VInt x, VInt y => Z.eqb x y
  | VStr x, VStr y => Ustring.eqb x y
  | _, _ => false
  end.

(** [s[:j]] for any integer [j]: a negative [j] counts from the end. *)
Definition slice_upto (j : Z) (s : ustring) : ustring :=
  if j <? 0 then slice_to (len s - Z.to_nat (- j)) s
  else slice_to (Z.to_nat j) s.

(** [l.sort()] for elements compared with [lt]: the sort is stable, so its
    result is the one of this insertion sort, which puts an element before
    the first one that is not smaller than it. *)
Section Sort.
Context {A : Type} (lt : A -> A -> bool).

Fixpoint insert (x : A) (l : list A) : list A :=
  match l with
  | [] => [x]
  | y :: l' => if lt y x then y :: insert x l' else x :: y :: l'
  end.

Fixpoint sort (l : list A) : list A :=
  match l with
  | [] => []
  | x :: l' => insert x (sort l')
  end.

End Sort.

(** [getattr(x, attr)] on the data fields of an object; [None] when
    [hasattr(x, attr)] is false. *)
Class Attrs (A : Type) := getattr : A -> ustring -> option value.

End Py.

(** The [str] methods the configuration code calls, on configuration
    text. *)
Module Latin1.

(** [s[i:j]] for indices that are not negative. *)
Fixpoint slice_from (i : nat) (s : string) : string :=
  match i, s with
  | O, _ => s
  | S k, EmptyString => EmptyString
  | S k, String _ s' => slice_from k s'
  end.

Fixpoint slice_to (j : nat) (s : string) : string :=
  match j, s with
  | O, _ => EmptyString
  | S k, EmptyString => EmptyString
  | S k, String c s' => String c (slice_to k s')
  end.

Definition slice (i j : nat) (s : string) : string :=
  slice_from i (slice_to j s).

(** [s.replace(old, new)] for a non-empty [old], as [Py.replace]. *)
Fixpoint replace_from (old new : string) (skip : nat) (s : string) : string :=
  match s with
  | EmptyString => EmptyString
  | String c s' =>
      match skip with
      | S k => replace_from old new k s'
      | O =>
          if String.prefix old s
          then (new ++ replace_from old new (String.length old - 1) s')%string
          else String c (replace_from old new 0 s')
      end
  end.

Definition replace (old new s : string) : string := replace_from old new 0 s.

(** [c.lower()] on code points below 256: the ASCII capitals and the
    Latin-1 capitals U+00C0..U+00DE except the multiplication sign. *)
Definition lower_char (c : ascii) : ascii :=
  let n := N_of_ascii c in
  if (((65 <=? n) && (n <=? 90)) ||
      ((192 <=? n) && (n <=? 222) && negb (n =? 215)))%N
  then ascii_of_N (n + 32) else c.

Fixpoint lower (s : string) : string :=
  match s with
  | EmptyString => EmptyString
  | String c s' => String (lower_char c) (lower s')
  end.

(** [x in l] for a list of strings. *)
Definition str_in (x : string) (l : list string) : bool :=
  existsb (String.eqb x) l.

End Latin1.

(* ================================================================== *)
(** * Regular expressions: sequences of character classes *)
(* ================================================================== *)

Module Re.

(** A pattern that is a sequence of one-character classes, such as
    [[Ss]\d{2}[Ee]\d{2}]; matching such a pattern never backtracks. *)
Definition char_class := uchar -> bool.
Definition pattern := list char_class.

(** A set of characters, [[Ss]]. *)
Definition one_of (cs : ustring) : char_class :=
  fun c => existsb (Uchar.eqb c) (Ustring.to_list cs).

(** [\d] in a [str] pattern: any Unicode decimal digit. *)
Definition digit : char_class := Py.isdecimal.

(** The text matched by [p] at the start of [s], if it matches there. *)
Fixpoint match_here (p : pattern) (s : ustring) : option ustring :=
  match p with
  | [] => Some UEmpty
  | cls :: p' =>
      match s with
      | UEmpty => None
      | UString c s' =>
          if cls c
          then option_map (UString c) (match_here p' s')
          else None
      end
  end.

(** [re.findall(p, s)] for a non-empty [p]: the matches found scanning left
    to right, each search resuming where the previous match ended.  [skip]
    counts the characters of the last match still to be passed over. *)
Fixpoint findall_from (p : pattern) (skip : nat) (s : ustring)
  : list ustring :=
  match s with
  | UEmpty => []
  | UString c s' =>
      match skip with
      | S k => findall_from p k s'
      | O =>
          match match_here p s with
          | Some m => m :: findall_from p (List.length p - 1) s'
          | None => findall_from p 0 s'
          end
      end
  end.

Definition findall (p : pattern) (s : ustring) : list ustring :=
  findall_from p 0 s.

End Re.

(* ================================================================== *)
(** * pathlib: pure POSIX paths *)
(* ================================================================== *)

Module Pathlib.

(** A path is its root ([""], ["/"] or ["//"]) and its components. *)
Record Path : Type := mkPath { root : ustring; parts : list ustring }.

Definition eqb (p q : Path) : bool :=
  Ustring.eqb (root p) (root q) &&
  if list_eq_dec Ustring.eq_dec (parts p) (parts q) then true else false.

(** [s.split(sep)] for a one-character separator. *)
Fixpoint split (sep : uchar) (s : ustring) : list ustring :=
  match s with
  | UEmpty => [UEmpty]
  | UString c s' =>
      if Uchar.eqb c sep then UEmpty :: split sep s'
      else match split sep s' with
           | h :: t => UString c h :: t
           | [] => [UString c UEmpty]
           end
  end.

Fixpoint lstrip (c : uchar) (s : ustring) : ustring :=
  match s with
  | UEmpty => UEmpty
  | UString a s' => if Uchar.eqb a c then lstrip c s' else s
  end.

(** The POSIX flavour's [splitroot]: exactly two leading slashes make the
    root ["//"], any other number of them the root ["/"]. *)
Definition splitroot (part : ustring) : ustring * ustring :=
  if Py.startswith part "/" then
    let stripped := lstrip "/" part in
    if Nat.eqb (Py.len part - Py.len stripped) 2
    then ("//", stripped) else ("/", stripped)
  else ("", part).

Definition is_component (x : ustring) : bool :=
  negb (Ustring.eqb x "") && negb (Ustring.eqb x ".").

Definition parse_parts (rel : ustring) : list ustring :=
  filter is_component (split "/" rel).

(** [Path(s)] *)
Definition of_string (s : ustring) : Path :=
  let (r, rel) := splitroot s in mkPath r (parse_parts rel).

(** [p / s]: a rooted [s] replaces [p], otherwise its components are
    appended. *)
Definition truediv (p : Path) (s : ustring) : Path :=
  let (r, rel) := splitroot s in
  if Ustring.eqb r "" then mkPath (root p) (parts p ++ parse_parts rel)
  else mkPath r (parse_parts rel).

(** [p / q] for a path [q]. *)
Definition joinpath (p q : Path) : Path :=
  if Ustring.eqb (root q) "" then mkPath (root p) (parts p ++ parts q) else q.

(** The child [iterdir] builds for a directory entry: the entry name is
    appended as one component. *)
Definition make_child (p : Path) (entry : ustring) : Path :=
  mkPath (root p) (parts p ++ [entry]).

(** [p.name] *)
Definition name (p : Path) : ustring := last (parts p) "".

(** [p.suffix]: the name from its last dot on, provided that dot is neither
    the first nor the last character of the name. *)
Definition suffix (p : Path) : ustring :=
  let n := name p in
  match Py.rfind_char "." n with
  | Some i =>
      if (Nat.ltb 0 i && Nat.ltb i (Py.len n - 1))%bool
      then Py.slice_from i n else ""
  | None => ""
  end.

(** [p.parent] *)
Definition parent (p : Path) : Path :=
  match parts p with
  | [] => p
  | _ => mkPath (root p) (removelast (parts p))
  end.

(** [str(p)] and [p.as_posix()] *)
Definition to_string (p : Path) : ustring :=
  match parts p with
  | [] => if Ustring.eqb (root p) "" then "." else root p
  | _ => root p ++ Py.join "/" (parts p)
  end.

#[global] Instance Str_Path : Py.Str Path := to_string.

(** [p.absolute()] under the working directory [cwd]. *)
Definition absolute (cwd p : Path) : Path :=
  if Ustring.eqb (root p) "" then joinpath cwd p else p.

(** Paths compare as the lists of their root (when there is one) and
    components, strings comparing by code point. *)
Definition cparts (p : Path) : list ustring :=
  (if Ustring.eqb (root p) "" then [] else [root p]) ++ parts p.

Definition compare (p q : Path) : comparison :=
  list_compare Ustring.compare (cparts p) (cparts q).

(** [p < q] *)
Definition ltb (p q : Path) : bool :=
  match compare p q with Lt => true | _ => false end.

(** [p <= q], spelled as the sort uses it: not [q < p]. *)
Definition leb (p q : Path) : bool := negb (ltb q p).

End Pathlib.

(* ================================================================== *)
(** * tvfmt/api.py: the dataclasses *)
(* ================================================================== *)

Module TvShow.
Record t : Type := mk { name : ustring; year : ustring; id : Z }.
(** [__str__] *)
Definition to_str (s : t) : ustring := name s ++ " (" ++ year s ++ ")".
End TvShow.

Module TvSeason.
Record t : Type :=
  mk { name : ustring; episode_count : Z; number : Z; id : Z }.
(** [__str__] *)
Definition to_str (s : t) : ustring :=
  name s ++ " (" ++ Py.str_int (episode_count s) ++ ")".
End TvSeason.

Module TvEpisode.
Record t : Type := mk { name : ustring; number : Z; id : Z }.
(** [__str__] *)
Definition to_str (e : t) : ustring := name e.
End TvEpisode.

#[global] Instance Str_TvShow : Py.Str TvShow.t := TvShow.to_str.
#[global] Instance Str_TvSeason : Py.Str TvSeason.t := TvSeason.to_str.
#[global] Instance Str_TvEpisode : Py.Str TvEpisode.t := TvEpisode.to_str.

#[global] Instance Attrs_TvEpisode : Py.Attrs TvEpisode.t :=
  fun e attr =>
    if Ustring.eqb attr "name" then Some (Py.VStr (TvEpisode.name e))
    else if Ustring.eqb attr "number" then Some (Py.VInt (TvEpisode.number e))
    else if Ustring.eqb attr "id" then Some (Py.VInt (TvEpisode.id e))
    else None.

(** The decoded JSON of the provider's responses, reduced to the fields the
    decoders read.  A season entry may lack its ["number"]; the other
    fields are taken at the type the dataclass declares for them. *)
Module Json.
Record show_result : Type :=
  mk_show { show_title : ustring; show_year : ustring; show_trakt : Z }.
Record season_result : Type :=
  mk_season { season_title : ustring; season_episode_count : Z;
              season_number : option Z; season_trakt : Z }.
Record episode_result : Type :=
  mk_episode { episode_title : ustring; episode_number : Z;
               episode_trakt : Z }.
End Json.

(* ================================================================== *)
(** * The world of a run and the effect monad *)
(* ================================================================== *)

Module Sys.

(** Exceptions: [typer.Exit(code)] and every other one by its class. *)
Inductive exn : Type :=
| Exit (code : Z)
| Error (cls : string).

Inductive outcome (A : Type) : Type :=
| Ret (a : A)
| Raise (e : exn).
Arguments Ret {A} a.
Arguments Raise {A} e.

(** Computations over a state [S] that return or raise; the state reached
    is kept in both cases, an exception undoes nothing. *)
Definition M (S A : Type) : Type := S -> outcome A * S.

Definition ret {S A} (a : A) : M S A := fun s => (Ret a, s).

Definition raise {S A} (e : exn) : M S A := fun s => (Raise e, s).

Definition bind {S A B} (m : M S A) (k : A -> M S B) : M S B :=
  fun s =>
    match m s with
    | (Ret a, s') => k a s'
    | (Raise e, s') => (Raise e, s')
    end.

Definition get {S} : M S S := fun s => (Ret s, s).

Definition modify {S} (f : S -> S) : M S unit := fun s => (Ret tt, f s).

Definition lift {S A} (o : outcome A) : M S A := fun s => (o, s).

Declare Scope eff_scope.
Delimit Scope eff_scope with eff.
Notation "x <- m ;; k" := (bind m (fun x => k))
  (at level 61, m at next level, right associativity) : eff_scope.
Notation "m ;;; k" := (bind m (fun _ => k))
  (at level 61, right associativity) : eff_scope.

(** What [console.print] receives: a text with its style ([""] for
    none), or a panel ([title_align] is ["center"] unless given).  [S] is
    the type of the text: [ustring] in a run, [string] in the configuration
    code. *)
Inductive renderable_of (S : Type) : Type :=
| Text (text style : S)
| Panel (body title border_style title_align : S).
Arguments Text {S} text style.
Arguments Panel {S} body title border_style title_align.

Definition renderable : Type := renderable_of ustring.

(** A [questionary.Choice]. *)
Record Choice (A : Type) : Type := mkChoice { title : ustring; value : A }.
Arguments mkChoice {A} title value.
Arguments title {A} c.
Arguments value {A} c.

(** The questions put to the user. *)
Inductive prompt : Type :=
| AskText (message : ustring)
| AskShow (message : ustring) (choices : list (Choice TvShow.t))
| AskSeason (message : ustring) (choices : list (Choice TvSeason.t))
| AskConfirm (message : ustring).

(** Everything outside the package: the operating system's view of the
    file system, the metadata provider's responses and the user's answers.
    An answer of [None] is a cancelled prompt; each of them may raise. *)
Class Env : Type := {
  FS : Type;
  fs_exists : Pathlib.Path -> FS -> bool;
  fs_is_dir : Pathlib.Path -> FS -> bool;
  fs_is_file : Pathlib.Path -> FS -> bool;
  fs_listdir : Pathlib.Path -> FS -> outcome (list ustring);
  fs_rename : Pathlib.Path -> Pathlib.Path -> FS -> outcome FS;
  home : Pathlib.Path;
  cwd : Pathlib.Path;
  http_search : ustring -> outcome (list Json.show_result);
  http_seasons : Z -> outcome (list Json.season_result);
  http_episodes : Z -> Z -> outcome (list Json.episode_result);
  answer_text : ustring -> outcome (option ustring);
  answer_show :
    ustring -> list (Choice TvShow.t) -> outcome (option TvShow.t);
  answer_season :
    ustring -> list (Choice TvSeason.t) -> outcome (option TvSeason.t);
  answer_confirm : ustring -> outcome (option bool)
}.

(** The state a run acts on: the file system, what was printed and what
    was asked, the latter two oldest first. *)
Record World `{Env} : Type :=
  mkWorld { fs : FS; console : list renderable; asked : list prompt }.
Arguments mkWorld {_} fs console asked.

Section Effects.
Context `{E : Env}.

(** [console.print(r)] *)
Definition console_print (r : renderable) : M World unit :=
  modify (fun w => mkWorld (fs w) (console w ++ [r]) (asked w)).

Definition log_prompt (p : prompt) : M World unit :=
  modify (fun w => mkWorld (fs w) (console w) (asked w ++ [p])).

(** [questionary.text(message).ask()] *)
Definition ask_text (message : ustring) : M World (option ustring) :=
  (log_prompt (AskText message) ;;; lift (answer_text message))%eff.

(** [questionary.select(message, choices).ask()] *)
Definition ask_show (message : ustring) (choices : list (Choice TvShow.t))
  : M World (option TvShow.t) :=
  (log_prompt (AskShow message choices) ;;;
   lift (answer_show message choices))%eff.

Definition ask_season (message : ustring) (choices : list (Choice TvSeason.t))
  : M World (option TvSeason.t) :=
  (log_prompt (AskSeason message choices) ;;;
   lift (answer_season message choices))%eff.

(** [questionary.confirm(message).ask()] *)
Definition ask_confirm (message : ustring) : M World (option bool) :=
  (log_prompt (AskConfirm message) ;;; lift (answer_confirm message))%eff.

(** Queries and updates of the file system. *)
Definition path_exists (p : Pathlib.Path) : M World bool :=
  fun w => (Ret (fs_exists p (fs w)), w).

Definition path_is_dir (p : Pathlib.Path) : M World bool :=
  fun w => (Ret (fs_is_dir p (fs w)), w).

Definition path_is_file (p : Pathlib.Path) : M World bool :=
  fun w => (Ret (fs_is_file p (fs w)), w).

(** [Path.iterdir(p)]: one child per directory entry, in the order the
    operating system lists them. *)
Definition path_iterdir (p : Pathlib.Path) : M World (list Pathlib.Path) :=
  fun w =>
    match fs_listdir p (fs w) with
    | Ret names => (Ret (map (Pathlib.make_child p) names), w)
    | Raise e => (Raise e, w)
    end.

(** [old.rename(new)]: the file system changes only when the call
    succeeds. *)
Definition path_rename (old new : Pathlib.Path) : M World unit :=
  fun w =>
    match fs_rename old new (fs w) with
    | Ret fs' => (Ret tt, mkWorld fs' (console w) (asked w))
    | Raise e => (Raise e, w)
    end.

End Effects.

End Sys.

(* ================================================================== *)
(** * tvfmt/api.py: the provider client *)
(* ================================================================== *)

Module TraktAPI.
Import Sys.

(** The decoding loops, as the methods run them on the response data. *)
Definition show_of_result (r : Json.show_result) : TvShow.t :=
  TvShow.mk (Json.show_title r) (Json.show_year r) (Json.show_trakt r).

Fixpoint search_loop (data : list Json.show_result) (tv_shows : list TvShow.t)
  : list TvShow.t :=
  match data with
  | [] => tv_shows
  | result :: rest => search_loop rest (tv_shows ++ [show_of_result result])
  end.

(** A season enters the list when its number is greater than zero;
    comparing a missing number raises [TypeError]. *)
Fixpoint seasons_loop (data : list Json.season_result)
  (seasons : list TvSeason.t) : outcome (list TvSeason.t) :=
  match data with
  | [] => Ret seasons
  | result :: rest =>
      match Json.season_number result with
      | None => Raise (Error "TypeError")
      | Some number =>
          if number >? 0 (* Skip specials *)
          then seasons_loop rest
                 (seasons ++ [TvSeason.mk (Json.season_title result)
                                (Json.season_episode_count result)
                                number (Json.season_trakt result)])
          else seasons_loop rest seasons
      end
  end.

Definition episode_of_result (r : Json.episode_result) : TvEpisode.t :=
  TvEpisode.mk (Json.episode_title r) (Json.episode_number r)
    (Json.episode_trakt r).

Fixpoint episodes_loop (data : list Json.episode_result)
  (episodes : list TvEpisode.t) : list TvEpisode.t :=
  match data with
  | [] => episodes
  | result :: rest =>
      episodes_loop rest (episodes ++ [episode_of_result result])
  end.

Section Methods.
Context `{E : Env}.

(** [search_tv_shows(query, limit)]; a query that is [None] or empty sends
    no request. *)
Definition search_tv_shows (query : option ustring) (limit : nat)
  : M World (list TvShow.t) :=
  match query with
  | None | Some UEmpty => ret []
  | Some q =>
      (data <- lift (http_search q) ;;
       ret (search_loop (firstn limit data) []))%eff
  end.

(** [get_show_seasons(show_id)] *)
Definition get_show_seasons (show_id : Z) : M World (list TvSeason.t) :=
  (data <- lift (http_seasons show_id) ;;
   lift (seasons_loop data []))%eff.

(** [get_season_episodes(show_id, season)] *)
Definition get_season_episodes (show_id season : Z)
  : M World (list TvEpisode.t) :=
  (data <- lift (http_episodes show_id season) ;;
   ret (episodes_loop data []))%eff.

End Methods.

End TraktAPI.

(* ================================================================== *)
(** * tvfmt/utils.py *)
(* ================================================================== *)

Module Utils.
Import Sys.

(** [find_by_attr(lst, attr, value)]: the first item that has the attribute
    with an equal value, [None] when the loop ends without one. *)
Fixpoint find_by_attr {A} `{Py.Attrs A} (lst : list A) (attr : ustring)
  (value : Py.value) : option A :=
  match lst with
  | [] => None
  | i :: rest =>
      match Py.getattr i attr with
      | Some v =>
          if Py.value_eqb v value then Some i
          else find_by_attr rest attr value
      | None => find_by_attr rest attr value
      end
  end.

(** [as_choices(lst)] *)
Definition as_choices {A} `{Py.Str A} (lst : list A) : list (Choice A) :=
  map (fun i => mkChoice (Py.str i) i) lst.

Section Effects.
Context `{E : Env}.

(** The loop of [get_files] over the children of the directory. *)
Fixpoint get_files_loop (children files : list Pathlib.Path)
  : M World (list Pathlib.Path) :=
  match children with
  | [] => ret files
  | f :: rest =>
      (is_file <- path_is_file f ;;
       (* ignore dotfiles *)
       if is_file && negb (Py.startswith (Pathlib.name f) ".")
       then get_files_loop rest (files ++ [f])
       else get_files_loop rest files)%eff
  end.

(** [get_files(path, sort)] *)
Definition get_files (path : Pathlib.Path) (sort : bool)
  : M World (list Pathlib.Path) :=
  (children <- path_iterdir path ;;
   files <- get_files_loop children [] ;;
   ret (if sort then Py.sort Pathlib.ltb files else files))%eff.

(** [rename_files(paths)] *)
Fixpoint rename_files (paths : list (Pathlib.Path * Pathlib.Path))
  : M World unit :=
  match paths with
  | [] => ret tt
  | (old_file, new_file) :: rest =>
      (path_rename old_file new_file ;;; rename_files rest)%eff
  end.

(** [short_path(path)] *)
Definition short_path (path : Pathlib.Path) : ustring :=
  Py.replace (Pathlib.to_string home) "~" (Pathlib.to_string path).

End Effects.

End Utils.

(* ================================================================== *)
(** * configparser: the parts behind [ConfigParser.set] and [write] *)
(* ================================================================== *)

Module ConfigParser.
(* Configuration text: the literals of this module are [string] values. *)
Local Open Scope string_scope.
Local Open Scope list_scope.
Local Open Scope Z_scope.
Import Sys.

(** A dict with string keys keeps insertion order; assigning to a key that
    is present replaces its value in place. *)
Definition dict (V : Type) : Type := list (string * V).

Fixpoint dict_get {V} (d : dict V) (k : string) : option V :=
  match d with
  | [] => None
  | (k', v) :: d' => if String.eqb k' k then Some v else dict_get d' k
  end.

Fixpoint dict_set {V} (d : dict V) (k : string) (v : V) : dict V :=
  match d with
  | [] => [(k, v)]
  | (k', v') :: d' =>
      if String.eqb k' k then (k, v) :: d' else (k', v') :: dict_set d' k v
  end.

(** The parser state: the defaults and the named sections. *)
Record t : Type :=
  mk { defaults : dict string; sections : dict (dict string) }.

Definition default_section : string := "DEFAULT".

(** The length of the interpolation key [%(name)s] at the start of [s],
    that is of a match of [%\(([^)]+)\)s] there. *)
Fixpoint key_name_len (s : string) : option nat :=
  match s with
  | EmptyString => None
  | String c s' =>
      if Ascii.eqb c ")" then
        match s' with
        | String "s" _ => Some O
        | _ => None
        end
      else option_map S (key_name_len s')
  end.

Definition key_len (s : string) : option nat :=
  match s with
  | String "%" (String "(" rest) =>
      match key_name_len rest with
      | Some (S n) => Some (S n + 4)%nat
      | _ => None
      end
  | _ => None
  end.

(** [_KEYCRE.sub("", s)] *)
Fixpoint strip_keys (skip : nat) (s : string) : string :=
  match s with
  | EmptyString => EmptyString
  | String c s' =>
      match skip with
      | S k => strip_keys k s'
      | O =>
          match key_len s with
          | Some n => strip_keys (n - 1) s'
          | None => String c (strip_keys 0 s')
          end
      end
  end.

Fixpoint contains_char (c : ascii) (s : string) : bool :=
  match s with
  | EmptyString => false
  | String a s' => Ascii.eqb a c || contains_char c s'
  end.

(** [BasicInterpolation.before_set]: once [%%] and the keys [%(name)s] are
    taken out, no [%] may be left. *)
Definition valid_interpolation (value : string) : bool :=
  negb (contains_char "%" (strip_keys 0 (Latin1.replace "%%" "" value))).

(** [parser.set(section, option, value)] for a [str] value: the value is
    validated first, then the section looked up; option names are stored
    in lower case. *)
Definition set (p : t) (section option value : string) : outcome t :=
  if negb (String.eqb value "") && negb (valid_interpolation value)
  then Raise (Error "ValueError")
  else if String.eqb section "" || String.eqb section default_section
  then Ret (mk (dict_set (defaults p) (Latin1.lower option) value) (sections p))
  else match dict_get (sections p) section with
       | None => Raise (Error "NoSectionError")
       | Some sectdict =>
           Ret (mk (defaults p)
                  (dict_set (sections p) section
                     (dict_set sectdict (Latin1.lower option) value)))
       end.

Definition newline : string := String "010" EmptyString.

Definition write_section (section_name : string) (items : dict string)
  : string :=
  ("[" ++ section_name ++ "]" ++ newline
   ++ String.concat ""
        (map (fun kv => fst kv ++ " = "
                        ++ Latin1.replace newline (newline ++ String "009" "")
                             (snd kv) ++ newline) items)
   ++ newline)%string.

(** The text [parser.write(f)] produces. *)
Definition write (p : t) : string :=
  ((match defaults p with
    | [] => ""
    | _ => write_section default_section (defaults p)
    end)
   ++ String.concat ""
        (map (fun s => write_section (fst s) (snd s)) (sections p)))%string.

End ConfigParser.

(* ================================================================== *)
(** * tvfmt/config.py *)
(* ================================================================== *)

Module Config.
Local Open Scope string_scope.
Local Open Scope list_scope.
Local Open Scope Z_scope.
Import Sys.

Inductive CliConfigKey : Type := TRAKT_API_KEY | AUTO | CONFIRM.

(** [key.value] *)
Definition key_value (key : CliConfigKey) : string :=
  match key with
  | TRAKT_API_KEY => "trakt_api_key"
  | AUTO => "auto"
  | CONFIRM => "confirm"
  end.

(** What a [CliConfig] acts on: its parser, the text of its config file
    and the console. *)
Record State : Type :=
  mkState { parser : ConfigParser.t; config_file : string;
            console : list (renderable_of string) }.

Section CliConfig.
(** [APP_NAME] of [tvfmt.globals], the section the package keeps its keys
    in. *)
Variable APP_NAME : string.

Definition console_print (r : renderable_of string) : M State unit :=
  modify (fun s => mkState (parser s) (config_file s) (console s ++ [r])).

(** [self.parser.set(APP_NAME, option, value)] *)
Definition parser_set (option value : string) : M State unit :=
  fun s =>
    match ConfigParser.set (parser s) APP_NAME option value with
    | Ret p => (Ret tt, mkState p (config_file s) (console s))
    | Raise e => (Raise e, s)
    end.

(** [with open(self.config_file, "w+") as f: self.parser.write(f)] *)
Definition write_config_file : M State unit :=
  modify (fun s =>
            mkState (parser s) (ConfigParser.write (parser s)) (console s)).

(** [CliConfig.set(key, value)] *)
Definition set (key : CliConfigKey) (value : string) : M State bool :=
  let continue :=
    (parser_set (key_value key) value ;;;
     write_config_file ;;;
     ret true)%eff in
  match key with
  | AUTO | CONFIRM =>
      if negb (Latin1.str_in (Latin1.lower value) ["true"; "false"])
      then (console_print
              (Text ("Config key '" ++ key_value key
                       ++ "' must be a boolean.")%string "") ;;;
            ret false)%eff
      else continue
  | TRAKT_API_KEY => continue
  end.

End CliConfig.

End Config.

(* ================================================================== *)
(** * tvfmt/main.py *)
(* ================================================================== *)

Module Main.
Import Sys.

(** [result in (None, [])], per result type. *)
Class Nullish (R : Type) := is_null : R -> bool.

#[global] Instance Nullish_option {A} : Nullish (option A) :=
  fun r => match r with None => true | Some _ => false end.
#[global] Instance Nullish_list {A} : Nullish (list A) :=
  fun r => match r with [] => true | _ :: _ => false end.

(** [l[i]]: a negative index counts from the end, an index outside the
    list raises [IndexError]. *)
Definition getitem {A} (l : list A) (i : Z) : outcome A :=
  let j := if i <? 0 then Z.of_nat (List.length l) + i else i in
  match (if j <? 0 then None else nth_error l (Z.to_nat j)) with
  | Some x => Ret x
  | None => Raise (Error "IndexError")
  end.

(** The dataclass [PathChange]. *)
Module PathChange.
Record t : Type :=
  mk { old : Pathlib.Path; new : Pathlib.Path; is_file : bool }.

(** The constructor call [PathChange(old, new)], [is_file] defaulting to
    [True]. *)
Definition make (old new : Pathlib.Path) : t := mk old new true.

Definition paths (c : t) : Pathlib.Path * Pathlib.Path := (old c, new c).

Definition short_name (path : Pathlib.Path) (max_len : Z) : ustring :=
  let new_name := Pathlib.name path in
  if Z.of_nat (Py.len new_name) >? max_len then
    let new_suffix := ("[...]" ++ Pathlib.suffix path)%ustring in
    (Py.slice_upto (max_len - Z.of_nat (Py.len new_suffix)) new_name
       ++ new_suffix)%ustring
  else new_name.

(** [__str__]; the arrow of the source is the code point U+2192. *)
Definition to_str (c : t) : ustring :=
  let old_name := short_name (old c) 40 in
  let new_name := short_name (new c) 40 in
  ("[red]" ++ old_name ++ "[/red] " ++ UString 8594%N " [green]"
     ++ new_name ++ "[/green]")%ustring.
End PathChange.

#[global] Instance Str_PathChange : Py.Str PathChange.t := PathChange.to_str.

(** The pattern [[Ss]\d{2}[Ee]\d{2}]. *)
Definition pattern : Re.pattern :=
  [Re.one_of "Ss"; Re.digit; Re.digit; Re.one_of "Ee"; Re.digit; Re.digit].

Definition int_or_raise (s : ustring) : outcome Z :=
  match Py.int s with
  | Some n => Ret n
  | None => Raise (Error "ValueError")
  end.

(** [TvFormatter.parse_episode_file(filename)]; [Ret None] is the implicit
    [return None] of a filename without a match. *)
Definition parse_episode_file (filename : ustring) : outcome (option (Z * Z)) :=
  match Re.findall pattern filename with
  | [] => Ret None
  | match0 :: _ =>
      match int_or_raise (Py.slice 1 3 match0) with
      | Raise e => Raise e
      | Ret season_num =>
          match int_or_raise (Py.slice_from 4 match0) with
          | Raise e => Raise e
          | Ret episode_num => Ret (Some (season_num, episode_num))
          end
      end
  end.

(** [TvFormatter.format_filename(show_name, season_num, episode_num,
    episode_name, ext)]; the episode name is whatever the caller passes and
    is rendered by [str]. *)
Definition format_filename {A} `{Py.Str A} (show_name : ustring)
  (season_num episode_num : Z) (episode_name : A) (ext : ustring) : ustring :=
  (* avoid :'s in filenames *)
  Py.replace ":" "" show_name ++ " S" ++ Py.format_02 season_num
    ++ "E" ++ Py.format_02 episode_num ++ " " ++ Py.str episode_name ++ ext.

Section TvFormatter.
Context `{E : Env}.

(** [error(message)] *)
Definition error {A} (message : ustring) : M World A :=
  (console_print (Panel message "Error" "red" "left") ;;; raise (Exit 1))%eff.

(** The decorator [exit_on_null(message)] applied to [func]. *)
Definition exit_on_null {R} `{Nullish R} (message : ustring)
  (func : M World R) : M World R :=
  (result <- func ;;
   if is_null result then error message else ret result)%eff.

(** [get_tv_show(show_name, auto)] *)
Definition get_tv_show (show_name : option ustring) (auto : bool)
  : M World (option TvShow.t) :=
  exit_on_null "Unable to find TV Show matching given name."
    (show_name <- match show_name with
                  | None | Some UEmpty => ask_text "Search Tv Shows"
                  | Some _ => ret show_name
                  end ;;
     tv_shows <- TraktAPI.search_tv_shows show_name 5 ;;
     match tv_shows with
     | [] => ret None
     | first :: _ =>
         if auto then ret (Some first)
         else ask_show "Tv Show" (Utils.as_choices tv_shows)
     end)%eff.

(** [get_tv_season(show_id, season_num)] *)
Definition get_tv_season (show_id : Z) (season_num : option Z)
  : M World (option TvSeason.t) :=
  exit_on_null "Invalid season number given."
    (seasons <- TraktAPI.get_show_seasons show_id ;;
     match season_num with
     | Some n =>
         if negb (n =? 0) && (0 <? n) && (n <=? Z.of_nat (List.length seasons))
         then (season <- lift (getitem seasons (n - 1)) ;; ret (Some season))
         else ask_season "Season" (Utils.as_choices seasons)
     | None => ask_season "Season" (Utils.as_choices seasons)
     end)%eff.

(** [get_tv_episodes(show_id, season_num)] *)
Definition get_tv_episodes (show_id season_num : Z)
  : M World (list TvEpisode.t) :=
  exit_on_null "Unable to find episodes for given season."
    (TraktAPI.get_season_episodes show_id season_num).

(** The loop of [get_file_changes], [changes] being the list built so far. *)
Fixpoint get_file_changes_loop (files : list Pathlib.Path)
  (show_name : ustring) (episodes : list TvEpisode.t)
  (changes : list PathChange.t) : M World (list PathChange.t) :=
  match files with
  | [] => ret changes
  | f :: rest =>
      (filename_info <- lift (parse_episode_file (Pathlib.name f)) ;;
       match filename_info with
       | Some (season_num, episode_num) =>
           let episode_name :=
             Utils.find_by_attr episodes "number" (Py.VInt episode_num) in
           let new_name :=
             format_filename show_name season_num episode_num episode_name
               (Pathlib.suffix f) in
           get_file_changes_loop rest show_name episodes
             (changes ++
                [PathChange.make f (Pathlib.truediv (Pathlib.parent f) new_name)])
       | None => get_file_changes_loop rest show_name episodes changes
       end)%eff
  end.

(** [get_file_changes(files, show_name, episodes)] *)
Definition get_file_changes (files : list Pathlib.Path) (show_name : ustring)
  (episodes : list TvEpisode.t) : M World (list PathChange.t) :=
  exit_on_null "Unable to parse files in given directory."
    (get_file_changes_loop files show_name episodes []).

(** The numbered lines [confirm_changes] displays. *)
Definition changes_display (changes : list PathChange.t) : ustring :=
  Py.join (UString 10%N "")
    (map (fun ic => ("(" ++ Py.str_int (Z.of_nat (fst ic) + 1) ++ ") "
                       ++ Py.str (snd ic))%ustring)
       (filter (fun ic => PathChange.is_file (snd ic))
          (combine (seq 0 (List.length changes)) changes))).

(** [confirm_changes(changes, path)] *)
Definition confirm_changes (changes : list PathChange.t)
  (path : Pathlib.Path) : M World (option bool) :=
  let title :=
    ("[cyan]" ++ Utils.short_path (Pathlib.absolute cwd path)
       ++ "[/cyan]")%ustring in
  (console_print (Panel (changes_display changes) title "bold yellow"
                    "center") ;;;
   confirm <- ask_confirm "Commit changes" ;;
   ret confirm)%eff.

(** Attribute access on the result of a decorated lookup. *)
Definition deref {A} (o : option A) : M World A :=
  match o with
  | Some x => ret x
  | None => raise (Error "AttributeError")
  end.

(** [run(path, show, season, auto, user_confirm)] *)
Definition run (path : Pathlib.Path) (show : option ustring)
  (season : option Z) (auto user_confirm : bool) : M World unit :=
  (path_ok <- (e <- path_exists path ;;
               if e then path_is_dir path else ret false) ;;
   (if negb path_ok
    then error ("Invalid value for PATH: Directory '"
                  ++ Utils.short_path path ++ "' doesn't exist.")%ustring
    else ret tt) ;;;
   tv_show <- (r <- get_tv_show show auto ;; deref r) ;;
   tv_season <- (r <- get_tv_season (TvShow.id tv_show) season ;; deref r) ;;
   tv_episodes <- get_tv_episodes (TvShow.id tv_show)
                    (TvSeason.number tv_season) ;;
   files <- Utils.get_files path true ;;
   changes <- get_file_changes files (TvShow.name tv_show) tv_episodes ;;
   (if user_confirm then
      confirm <- confirm_changes changes path ;;
      match confirm with
      | Some true => Utils.rename_files (map PathChange.paths changes)
      | _ => ret tt
      end
    else ret tt) ;;;
   console_print (Text "Done!" "bold green"))%eff.

End TvFormatter.

End Main.

(* ================================================================== *)
(** * The specification's vocabulary *)
(* ================================================================== *)

Module Spec.

(** A digit, as [\d] has it: one of the ten digits of a decimal system of
    the Unicode database. *)
Definition is_digit (c : uchar) : bool :=
  existsb (fun zero => (zero <=? c) && (c <? zero + 10))%N Uchar.decimal_zeros.

(** The value of a digit, from 0 to 9. *)
Definition digit_value (c : uchar) : Z :=
  match Uchar.decimal c with
  | Some d => Z.of_N d
  | None => 0
  end.

(** A six-character text of the shape [S<digit><digit>E<digit><digit>],
    either letter in either case. *)
Definition tagb (m : ustring) : bool :=
  match m with
  | UString s (UString d1 (UString d2 (UString e (UString d3 (UString d4 ""))))) =>
      (Uchar.eqb s "S" || Uchar.eqb s "s") && is_digit d1 && is_digit d2
      && (Uchar.eqb e "E" || Uchar.eqb e "e") && is_digit d3 && is_digit d4
  | _ => false
  end.

(** A digit group read as a plain integer, leading zeros adding nothing. *)
Definition number_of_digits (ds : ustring) : Z :=
  fold_left (fun acc c => 10 * acc + digit_value c) (Ustring.to_list ds) 0.

(** The season and episode a tag names. *)
Definition tag_numbers (m : ustring) : Z * Z :=
  (number_of_digits (Ustring.substring 1 2 m),
   number_of_digits (Ustring.substring 4 2 m)).

(** [filename] splits as [pre ++ m ++ suf] with [m] a tag. *)
Definition occurs (filename pre m suf : ustring) : Prop :=
  filename = (pre ++ m ++ suf)%ustring /\ tagb m = true.

(** No tag of [filename] starts before position [i]. *)
Definition none_before (filename : ustring) (i : nat) : Prop :=
  forall pre m suf, occurs filename pre m suf -> (i <= Ustring.length pre)%nat.

(** [s] contains no tag. *)
Definition no_occurrence (s : ustring) : Prop :=
  forall pre m suf, s = (pre ++ m ++ suf)%ustring -> tagb m = false.

(** [s] with every [':'] taken out. *)
Fixpoint without_colons (s : ustring) : ustring :=
  match s with
  | UEmpty => UEmpty
  | UString c s' =>
      if Uchar.eqb c ":" then without_colons s'
      else UString c (without_colons s')
  end.

(** A number written in decimal, with one leading zero when it has a
    single digit. *)
Definition zero_padded (n : Z) : ustring :=
  if (0 <=? n) && (n <? 10) then ("0" ++ Py.str_int n)%ustring
  else Py.str_int n.

(** The ASCII character of a decimal digit. *)
Definition digit_char (d : Z) : uchar := Z.to_N (48 + d).

(** The two-digit rendering of a number from 0 to 99. *)
Definition two_digits (n : Z) : ustring :=
  UString (digit_char (n / 10)) (UString (digit_char (n mod 10)) "").

End Spec.

(** The first match of a pattern, found by trying each position in turn;
    an auxiliary of the proofs about [Re.findall]. *)
Module Scan.

Fixpoint first_match (p : Re.pattern) (s : ustring) : option ustring :=
  match s with
  | UEmpty => None
  | UString _ s' =>
      match Re.match_here p s with
      | Some m => Some m
      | None => first_match p s'
      end
  end.

(** The position of the first match. *)
Fixpoint first_index (p : Re.pattern) (s : ustring) : option nat :=
  match s with
  | UEmpty => None
  | UString _ s' =>
      match Re.match_here p s with
      | Some _ => Some O
      | None => option_map S (first_index p s')
      end
  end.

End Scan.

(** The rename plan, entry by entry. *)
Module Plan.
Import Sys.

(** Whether a filename parses. *)
Definition parses (filename : ustring) : bool :=
  match Main.parse_episode_file filename with
  | Ret (Some _) => true
  | _ => false
  end.

(** The entry the builder computes for one file, if its name parses. *)
Definition entry (show_name : ustring) (episodes : list TvEpisode.t)
  (f : Pathlib.Path) : option Main.PathChange.t :=
  match Main.parse_episode_file (Pathlib.name f) with
  | Ret (Some (season_num, episode_num)) =>
      Some (Main.PathChange.make f
              (Pathlib.truediv (Pathlib.parent f)
                 (Main.format_filename show_name season_num episode_num
                    (Utils.find_by_attr episodes "number"
                       (Py.VInt episode_num))
                    (Pathlib.suffix f))))
  | _ => None
  end.

Definition entries (show_name : ustring) (episodes : list TvEpisode.t)
  (files : list Pathlib.Path) : list Main.PathChange.t :=
  flat_map (fun f => match entry show_name episodes f with
                     | Some c => [c]
                     | None => []
                     end) files.

End Plan.

(** A small concrete world: a file system of regular files and
    directories, a provider with one show and a user who answers the
    confirmation as told. *)
Module Demo.
Import Sys.

(** Each path with a flag that is [true] for a directory. *)
Definition fs_t : Type := list (Pathlib.Path * bool).

Fixpoint lookup (p : Pathlib.Path) (fs : fs_t) : option bool :=
  match fs with
  | [] => None
  | (q, d) :: fs' => if Pathlib.eqb q p then Some d else lookup p fs'
  end.

Definition is_dir (p : Pathlib.Path) (fs : fs_t) : bool :=
  match lookup p fs with Some d => d | None => false end.

Definition is_file (p : Pathlib.Path) (fs : fs_t) : bool :=
  match lookup p fs with Some d => negb d | None => false end.

Definition exists_ (p : Pathlib.Path) (fs : fs_t) : bool :=
  match lookup p fs with Some _ => true | None => false end.

(** The entries of a directory, in the order they are held; listing a
    path that is missing or is a regular file raises. *)
Definition listdir (p : Pathlib.Path) (fs : fs_t) : outcome (list ustring) :=
  match lookup p fs with
  | Some true =>
      Ret (map (fun e => Pathlib.name (fst e))
             (filter (fun e => negb (Pathlib.eqb (fst e) p)
                               && Pathlib.eqb (Pathlib.parent (fst e)) p) fs))
  | Some false => Raise (Error "NotADirectoryError")
  | None => Raise (Error "FileNotFoundError")
  end.

(** Renaming a regular file: the source must exist, the directory of the
    target too, and the target must not be a directory; a file already at
    the target is replaced. *)
Definition rename (old new : Pathlib.Path) (fs : fs_t) : outcome fs_t :=
  match lookup old fs with
  | None => Raise (Error "FileNotFoundError")
  | Some d =>
      if negb (is_dir (Pathlib.parent new) fs)
      then Raise (Error "FileNotFoundError")
      else if is_dir new fs then Raise (Error "IsADirectoryError")
      else if Pathlib.eqb old new then Ret fs
      else Ret (map (fun e => if Pathlib.eqb (fst e) old
                              then (new, snd e) else e)
                  (filter (fun e => negb (Pathlib.eqb (fst e) new)) fs))
  end.

Definition env (seasons : list Json.season_result)
  (episodes : list Json.episode_result) (confirm : option bool) : Env :=
  {| FS := fs_t;
     fs_exists := exists_;
     fs_is_dir := is_dir;
     fs_is_file := is_file;
     fs_listdir := listdir;
     fs_rename := rename;
     home := Pathlib.of_string "/home/user";
     cwd := Pathlib.of_string "/home/user/videos";
     http_search := fun _ => Ret [Json.mk_show "Show: Title" "2020" 7];
     http_seasons := fun _ => Ret seasons;
     http_episodes := fun _ _ => Ret episodes;
     answer_text := fun _ => Ret None;
     answer_show := fun _ _ => Ret None;
     answer_season := fun _ choices => Ret (option_map value (hd_error choices));
     answer_confirm := fun _ => Ret confirm |}.

Definition seasons : list Json.season_result :=
  [Json.mk_season "Specials" 2 (Some 0) 70;
   Json.mk_season "Season 1" 2 (Some 1) 71;
   Json.mk_season "Season 2" 3 (Some 2) 72].

(** A provider that lacks the first season of the show. *)
Definition late_seasons : list Json.season_result :=
  [Json.mk_season "Specials" 2 (Some 0) 70;
   Json.mk_season "Season 2" 3 (Some 2) 72;
   Json.mk_season "Season 3" 4 (Some 3) 73].

Definition episodes : list Json.episode_result :=
  [Json.mk_episode "Pilot" 1 101; Json.mk_episode "Second" 2 102].

Definition dir : Pathlib.Path := Pathlib.of_string "shows".

Definition files : fs_t :=
  [(dir, true);
   (Pathlib.of_string "shows/b_S01E02.mkv", false);
   (Pathlib.of_string "shows/notes.txt", false);
   (Pathlib.of_string "shows/a_S01E01.mkv", false);
   (Pathlib.of_string "shows/.hidden_S01E03.mkv", false);
   (Pathlib.of_string "shows/extras_S01E04", true)].

Definition world (E : Env) (fs : @FS E) : @World E := mkWorld fs [] [].

End Demo.

(** What [get_files] keeps of a directory. *)
Module Listing.
Import Sys.

(** A regular file whose name does not start with a dot. *)
Definition kept `{Env} (files : FS) (f : Pathlib.Path) : bool :=
  fs_is_file f files && negb (Py.startswith (Pathlib.name f) ".").

Definition path_le (p q : Pathlib.Path) : Prop := Pathlib.leb p q = true.

Definition name_le (a b : ustring) : Prop := Ustring.leb a b = true.

End Listing.

(** Season lists as the specification speaks of them. *)
Module Seasons.
Import Sys.

Definition positive (s : TvSeason.t) : Prop := 0 < TvSeason.number s.

(** The seasons of a response whose number is greater than zero, in the
    order of the response. *)
Definition regular (data : list Json.season_result) : list TvSeason.t :=
  flat_map (fun r => match Json.season_number r with
                     | Some n =>
                         if 0 <? n
                         then [TvSeason.mk (Json.season_title r)
                                 (Json.season_episode_count r) n
                                 (Json.season_trakt r)]
                         else []
                     | None => []
                     end) data.

(** A question that offers seasons offers only such seasons. *)
Definition prompt_positive (p : prompt) : Prop :=
  match p with
  | AskSeason _ choices => Forall (fun c => positive (value c)) choices
  | _ => True
  end.

End Seasons.

(** The vocabulary of the configuration properties. *)
Module ConfigSpec.
Local Open Scope string_scope.
Local Open Scope list_scope.
Local Open Scope Z_scope.


(** The value the parser holds for an option of the section. *)
Definition stored (section : string) (p : ConfigParser.t) (key : string)
  : option string :=
  if String.eqb section "" || String.eqb section ConfigParser.default_section
  then ConfigParser.dict_get (ConfigParser.defaults p) key
  else match ConfigParser.dict_get (ConfigParser.sections p) section with
       | Some d => ConfigParser.dict_get d key
       | None => None
       end.




(** The configuration [_setup] writes for a new installation. *)
Definition fresh (section : string) : ConfigParser.t :=
  ConfigParser.mk []
    [(section, [("trakt_api_key", ""); ("auto", "False"); ("confirm", "True")])].

End ConfigSpec.

(** What a run does to the file system. *)
Module Frame.
Import Sys.

(** A computation that never changes the file system. *)
Definition keeps_fs `{Env} {A} (m : M World A) : Prop :=
  forall w, fs (snd (m w)) = fs w.

(** The renames applied one after the other, stopping at the first that
    fails: the exception, if any, and the file system reached. *)
Fixpoint apply_renames `{Env} (paths : list (Pathlib.Path * Pathlib.Path))
  (files : FS) : option exn * FS :=
  match paths with
  | [] => (None, files)
  | (old_file, new_file) :: rest =>
      match fs_rename old_file new_file files with
      | Ret files' => apply_renames rest files'
      | Raise e => (Some e, files)
      end
  end.

End Frame.

(** Characters of a text. *)
Module Text.

(** [c in s] for a character [c]. *)
Fixpoint has (c : uchar) (s : ustring) : bool :=
  match s with
  | UEmpty => false
  | UString a s' => Uchar.eqb a c || has c s'
  end.

(** [t in s] for a text [t]: [t] starts at some position of [s]. *)
Fixpoint contains (t s : ustring) : bool :=
  match s with
  | UEmpty => Ustring.prefix t s
  | UString _ s' => Ustring.prefix t s || contains t s'
  end.

End Text.

(** What a run reports. *)
Module Report.
Import Sys.

(** The panel [error] prints. *)
Definition error_panel (message : ustring) : renderable :=
  Panel message "Error" "red" "left".

(** The world after [error(message)]. *)
Definition failed `{Env} (w : World) (message : ustring) : World :=
  mkWorld (fs w) (console w ++ [error_panel message]) (asked w).

(** The world after a question. *)
Definition questioned `{Env} (w : World) (p : prompt) : World :=
  mkWorld (fs w) (console w) (asked w ++ [p]).

(** The world after [console.print]. *)
Definition printed `{Env} (w : World) (r : renderable) : World :=
  mkWorld (fs w) (console w ++ [r]) (asked w).

(** The panel [confirm_changes] prints. *)
Definition plan_panel `{Env} (changes : list Main.PathChange.t)
  (path : Pathlib.Path) : renderable :=
  Panel (Main.changes_display changes)
    ("[cyan]" ++ Utils.short_path (Pathlib.absolute cwd path) ++ "[/cyan]")%ustring
    "bold yellow" "center".

(** The closing message of a run. *)
Definition done : renderable := Text "Done!" "bold green".

Definition is_panel (r : renderable) : Prop :=
  match r with Panel _ _ _ _ => True | Text _ _ => False end.

(** A computation that prints nothing but panels. *)
Definition prints_panels `{Env} {A} (m : M World A) : Prop :=
  forall w, exists added,
    console (snd (m w)) = console w ++ added /\ Forall is_panel added.

(** A computation that prints panels and then, if it returns, [Done!]. *)
Definition closes_with_done `{Env} {A} (m : M World A) : Prop :=
  forall w, exists panels,
    Forall is_panel panels
    /\ console (snd (m w))
       = match fst (m w) with
         | Ret _ => console w ++ panels ++ [done]
         | Raise _ => console w ++ panels
         end.

End Report.

(** [ConfigParser.get] with the default [BasicInterpolation]. *)
Module ConfigParserGet.
Local Open Scope string_scope.
Local Open Scope list_scope.
Local Open Scope Z_scope.
Import Sys.

(** The chain of the section and the defaults [get] looks options up in;
    a section that is missing raises unless it is the default one. *)
Definition unify_values (p : ConfigParser.t) (section : string)
  : outcome (string -> option string) :=
  match ConfigParser.dict_get (ConfigParser.sections p) section with
  | Some d =>
      Ret (fun k => match ConfigParser.dict_get d k with
                    | Some v => Some v
                    | None => ConfigParser.dict_get (ConfigParser.defaults p) k
                    end)
  | None =>
      if String.eqb section ConfigParser.default_section
      then Ret (ConfigParser.dict_get (ConfigParser.defaults p))
      else Raise (Error "NoSectionError")
  end.

(** The loop of [_interpolate_some] over the text still to be read: text
    up to a [%] is copied, [%%] gives [%], [%(name)s] gives the value of
    [name], interpolated in turn by [deeper] when it holds a [%]; any
    other [%] is a syntax error.  [skip] counts the characters of the
    construct just read that are still to be passed over. *)
Fixpoint interpolate_loop (deeper : string -> outcome string)
  (map : string -> option string) (skip : nat) (rest : string)
  : outcome string :=
  match rest with
  | EmptyString => Ret EmptyString
  | String c rest' =>
      match skip with
      | S k => interpolate_loop deeper map k rest'
      | O =>
          if negb (Ascii.eqb c "%") then
            match interpolate_loop deeper map 0 rest' with
            | Ret out => Ret (String c out)
            | Raise e => Raise e
            end
          else
            match rest' with
            | String "%" _ =>
                match interpolate_loop deeper map 1 rest' with
                | Ret out => Ret (String "%" out)
                | Raise e => Raise e
                end
            | String "(" _ =>
                match ConfigParser.key_len rest with
                | None => Raise (Error "InterpolationSyntaxError")
                | Some n =>
                    let var := Latin1.lower (Latin1.slice 2 (n - 2) rest) in
                    match map var with
                    | None => Raise (Error "InterpolationMissingOptionError")
                    | Some v =>
                        match (if ConfigParser.contains_char "%" v
                               then deeper v else Ret v) with
                        | Raise e => Raise e
                        | Ret value =>
                            match interpolate_loop deeper map (n - 1) rest'
                            with
                            | Ret out => Ret (value ++ out)%string
                            | Raise e => Raise e
                            end
                        end
                    end
                end
            | _ => Raise (Error "InterpolationSyntaxError")
            end
      end
  end.

(** [_interpolate_some] at a depth that leaves [fuel] levels below
    [MAX_INTERPOLATION_DEPTH]. *)
Fixpoint interpolate_some (fuel : nat) (map : string -> option string)
  (rest : string) : outcome string :=
  match fuel with
  | O => Raise (Error "InterpolationDepthError")
  | S fuel' => interpolate_loop (interpolate_some fuel' map) map 0 rest
  end.

Definition MAX_INTERPOLATION_DEPTH : nat := 10.

(** [parser.get(section, option)] *)
Definition get (p : ConfigParser.t) (section option : string)
  : outcome string :=
  match unify_values p section with
  | Raise e => Raise e
  | Ret d =>
      match d (Latin1.lower option) with
      | None => Raise (Error "NoOptionError")
      | Some value => interpolate_some MAX_INTERPOLATION_DEPTH d value
      end
  end.

End ConfigParserGet.

(** [tvfmt/config.py], the reading side of [CliConfig], and
    [get_api_key] of [tvfmt/main.py], which reads through it. *)
Module CliConfig.
Local Open Scope string_scope.
Local Open Scope list_scope.
Local Open Scope Z_scope.
Import Sys.

Section Reading.
Variable APP_NAME : string.

(** [CliConfig.get(key)] *)
Definition get (key : Config.CliConfigKey) : M Config.State string :=
  fun s =>
    (ConfigParserGet.get (Config.parser s) APP_NAME (Config.key_value key), s).

(** [CliConfig.__str__] *)
Definition to_str : M Config.State string :=
  (api_key <- get Config.TRAKT_API_KEY ;;
   confirm <- get Config.CONFIRM ;;
   auto <- get Config.AUTO ;;
   ret ("trakt_api_key: " ++ api_key ++ ConfigParser.newline
          ++ "confirm: " ++ confirm ++ ConfigParser.newline
          ++ "auto: " ++ auto)%string)%eff.

(** [error(message)] and [exit_on_null(message)] of [tvfmt/main.py], where
    the console is the one of the configuration's state. *)
Definition error {A} (message : string) : M Config.State A :=
  (Config.console_print (Panel message "Error" "red" "left") ;;;
   raise (Exit 1))%eff.

Definition exit_on_null {R} `{Main.Nullish R} (message : string)
  (func : M Config.State R) : M Config.State R :=
  (result <- func ;;
   if Main.is_null result then error message else ret result)%eff.

(** A [str] is neither [None] nor a list. *)
#[global] Instance Nullish_string : Main.Nullish string := fun _ => false.

(** [get_api_key()], [environ] being the value of the environment
    variable [TRAKT_API_KEY], if it is set. *)
Definition get_api_key (environ : option string) : M Config.State string :=
  exit_on_null "TRAKT_API_KEY not set in config or as an environment variable."
    (match environ with
     | None | Some EmptyString => get Config.TRAKT_API_KEY
     | Some trakt_api_key => ret trakt_api_key
     end).

End Reading.

End CliConfig.

(* ================================================================== *)
(** * Properties *)
(* ================================================================== *)

(** ** Unicode text *)

Section UnicodeText.

Lemma uchar_eqb_spec (a b : uchar) : reflect (a = b) (Uchar.eqb a b).
Proof. apply N.eqb_spec. Qed.

Lemma uchar_eqb_refl (a : uchar) : Uchar.eqb a a = true.
Proof. apply N.eqb_refl. Qed.

Lemma uchar_compare_eq_iff (a b : uchar) : Uchar.compare a b = Eq <-> a = b.
Proof. apply N.compare_eq_iff. Qed.

Lemma ustring_eqb_eq (a b : ustring) : Ustring.eqb a b = true <-> a = b.
Proof.
  revert b; induction a as [|c a IH]; intros [|d b]; simpl;
    try (split; [discriminate|congruence]); try easy.
  rewrite andb_true_iff, IH. unfold Uchar.eqb. rewrite N.eqb_eq.
  split; [intros [-> ->]; reflexivity|intros [= -> ->]; now split].
Qed.

Lemma ustring_eqb_refl (a : ustring) : Ustring.eqb a a = true.
Proof. now apply ustring_eqb_eq. Qed.

Lemma ustring_eqb_neq (a b : ustring) : Ustring.eqb a b = false <-> a <> b.
Proof.
  rewrite <- ustring_eqb_eq. destruct (Ustring.eqb a b); split; congruence.
Qed.

Lemma ustring_eqb_sym (a b : ustring) : Ustring.eqb a b = Ustring.eqb b a.
Proof.
  destruct (Ustring.eqb a b) eqn:AB; symmetry.
  - apply ustring_eqb_eq. symmetry. now apply ustring_eqb_eq.
  - apply ustring_eqb_neq. intros ->. now rewrite ustring_eqb_refl in AB.
Qed.

Lemma ustring_compare_antisym (a b : ustring) :
  Ustring.compare a b = CompOpp (Ustring.compare b a).
Proof.
  revert b; induction a as [|c a IH]; intros [|d b]; simpl; try reflexivity.
  unfold Uchar.compare. rewrite (N.compare_antisym c d).
  destruct (c ?= d)%N; simpl; [apply IH|reflexivity|reflexivity].
Qed.

Lemma ustring_compare_eq_iff (a b : ustring) :
  Ustring.compare a b = Eq <-> a = b.
Proof.
  revert b; induction a as [|c a IH]; intros [|d b]; simpl;
    try (split; [discriminate|congruence]); try easy.
  destruct (Uchar.compare c d) eqn:CD.
  - apply uchar_compare_eq_iff in CD. subst d. rewrite IH.
    split; [now intros ->|now intros [= ->]].
  - split; [discriminate|]. intros [= -> _].
    unfold Uchar.compare in CD. now rewrite N.compare_refl in CD.
  - split; [discriminate|]. intros [= -> _].
    unfold Uchar.compare in CD. now rewrite N.compare_refl in CD.
Qed.

(** The text of an 8-bit string has its length. *)
Lemma of_string_length (s : string) :
  Ustring.length (Ustring.of_string s) = String.length s.
Proof. induction s as [|c s IH]; [reflexivity|]. simpl. now rewrite IH. Qed.

(** The characters that have a decimal value are the digits, and the value
    of a digit is below ten. *)
Lemma isdecimal_is_digit (c : uchar) : Py.isdecimal c = Spec.is_digit c.
Proof.
  unfold Py.isdecimal, Spec.is_digit, Uchar.decimal.
  induction Uchar.decimal_zeros as [|zero l IH]; [reflexivity|].
  cbn [find existsb].
  destruct ((zero <=? c) && (c <? zero + 10))%N; [reflexivity|exact IH].
Qed.

Lemma decimal_value (c : uchar) (d : N) :
  Uchar.decimal c = Some d -> (d < 10)%N.
Proof.
  unfold Uchar.decimal.
  destruct (find _ Uchar.decimal_zeros) as [zero|] eqn:F; [|discriminate].
  apply find_some in F. destruct F as [_ F].
  apply andb_prop in F. destruct F as [L U].
  apply N.leb_le in L. apply N.ltb_lt in U.
  intros [= <-]. lia.
Qed.

Lemma digit_value_range (c : uchar) : 0 <= Spec.digit_value c <= 9.
Proof.
  unfold Spec.digit_value. destruct (Uchar.decimal c) as [d|] eqn:D; [|lia].
  apply decimal_value in D. lia.
Qed.

Lemma is_digit_decimal (c : uchar) :
  Spec.is_digit c = true ->
  Uchar.decimal c = Some (Z.to_N (Spec.digit_value c)).
Proof.
  rewrite <- isdecimal_is_digit. unfold Py.isdecimal, Spec.digit_value.
  destruct (Uchar.decimal c) as [d|]; [|discriminate].
  intros _. now rewrite N2Z.id.
Qed.

End UnicodeText.

(** ** The filename parser *)

Section Parser.
Import Sys.

Lemma findall_head (p : Re.pattern) (s : ustring) :
  hd_error (Re.findall p s) = Scan.first_match p s.
Proof.
  unfold Re.findall.
  induction s as [|c s IH]; [reflexivity|].
  cbn [Re.findall_from Scan.first_match].
  destruct (Re.match_here p (UString c s)) as [m|]; [reflexivity|exact IH].
Qed.

Lemma match_here_tag (s : ustring) :
  Re.match_here Main.pattern s =
  if Spec.tagb (Py.slice_to 6 s) then Some (Py.slice_to 6 s) else None.
Proof.
  unfold Main.pattern, Re.digit, Re.one_of.
  destruct s as [|a [|b [|c [|d [|e [|f suf]]]]]];
    cbn [Re.match_here Py.slice_to Spec.tagb Ustring.to_list existsb option_map];
    rewrite ?isdecimal_is_digit, ?orb_false_r;
    repeat match goal with
           | |- context [Spec.is_digit ?x] => generalize (Spec.is_digit x); intros []
           | |- context [Uchar.eqb ?x ?y] => generalize (Uchar.eqb x y); intros []
           end; reflexivity.
Qed.

Lemma tag_shape (m : ustring) :
  Spec.tagb m = true ->
  exists s d1 d2 e d3 d4,
    m = UString s (UString d1 (UString d2 (UString e (UString d3 (UString d4 ""))))).
Proof.
  destruct m as [|s [|d1 [|d2 [|e [|d3 [|d4 [|x r]]]]]]]; try discriminate.
  intros _. now exists s, d1, d2, e, d3, d4.
Qed.

Lemma tag_prefix (m suf : ustring) :
  Spec.tagb m = true -> Py.slice_to 6 (m ++ suf) = m.
Proof.
  intros H. destruct (tag_shape m H) as (s & d1 & d2 & e & d3 & d4 & ->).
  reflexivity.
Qed.

Lemma slice_split (n : nat) (s : ustring) :
  s = (Py.slice_to n s ++ Py.slice_from n s)%ustring.
Proof.
  revert s; induction n as [|n IH]; intros [|c s]; simpl; try reflexivity.
  f_equal. apply IH.
Qed.

Lemma match_here_occurs (s m : ustring) :
  Re.match_here Main.pattern s = Some m ->
  Spec.occurs s "" m (Py.slice_from 6 s).
Proof.
  rewrite match_here_tag.
  destruct (Spec.tagb (Py.slice_to 6 s)) eqn:T; [|discriminate].
  intros [= <-]. split; [apply (slice_split 6 s)|exact T].
Qed.

Lemma occurs_cons (c : uchar) (s pre m suf : ustring) :
  Spec.occurs s pre m suf -> Spec.occurs (UString c s) (UString c pre) m suf.
Proof. intros [-> T]. split; [reflexivity|exact T]. Qed.

Lemma none_before_tail (c : uchar) (s : ustring) (i : nat) :
  Spec.none_before (UString c s) (S i) -> Spec.none_before s i.
Proof.
  intros H pre m suf O. apply occurs_cons with (c := c) in O.
  apply H in O. simpl in O. lia.
Qed.

Lemma no_occurrence_tail (c : uchar) (s : ustring) :
  Spec.no_occurrence (UString c s) -> Spec.no_occurrence s.
Proof. intros H pre m suf ->. apply (H (UString c pre) m suf). reflexivity. Qed.

Lemma first_match_leftmost (pre m suf : ustring) :
  Spec.tagb m = true ->
  Spec.none_before (pre ++ m ++ suf) (Ustring.length pre) ->
  Scan.first_match Main.pattern (pre ++ m ++ suf) = Some m.
Proof.
  intros T. induction pre as [|c pre IH]; intros NB.
  - destruct (tag_shape m T) as (s & d1 & d2 & e & d3 & d4 & ->).
    cbn [Ustring.append Scan.first_match]. rewrite match_here_tag.
    cbn [Py.slice_to]. now rewrite T.
  - cbn [Ustring.append Scan.first_match].
    destruct (Re.match_here _ _) as [m'|] eqn:MH.
    + apply match_here_occurs in MH. apply NB in MH. simpl in MH. lia.
    + apply IH. apply (none_before_tail c). exact NB.
Qed.

Lemma first_match_none (s : ustring) :
  Spec.no_occurrence s -> Scan.first_match Main.pattern s = None.
Proof.
  induction s as [|c s IH]; intros NO; [reflexivity|].
  cbn [Scan.first_match].
  destruct (Re.match_here _ _) as [m'|] eqn:MH.
  - apply match_here_occurs in MH. destruct MH as [EQ T].
    rewrite (NO _ _ _ EQ) in T. discriminate.
  - apply IH. apply (no_occurrence_tail c). exact NO.
Qed.

(** Conversely, what the scan finds is the leftmost tag. *)
Lemma first_match_sound (s m : ustring) :
  Scan.first_match Main.pattern s = Some m ->
  exists pre suf,
    Spec.occurs s pre m suf /\ Spec.none_before s (Ustring.length pre).
Proof.
  induction s as [|c s IH]; [discriminate|].
  cbn [Scan.first_match].
  destruct (Re.match_here _ _) as [m'|] eqn:MH.
  - intros [= ->]. exists "", (Py.slice_from 6 (UString c s)).
    split; [apply match_here_occurs; exact MH|].
    intros pre m0 suf _. simpl. lia.
  - intros FM. destruct (IH FM) as (pre & suf & O & NB).
    exists (UString c pre), suf. split; [apply occurs_cons; exact O|].
    intros pre' m' suf' O'. destruct pre' as [|c' pre'].
    + exfalso. destruct O' as [EQ T]. cbn [Ustring.append] in EQ.
      rewrite match_here_tag in MH. rewrite EQ, tag_prefix, T in MH by exact T.
      discriminate.
    + destruct O' as [EQ T]. cbn [Ustring.append] in EQ. injection EQ as -> EQ.
      simpl. apply le_n_S. apply (NB pre' m' suf'). split; assumption.
Qed.

Lemma first_match_none_sound (s : ustring) :
  Scan.first_match Main.pattern s = None -> Spec.no_occurrence s.
Proof.
  induction s as [|c s IH]; intros FM pre m suf EQ.
  - destruct (Spec.tagb m) eqn:T; [|reflexivity].
    destruct (tag_shape m T) as (x1 & x2 & x3 & x4 & x5 & x6 & ->).
    destruct pre; discriminate.
  - cbn [Scan.first_match] in FM.
    destruct (Re.match_here _ _) as [m'|] eqn:MH; [discriminate|].
    destruct pre as [|c' pre].
    + cbn [Ustring.append] in EQ. rewrite match_here_tag, EQ in MH.
      destruct (Spec.tagb m) eqn:T; [|reflexivity].
      rewrite tag_prefix, T in MH by exact T. discriminate.
    + cbn [Ustring.append] in EQ. injection EQ as _ EQ. exact (IH FM pre m suf EQ).
Qed.

Lemma tag_ints (m : ustring) :
  Spec.tagb m = true ->
  Main.int_or_raise (Py.slice 1 3 m) = Ret (fst (Spec.tag_numbers m)) /\
  Main.int_or_raise (Py.slice_from 4 m) = Ret (snd (Spec.tag_numbers m)).
Proof.
  intros T. destruct (tag_shape m T) as (s & d1 & d2 & e & d3 & d4 & ->).
  cbn [Spec.tagb] in T.
  repeat (apply andb_prop in T; destruct T as [T ?]).
  unfold Main.int_or_raise, Py.int, Spec.tag_numbers.
  cbn [Py.slice Py.slice_to Py.slice_from Py.int_digits Ustring.substring
         fst snd].
  repeat match goal with
         | H : Spec.is_digit _ = true |- _ =>
             apply is_digit_decimal in H; rewrite H; clear H
         end.
  unfold Spec.number_of_digits. cbn [fold_left Ustring.to_list].
  rewrite !Z2N.id by apply (proj1 (digit_value_range _)).
  split; reflexivity.
Qed.

Lemma parse_of_first_match (filename : ustring) :
  Main.parse_episode_file filename =
  Ret (option_map Spec.tag_numbers (Scan.first_match Main.pattern filename)).
Proof.
  unfold Main.parse_episode_file.
  pose proof (findall_head Main.pattern filename) as HD.
  destruct (Re.findall Main.pattern filename) as [|m0 rest]; simpl in HD.
  - now rewrite <- HD.
  - rewrite <- HD. destruct (first_match_sound filename m0 (eq_sym HD))
      as (pre & suf & [_ T] & _).
    destruct (tag_ints m0 T) as [-> ->]. reflexivity.
Qed.

(** The position the scan stops at bounds every tag from the left. *)
Lemma first_index_none_before (s : ustring) (i : nat) :
  Scan.first_index Main.pattern s = Some i -> Spec.none_before s i.
Proof.
  revert i; induction s as [|c s IH]; intros i; [discriminate|].
  cbn [Scan.first_index].
  destruct (Re.match_here _ _) as [m'|] eqn:MH.
  - intros [= <-] pre m suf _. lia.
  - destruct (Scan.first_index Main.pattern s) as [j|]; [|discriminate].
    intros [= <-] pre m suf [EQ T]. destruct pre as [|c' pre].
    + cbn [Ustring.append] in EQ. rewrite match_here_tag, EQ, tag_prefix, T in MH
        by exact T. discriminate.
    + cbn [Ustring.append] in EQ. injection EQ as _ EQ. simpl. apply le_n_S.
      apply (IH j eq_refl pre m suf). split; assumption.
Qed.

(** C2: a filename that contains a text matching [[Ss]\d{2}[Ee]\d{2}] parses
    to the season and episode read, as plain integers, from the two digit
    groups of the leftmost such text; a filename that contains none parses
    to no match.  The digits are the decimal digits of any script, read by
    their values.  The parser never raises. *)
Theorem parse_episode_file_first_occurrence (filename : ustring) :
  (forall pre m suf,
      Spec.occurs filename pre m suf ->
      Spec.none_before filename (Ustring.length pre) ->
      Main.parse_episode_file filename = Ret (Some (Spec.tag_numbers m)))
  /\ ((exists pre m suf, Spec.occurs filename pre m suf) ->
      exists pre m suf,
        Spec.occurs filename pre m suf
        /\ Spec.none_before filename (Ustring.length pre)
        /\ Main.parse_episode_file filename = Ret (Some (Spec.tag_numbers m)))
  /\ (Spec.no_occurrence filename ->
      Main.parse_episode_file filename = Ret None).
Proof.
  rewrite parse_of_first_match. repeat split.
  - intros pre m suf [-> T] NB.
    now rewrite (first_match_leftmost pre m suf T NB).
  - intros (pre & m & suf & [EQ T]).
    destruct (Scan.first_match Main.pattern filename) as [m0|] eqn:FM.
    + destruct (first_match_sound _ _ FM) as (pre0 & suf0 & O & NB).
      exists pre0, m0, suf0. repeat split; try assumption; apply O.
    + apply first_match_none_sound in FM. rewrite (FM _ _ _ EQ) in T.
      discriminate.
  - intros NO. now rewrite (first_match_none _ NO).
Qed.

Lemma parse_episode_file_first_occurrence_witness :
  let arabic_devanagari_fullwidth :=
    (Ustring.of_list [115; 1633; 1634; 69; 2406; 65303]%N ++ ".mkv")%ustring in
  let superscript_two :=
    (UString "S" (UString 178%N "1E01.") ++ "S02E03.mkv")%ustring in
  Main.parse_episode_file "Show.Name.S01E05.mkv" = Ret (Some (1, 5))
  /\ Main.parse_episode_file "s02e03.S01E05.mkv" = Ret (Some (2, 3))
  /\ Main.parse_episode_file "random_file.txt" = Ret None
  /\ Main.parse_episode_file arabic_devanagari_fullwidth = Ret (Some (12, 7))
  /\ Main.parse_episode_file superscript_two = Ret (Some (2, 3)).
Proof.
  intros arabic_devanagari_fullwidth superscript_two.
  split; [|split; [|split; [|split]]].
  - apply (proj1 (parse_episode_file_first_occurrence "Show.Name.S01E05.mkv")
             "Show.Name." "S01E05" ".mkv").
    + split; reflexivity.
    + apply first_index_none_before. reflexivity.
  - apply (proj1 (parse_episode_file_first_occurrence "s02e03.S01E05.mkv")
             "" "s02e03" ".S01E05.mkv").
    + split; reflexivity.
    + apply first_index_none_before. reflexivity.
  - apply (proj2 (proj2 (parse_episode_file_first_occurrence "random_file.txt"))).
    apply first_match_none_sound. reflexivity.
  - apply (proj1 (parse_episode_file_first_occurrence
                    arabic_devanagari_fullwidth)
             "" (Ustring.of_list [115; 1633; 1634; 69; 2406; 65303]%N) ".mkv").
    + split; reflexivity.
    + apply first_index_none_before. reflexivity.
  - apply (proj1 (parse_episode_file_first_occurrence superscript_two)
             (UString "S" (UString 178%N "1E01.")) "S02E03" ".mkv").
    + split; reflexivity.
    + apply first_index_none_before. reflexivity.
Defined.

End Parser.

(** ** The filename template *)

Section Format.
Import Sys.

Lemma replace_colons (s : ustring) :
  Py.replace ":" "" s = Spec.without_colons s.
Proof.
  unfold Py.replace. induction s as [|c s IH]; [reflexivity|].
  cbn [Py.replace_from Spec.without_colons Ustring.prefix].
  destruct (uchar_eqb_spec c ":") as [->|NE].
  - rewrite uchar_eqb_refl. exact IH.
  - destruct (uchar_eqb_spec ":" c) as [<-|_]; [contradiction|].
    now rewrite IH.
Qed.

Lemma str_int_neg (p : positive) :
  Py.str_int (Z.neg p) = UString "-" (Py.str_int (Z.pos p)).
Proof. reflexivity. Qed.

Lemma uint_length_pos (p : positive) :
  (10 <= Z.pos p) ->
  (2 <= String.length (NilZero.string_of_uint (Pos.to_uint p)))%nat.
Proof.
  intros H. pose proof (Unsigned.of_to p) as OT.
  destruct (Pos.to_uint p) as [|u|u|u|u|u|u|u|u|u|u]; try discriminate;
    destruct u; try (simpl; lia); cbn in OT; try discriminate;
    injection OT as <-; lia.
Qed.

Lemma str_int_nonempty (n : Z) : (1 <= Py.len (Py.str_int n))%nat.
Proof.
  unfold Py.str_int, Py.len. rewrite of_string_length.
  destruct n as [|p|p]; simpl; try lia.
  pose proof (Unsigned.to_uint_nonnil p) as NN.
  destruct (Pos.to_uint p); simpl; try lia; contradiction.
Qed.

Lemma str_int_one_digit (n : Z) :
  0 <= n < 10 -> Py.len (Py.str_int n) = 1%nat.
Proof.
  intros R.
  assert (forallb (fun k => Nat.eqb (Py.len (Py.str_int (Z.of_nat k))) 1)
            (seq 0 10) = true) as CHK by (vm_compute; reflexivity).
  rewrite forallb_forall in CHK.
  specialize (CHK (Z.to_nat n)). rewrite Z2Nat.id in CHK by lia.
  apply Nat.eqb_eq, CHK, in_seq. lia.
Qed.

Lemma format_02_zero_padded (n : Z) : Py.format_02 n = Spec.zero_padded n.
Proof.
  unfold Py.format_02, Spec.zero_padded.
  destruct (Z.ltb_spec n 0) as [NEG|NN].
  - destruct n as [|p|p]; try lia.
    replace ((0 <=? Z.neg p) && (Z.neg p <? 10)) with false by reflexivity.
    change (Z.abs (Z.neg p)) with (Z.pos p). rewrite str_int_neg.
    pose proof (str_int_nonempty (Z.pos p)) as L. unfold Py.len in *.
    cbn [Ustring.length].
    replace (2 - 1 - _)%nat with O by lia. reflexivity.
  - rewrite Z.abs_eq by exact NN.
    destruct (Z.leb_spec 0 n) as [_|]; [|lia].
    destruct (Z.ltb_spec n 10) as [SMALL|BIG]; cbn [andb].
    + rewrite (str_int_one_digit n) by lia. reflexivity.
    + destruct n as [|p|p]; try lia.
      pose proof (uint_length_pos p BIG) as L.
      unfold Py.len, Py.str_int. cbn [Z.to_int NilZero.string_of_int].
      rewrite of_string_length. cbn [Ustring.length].
      replace (2 - 0 - _)%nat with O by lia. reflexivity.
Qed.


Lemma zero_padded_two_digits (n : Z) :
  0 <= n <= 99 -> Spec.zero_padded n = Spec.two_digits n.
Proof.
  intros R.
  assert (forallb (fun k => Ustring.eqb (Spec.zero_padded (Z.of_nat k))
                              (Spec.two_digits (Z.of_nat k)))
            (seq 0 100) = true) as CHK by (vm_compute; reflexivity).
  rewrite forallb_forall in CHK.
  specialize (CHK (Z.to_nat n)). rewrite Z2Nat.id in CHK by lia.
  apply ustring_eqb_eq, CHK, in_seq. lia.
Qed.

Lemma two_digits_read (n : Z) :
  0 <= n <= 99 ->
  Spec.is_digit (Spec.digit_char (n / 10)) = true
  /\ Spec.is_digit (Spec.digit_char (n mod 10)) = true
  /\ Spec.number_of_digits (Spec.two_digits n) = n.
Proof.
  intros R.
  assert (forallb (fun k =>
                     Spec.is_digit (Spec.digit_char (Z.of_nat k / 10))
                     && Spec.is_digit (Spec.digit_char (Z.of_nat k mod 10))
                     && (Spec.number_of_digits (Spec.two_digits (Z.of_nat k))
                         =? Z.of_nat k))
            (seq 0 100) = true) as CHK by (vm_compute; reflexivity).
  rewrite forallb_forall in CHK.
  specialize (CHK (Z.to_nat n)). rewrite Z2Nat.id in CHK by lia.
  assert (In (Z.to_nat n) (seq 0 100)) as I by (apply in_seq; lia).
  apply CHK in I. apply andb_prop in I. destruct I as [I N].
  apply andb_prop in I. destruct I as [A B]. apply Z.eqb_eq in N. auto.
Qed.

(** The tag the template writes for a season and an episode. *)
Lemma template_tag (season episode : Z) :
  0 <= season <= 99 -> 0 <= episode <= 99 ->
  let m := ("S" ++ Spec.two_digits season ++ "E" ++ Spec.two_digits episode)%ustring in
  Spec.tagb m = true /\ Spec.tag_numbers m = (season, episode).
Proof.
  intros RS RE m.
  destruct (two_digits_read season RS) as (A & B & N1).
  destruct (two_digits_read episode RE) as (C & D & N2).
  subst m. unfold Spec.two_digits in *. unfold Spec.tag_numbers.
  cbn [Ustring.append Spec.tagb Ustring.substring].
  rewrite A, B, C, D, N1, N2. split; reflexivity.
Qed.

(** A character no class of the pattern accepts ends every match that would
    run across it. *)
Lemma match_here_stop (p : Re.pattern) (c : uchar) (y x m : ustring) :
  Forall (fun cls => cls c = false) p ->
  Re.match_here p (y ++ UString c x) = Some m ->
  Re.match_here p y = Some m.
Proof.
  intros F; revert y m; induction F as [|cls p NC F IH]; intros y m.
  - simpl. auto.
  - destruct y as [|a y]; cbn [Ustring.append Re.match_here].
    + rewrite NC. discriminate.
    + destruct (cls a); [|discriminate].
      destruct (Re.match_here p (y ++ UString c x)) as [m'|] eqn:MH;
        [|discriminate].
      now rewrite (IH y m' MH).
Qed.

Lemma space_in_no_class : Forall (fun cls : Re.char_class => cls " "%uchar = false) Main.pattern.
Proof. repeat constructor. Qed.

Lemma first_match_after_clean (a m suf : ustring) :
  Spec.no_occurrence a -> Spec.tagb m = true ->
  Scan.first_match Main.pattern (a ++ UString " " (m ++ suf)) = Some m.
Proof.
  intros NO T. induction a as [|c a IH].
  - cbn [Ustring.append Scan.first_match].
    replace (Re.match_here Main.pattern (UString " " (m ++ suf))) with (@None ustring)
      by reflexivity.
    apply (first_match_leftmost "" m suf T).
    intros pre m' suf' _. simpl. lia.
  - cbn [Ustring.append Scan.first_match].
    destruct (Re.match_here _ _) as [m'|] eqn:MH.
    + change (UString c (a ++ UString " " (m ++ suf)))
        with (UString c a ++ UString " " (m ++ suf))%ustring in MH.
      apply (match_here_stop _ _ _ _ _ space_in_no_class) in MH.
      apply match_here_occurs in MH. destruct MH as [EQ T'].
      rewrite (NO _ _ _ EQ) in T'. discriminate.
    + apply IH. apply (no_occurrence_tail c). exact NO.
Qed.

Lemma parse_format_roundtrip {A} `{Py.Str A} (show_name : ustring) (season episode : Z)
  (episode_name : A) (ext : ustring) :
  Spec.no_occurrence (Py.replace ":" "" show_name) ->
  0 <= season <= 99 -> 0 <= episode <= 99 ->
  Main.parse_episode_file
    (Main.format_filename show_name season episode episode_name ext)
  = Ret (Some (season, episode)).
Proof.
  intros NO RS RE. rewrite parse_of_first_match. unfold Main.format_filename.
  rewrite !format_02_zero_padded, !zero_padded_two_digits by assumption.
  destruct (template_tag season episode RS RE) as [T N].
  set (m := ("S" ++ Spec.two_digits season ++ "E" ++ Spec.two_digits episode)%ustring) in *.
  match goal with
  | |- context [Scan.first_match _ ?x] =>
      change x
        with (Py.replace ":" "" show_name
                ++ UString " " (m ++ (" " ++ Py.str episode_name ++ ext)))%ustring
  end.
  rewrite (first_match_after_clean _ m _ NO T). simpl. now rewrite N.
Qed.

(** C4: the new filename is the show name without its [':'] characters,
    [" S"], the season zero-padded to two digits, ["E"], the episode
    zero-padded to two digits, a space, the episode name and the extension
    as given; a season or episode from 0 to 99 is written with exactly two
    digits. *)
Theorem format_filename_layout (show_name : ustring) (season episode : Z)
  (episode_name ext : ustring) :
  Main.format_filename show_name season episode episode_name ext
  = (Spec.without_colons show_name ++ " S" ++ Spec.zero_padded season
       ++ "E" ++ Spec.zero_padded episode ++ " " ++ episode_name ++ ext)%ustring
  /\ (0 <= season <= 99 -> Spec.zero_padded season = Spec.two_digits season)
  /\ (0 <= episode <= 99 -> Spec.zero_padded episode = Spec.two_digits episode)
  /\ Main.format_filename "Show: Title" 1 5 "Pilot" ".mkv"
     = "Show Title S01E05 Pilot.mkv".
Proof.
  repeat split; try apply zero_padded_two_digits.
  unfold Main.format_filename.
  now rewrite replace_colons, !format_02_zero_padded.
Qed.

Lemma format_filename_layout_witness :
  Spec.zero_padded 1 = "01" /\ Spec.zero_padded 5 = "05".
Proof.
  destruct (format_filename_layout "Show: Title" 1 5 "Pilot" ".mkv")
    as (_ & S & Ep & _).
  split; [apply S | apply Ep]; lia.
Defined.

End Format.

(** ** The rename plan builder *)

Section PlanBuilder.
Import Sys.
Context `{E : Env}.

Lemma parses_first_match (filename : ustring) :
  Plan.parses filename =
  match Scan.first_match Main.pattern filename with
  | Some _ => true
  | None => false
  end.
Proof.
  unfold Plan.parses. rewrite parse_of_first_match.
  now destruct (Scan.first_match Main.pattern filename).
Qed.

(** A filename parses exactly when it contains a tag. *)
Lemma parses_iff_occurs (filename : ustring) :
  Plan.parses filename = true <->
  exists pre m suf, Spec.occurs filename pre m suf.
Proof.
  rewrite parses_first_match.
  destruct (Scan.first_match Main.pattern filename) as [m|] eqn:FM; split.
  - intros _. destruct (first_match_sound _ _ FM) as (pre & suf & O & _).
    now exists pre, m, suf.
  - reflexivity.
  - discriminate.
  - intros (pre & m & suf & [EQ T]).
    apply first_match_none_sound in FM. rewrite (FM _ _ _ EQ) in T.
    discriminate.
Qed.

Lemma entry_parses (show_name : ustring) (episodes : list TvEpisode.t)
  (f : Pathlib.Path) :
  Plan.parses (Pathlib.name f) =
  match Plan.entry show_name episodes f with Some _ => true | None => false end.
Proof.
  unfold Plan.parses, Plan.entry.
  destruct (Main.parse_episode_file (Pathlib.name f)) as [[[s e]|]|];
    reflexivity.
Qed.

Lemma entry_old (show_name : ustring) (episodes : list TvEpisode.t)
  (f : Pathlib.Path) (c : Main.PathChange.t) :
  Plan.entry show_name episodes f = Some c -> Main.PathChange.old c = f.
Proof.
  unfold Plan.entry.
  destruct (Main.parse_episode_file (Pathlib.name f)) as [[[s e]|]|];
    try discriminate.
  now intros [= <-].
Qed.

(** The loop appends the entries of the files it visits, in their order,
    and leaves the world as it is. *)
Lemma get_file_changes_loop_entries (files : list Pathlib.Path)
  (show_name : ustring) (episodes : list TvEpisode.t)
  (changes : list Main.PathChange.t) (w : World) :
  Main.get_file_changes_loop files show_name episodes changes w
  = (Ret (changes ++ Plan.entries show_name episodes files), w).
Proof.
  revert changes; induction files as [|f files IH]; intros changes.
  - simpl. now rewrite app_nil_r.
  - cbn [Main.get_file_changes_loop Plan.entries flat_map].
    unfold bind, lift, Plan.entry.
    rewrite parse_of_first_match.
    destruct (Scan.first_match Main.pattern (Pathlib.name f)) as [m|];
      cbn [option_map].
    + destruct (Spec.tag_numbers m) as [s e]. rewrite IH.
      now rewrite <- app_assoc.
    + now rewrite IH.
Qed.

Lemma entries_old (show_name : ustring) (episodes : list TvEpisode.t)
  (files : list Pathlib.Path) :
  map Main.PathChange.old (Plan.entries show_name episodes files)
  = filter (fun f => Plan.parses (Pathlib.name f)) files.
Proof.
  induction files as [|f files IH]; [reflexivity|].
  cbn [Plan.entries flat_map filter].
  rewrite (entry_parses show_name episodes f), map_app.
  destruct (Plan.entry show_name episodes f) as [c|] eqn:EN.
  - apply entry_old in EN. simpl. now rewrite EN, <- IH.
  - exact IH.
Qed.

Lemma exit_on_null_list {A} (message : ustring) (func : M World (list A))
  (l : list A) (w w' : World) :
  func w = (Ret l, w') ->
  Main.exit_on_null message func w =
  match l with
  | [] => (Raise (Exit 1),
           mkWorld (fs w') (console w' ++ [Panel message "Error" "red" "left"])
             (asked w'))
  | _ => (Ret l, w')
  end.
Proof.
  intros F. unfold Main.exit_on_null, bind. rewrite F.
  destruct l; reflexivity.
Qed.


Lemma get_file_changes_entries (files : list Pathlib.Path)
  (show_name : ustring) (episodes : list TvEpisode.t) (w : World) :
  Plan.entries show_name episodes files <> [] ->
  Main.get_file_changes files show_name episodes w
  = (Ret (Plan.entries show_name episodes files), w).
Proof.
  intros NE. unfold Main.get_file_changes.
  rewrite (exit_on_null_list _ _ _ w w
             (get_file_changes_loop_entries files show_name episodes [] w)).
  simpl. destruct (Plan.entries show_name episodes files); [contradiction|reflexivity].
Qed.

Lemma get_file_changes_fs (files : list Pathlib.Path)
  (show_name : ustring) (episodes : list TvEpisode.t) (w : World) :
  fs (snd (Main.get_file_changes files show_name episodes w)) = fs w.
Proof.
  unfold Main.get_file_changes.
  rewrite (exit_on_null_list _ _ _ w w
             (get_file_changes_loop_entries files show_name episodes [] w)).
  simpl. destruct (Plan.entries show_name episodes files); reflexivity.
Qed.

(** C3: the plan holds one entry for each file whose name parses and none
    for a file whose name does not, in the order of the input files (the
    old paths of the plan are the input files that parse, filtered in
    place); a name parses exactly when it contains a tag.  Building the plan
    renames nothing: the loop leaves the world as it is and the decorated
    builder leaves the file system as it is. *)
Theorem get_file_changes_plan (files : list Pathlib.Path)
  (show_name : ustring) (episodes : list TvEpisode.t) (w : World) :
  exists changes,
    Main.get_file_changes_loop files show_name episodes [] w = (Ret changes, w)
    /\ map Main.PathChange.old changes
       = filter (fun f => Plan.parses (Pathlib.name f)) files
    /\ (forall f, Plan.parses (Pathlib.name f) = true <->
                  exists pre m suf, Spec.occurs (Pathlib.name f) pre m suf)
    /\ (changes <> [] ->
        Main.get_file_changes files show_name episodes w = (Ret changes, w))
    /\ fs (snd (Main.get_file_changes files show_name episodes w)) = fs w.
Proof.
  exists (Plan.entries show_name episodes files). repeat split.
  - apply get_file_changes_loop_entries.
  - apply entries_old.
  - apply parses_iff_occurs.
  - apply parses_iff_occurs.
  - apply get_file_changes_entries.
  - apply get_file_changes_fs.
Qed.

Lemma find_by_attr_none (episodes : list TvEpisode.t) (n : Z) :
  (forall ep, In ep episodes -> TvEpisode.number ep <> n) ->
  Utils.find_by_attr episodes "number" (Py.VInt n) = None.
Proof.
  induction episodes as [|ep episodes IH]; intros NE; [reflexivity|].
  cbn. destruct (Z.eqb_spec (TvEpisode.number ep) n) as [EQ|_].
  - exfalso. apply (NE ep); [now left|exact EQ].
  - apply IH. intros x I. apply NE. now right.
Qed.

Lemma find_by_attr_first (before after : list TvEpisode.t)
  (ep : TvEpisode.t) (n : Z) :
  (forall x, In x before -> TvEpisode.number x <> n) ->
  TvEpisode.number ep = n ->
  Utils.find_by_attr (before ++ ep :: after) "number" (Py.VInt n) = Some ep.
Proof.
  intros NE EQ. induction before as [|x before IH].
  - cbn. now rewrite EQ, Z.eqb_refl.
  - cbn. destruct (Z.eqb_spec (TvEpisode.number x) n) as [EQ'|_].
    + exfalso. apply (NE x); [now left|exact EQ'].
    + apply IH. intros y I. apply NE. now right.
Qed.

Lemma entry_in_entries (show_name : ustring) (episodes : list TvEpisode.t)
  (files : list Pathlib.Path) (f : Pathlib.Path) (c : Main.PathChange.t) :
  In f files -> Plan.entry show_name episodes f = Some c ->
  In c (Plan.entries show_name episodes files).
Proof.
  intros I EN. unfold Plan.entries. apply in_flat_map. exists f.
  split; [exact I|]. rewrite EN. now left.
Qed.

(** C5: when the episode number parsed from a file's name equals no
    episode's number, the equality scan yields nothing, the file still gets
    its plan entry and the new filename carries the text [None] where the
    episode name goes, right before the extension; when some episode has
    that number, the name of the first such episode is used. *)
Theorem unmatched_episode_named_None (files : list Pathlib.Path)
  (show_name : ustring) (episodes : list TvEpisode.t) (f : Pathlib.Path)
  (season episode : Z) (w : World) :
  In f files ->
  Main.parse_episode_file (Pathlib.name f) = Ret (Some (season, episode)) ->
  let new_path (episode_name : ustring) :=
    Pathlib.truediv (Pathlib.parent f)
      (Py.replace ":" "" show_name ++ " S" ++ Py.format_02 season ++ "E"
         ++ Py.format_02 episode ++ " " ++ episode_name
         ++ Pathlib.suffix f)%ustring in
  ((forall ep, In ep episodes -> TvEpisode.number ep <> episode) ->
   Utils.find_by_attr episodes "number" (Py.VInt episode) = None
   /\ exists changes,
       Main.get_file_changes files show_name episodes w = (Ret changes, w)
       /\ In (Main.PathChange.make f (new_path "None")) changes)
  /\ (forall before ep after,
         episodes = before ++ ep :: after ->
         (forall x, In x before -> TvEpisode.number x <> episode) ->
         TvEpisode.number ep = episode ->
         Utils.find_by_attr episodes "number" (Py.VInt episode) = Some ep
         /\ exists changes,
             Main.get_file_changes files show_name episodes w = (Ret changes, w)
             /\ In (Main.PathChange.make f (new_path (TvEpisode.name ep)))
                  changes).
Proof.
  intros I P new_path.
  assert (forall o,
             Utils.find_by_attr episodes "number" (Py.VInt episode) = o ->
             exists changes,
               Main.get_file_changes files show_name episodes w
               = (Ret changes, w)
               /\ In (Main.PathChange.make f (new_path (Py.str o))) changes)
    as K.
  { intros o F.
    assert (Plan.entry show_name episodes f
            = Some (Main.PathChange.make f (new_path (Py.str o)))) as EN.
    { unfold Plan.entry. rewrite P, F. reflexivity. }
    pose proof (entry_in_entries _ _ _ _ _ I EN) as IN.
    exists (Plan.entries show_name episodes files). split; [|exact IN].
    apply get_file_changes_entries. intros Z. now rewrite Z in IN. }
  split.
  - intros NE. pose proof (find_by_attr_none episodes episode NE) as F.
    split; [exact F|]. exact (K None F).
  - intros before ep after -> NE EQ.
    pose proof (find_by_attr_first before after ep episode NE EQ) as F.
    split; [exact F|]. exact (K (Some ep) F).
Qed.

End PlanBuilder.

Lemma get_file_changes_plan_witness :
  let E := Demo.env Demo.seasons Demo.episodes None in
  let a := Pathlib.of_string "shows/a_S01E01.mkv" in
  let notes := Pathlib.of_string "shows/notes.txt" in
  let b := Pathlib.of_string "shows/b_S01E02.mkv" in
  let w := Demo.world E Demo.files in
  exists changes,
    Main.get_file_changes [a; notes; b] "Show" [] w = (Sys.Ret changes, w)
    /\ map Main.PathChange.old changes = [a; b].
Proof.
  intros E a notes b w.
  destruct (get_file_changes_plan (E := E) [a; notes; b] "Show" [] w)
    as (changes & _ & O & _ & G & _).
  exists changes. split; [|exact O].
  apply G. intros ->. discriminate O.
Defined.

Lemma unmatched_episode_named_None_witness :
  let E := Demo.env Demo.seasons Demo.episodes None in
  let f := Pathlib.of_string "shows/a_S01E09.mkv" in
  let w := Demo.world E Demo.files in
  let pilot := TvEpisode.mk "Pilot" 1 101 in
  (exists changes,
      Main.get_file_changes [f] "Show" [pilot] w = (Sys.Ret changes, w)
      /\ In (Main.PathChange.make f
               (Pathlib.of_string "shows/Show S01E09 None.mkv")) changes)
  /\ Utils.find_by_attr [pilot; TvEpisode.mk "Again" 1 102] "number" (Py.VInt 1)
     = Some pilot.
Proof.
  intros E f w pilot. split.
  - destruct (unmatched_episode_named_None (E := E) [f] "Show" [pilot] f 1 9 w
                (or_introl eq_refl) eq_refl) as [K _].
    destruct K as [_ K]; [|exact K].
    intros ep [<-|[]]. discriminate.
  - pose (g := Pathlib.of_string "shows/a_S01E01.mkv").
    destruct (unmatched_episode_named_None (E := E) [g] "Show"
                [pilot; TvEpisode.mk "Again" 1 102] g 1 1 w
                (or_introl eq_refl) eq_refl) as [_ K].
    destruct (K [] pilot [TvEpisode.mk "Again" 1 102] eq_refl) as [F _];
      [intros x []|reflexivity|exact F].
Defined.

(** ** Path order and sorting *)

Section Order.

Lemma uchar_compare_trans (a b c : uchar) (r : comparison) :
  Uchar.compare a b = r -> Uchar.compare b c = r -> Uchar.compare a c = r.
Proof.
  unfold Uchar.compare. destruct r; intros H1 H2.
  - apply N.compare_eq in H1, H2. rewrite H1, H2. apply N.compare_refl.
  - rewrite N.compare_lt_iff in *. lia.
  - rewrite N.compare_gt_iff in *. lia.
Qed.

Lemma ustring_compare_trans (s t u : ustring) (r : comparison) :
  Ustring.compare s t = r -> Ustring.compare t u = r -> Ustring.compare s u = r.
Proof.
  revert t u; induction s as [|a s IH]; intros [|b t] [|c u]; simpl;
    try congruence.
  destruct (Uchar.compare a b) eqn:AB; destruct (Uchar.compare b c) eqn:BC;
    try congruence.
  - rewrite (uchar_compare_trans a b c Eq AB BC). apply IH.
  - apply uchar_compare_eq_iff in AB. subst b. rewrite BC. congruence.
  - apply uchar_compare_eq_iff in AB. subst b. rewrite BC. congruence.
  - apply uchar_compare_eq_iff in BC. subst c. rewrite AB. congruence.
  - rewrite (uchar_compare_trans a b c Lt AB BC). congruence.
  - apply uchar_compare_eq_iff in BC. subst c. rewrite AB. congruence.
  - rewrite (uchar_compare_trans a b c Gt AB BC). congruence.
Qed.

Lemma path_compare_antisym (p q : Pathlib.Path) :
  Pathlib.compare q p = CompOpp (Pathlib.compare p q).
Proof.
  unfold Pathlib.compare. apply list_compare_antisym.
  - apply ustring_compare_eq_iff.
  - intros x y. apply ustring_compare_antisym.
Qed.

Lemma path_compare_trans (p q r : Pathlib.Path) (c : comparison) :
  Pathlib.compare p q = c -> Pathlib.compare q r = c ->
  Pathlib.compare p r = c.
Proof.
  unfold Pathlib.compare. apply list_compare_trans.
  - apply ustring_compare_eq_iff.
  - intros x y z. apply ustring_compare_trans.
  - intros x y. apply ustring_compare_antisym.
Qed.

Lemma path_compare_eq (p q : Pathlib.Path) :
  Pathlib.compare p q = Eq -> Pathlib.cparts p = Pathlib.cparts q.
Proof.
  unfold Pathlib.compare. apply list_compare_refl. apply ustring_compare_eq_iff.
Qed.

Lemma path_ltb_asym (p q : Pathlib.Path) :
  Pathlib.ltb p q = true -> Pathlib.ltb q p = false.
Proof.
  unfold Pathlib.ltb. rewrite (path_compare_antisym p q).
  now destruct (Pathlib.compare p q).
Qed.

Lemma path_leb_trans (p q r : Pathlib.Path) :
  Pathlib.leb p q = true -> Pathlib.leb q r = true -> Pathlib.leb p r = true.
Proof.
  unfold Pathlib.leb, Pathlib.ltb.
  rewrite (path_compare_antisym p q), (path_compare_antisym q r),
    (path_compare_antisym p r).
  destruct (Pathlib.compare p q) eqn:PQ; destruct (Pathlib.compare q r) eqn:QR;
    try discriminate; intros _ _.
  - now rewrite (path_compare_trans p q r Eq PQ QR).
  - apply path_compare_eq in PQ. unfold Pathlib.compare in *.
    now rewrite PQ, QR.
  - apply path_compare_eq in QR. unfold Pathlib.compare in *.
    now rewrite <- QR, PQ.
  - now rewrite (path_compare_trans p q r Lt PQ QR).
Qed.

(** Children of one directory compare as their names do. *)
Lemma child_compare (p : Pathlib.Path) (a b : ustring) :
  Pathlib.compare (Pathlib.make_child p a) (Pathlib.make_child p b)
  = Ustring.compare a b.
Proof.
  unfold Pathlib.compare, Pathlib.cparts, Pathlib.make_child. simpl.
  rewrite !app_assoc.
  rewrite list_compare_app by apply ustring_compare_eq_iff.
  simpl. now destruct (Ustring.compare a b).
Qed.

End Order.

Section SortFacts.
Context {A : Type} (lt : A -> A -> bool).
Let le (a b : A) : Prop := lt b a = false.
Hypothesis lt_asym : forall a b, lt a b = true -> lt b a = false.
Hypothesis le_trans : forall a b c, le a b -> le b c -> le a c.

Lemma insert_perm (x : A) (l : list A) : Permutation (x :: l) (Py.insert lt x l).
Proof.
  induction l as [|y l IH]; simpl; [reflexivity|].
  destruct (lt y x); [|reflexivity].
  rewrite perm_swap. now constructor.
Qed.

Lemma sort_perm (l : list A) : Permutation l (Py.sort lt l).
Proof.
  induction l as [|x l IH]; simpl; [constructor|].
  rewrite <- insert_perm. now constructor.
Qed.

Lemma insert_sorted (x : A) (l : list A) :
  StronglySorted le l -> StronglySorted le (Py.insert lt x l).
Proof.
  induction 1 as [|y l SS IH F]; simpl.
  - repeat constructor.
  - destruct (lt y x) eqn:YX.
    + constructor; [exact IH|].
      apply (Permutation_Forall (insert_perm x l)).
      constructor; [apply lt_asym; exact YX|exact F].
    + constructor; [constructor; assumption|].
      constructor; [exact YX|].
      apply (Forall_impl _ (fun b H => le_trans x y b YX H) F).
Qed.

Lemma sort_sorted (l : list A) : StronglySorted le (Py.sort lt l).
Proof.
  induction l as [|x l IH]; simpl; [constructor|].
  apply insert_sorted. exact IH.
Qed.

End SortFacts.

(** ** Listing the directory *)

Section GetFiles.
Import Sys.
Context `{E : Env}.

Lemma get_files_loop_kept (children files : list Pathlib.Path) (w : World) :
  Utils.get_files_loop children files w
  = (Ret (files ++ filter (Listing.kept (fs w)) children), w).
Proof.
  revert files; induction children as [|f children IH]; intros files.
  - simpl. now rewrite app_nil_r.
  - cbn [Utils.get_files_loop filter]. unfold bind, path_is_file.
    fold (Listing.kept (fs w) f).
    destruct (Listing.kept (fs w) f); rewrite IH; [|reflexivity].
    now rewrite <- app_assoc.
Qed.

Lemma get_files_listing (path : Pathlib.Path) (w : World) (names : list ustring) :
  fs_listdir path (fs w) = Ret names ->
  Utils.get_files path true w
  = (Ret (Py.sort Pathlib.ltb
            (filter (Listing.kept (fs w)) (map (Pathlib.make_child path) names))),
     w).
Proof.
  intros L. unfold Utils.get_files, bind, path_iterdir. rewrite L.
  now rewrite get_files_loop_kept.
Qed.

Lemma strongly_sorted_impl {A} (R R' : A -> A -> Prop) (l : list A) :
  (forall a b, R a b -> R' a b) ->
  StronglySorted R l -> StronglySorted R' l.
Proof.
  intros I; induction 1 as [|x l SS IH F]; constructor; [exact IH|].
  apply (Forall_impl _ (I x) F).
Qed.

Lemma path_sort_sorted (l : list Pathlib.Path) :
  StronglySorted Listing.path_le (Py.sort Pathlib.ltb l).
Proof.
  apply strongly_sorted_impl
    with (R := fun a b => Pathlib.ltb b a = false).
  - intros a b H. unfold Listing.path_le, Pathlib.leb. now rewrite H.
  - apply (sort_sorted Pathlib.ltb path_ltb_asym).
    intros a b c AB BC.
    pose proof (path_leb_trans a b c) as T. unfold Pathlib.leb in T.
    rewrite AB, BC in T. specialize (T eq_refl eq_refl).
    now destruct (Pathlib.ltb c a).
Qed.

Lemma strongly_sorted_filter {A} (R : A -> A -> Prop) (keep : A -> bool)
  (l : list A) :
  StronglySorted R l -> StronglySorted R (filter keep l).
Proof.
  induction 1 as [|x l SS IH F]; simpl; [constructor|].
  destruct (keep x); [|exact IH].
  constructor; [exact IH|].
  rewrite Forall_forall in *. intros y I. apply filter_In in I. now apply F.
Qed.

Lemma child_name (p : Pathlib.Path) (n : ustring) :
  Pathlib.name (Pathlib.make_child p n) = n.
Proof. unfold Pathlib.name, Pathlib.make_child. simpl. apply last_last. Qed.

Lemma child_leb (p : Pathlib.Path) (a b : ustring) :
  Pathlib.leb (Pathlib.make_child p a) (Pathlib.make_child p b)
  = Ustring.leb a b.
Proof.
  unfold Pathlib.leb, Pathlib.ltb, Ustring.leb.
  rewrite child_compare, ustring_compare_antisym.
  now destruct (Ustring.compare a b).
Qed.

Lemma children_sorted_by_name (p : Pathlib.Path) (l : list Pathlib.Path) :
  Forall (fun f => exists n, f = Pathlib.make_child p n) l ->
  StronglySorted Listing.path_le l ->
  StronglySorted Listing.name_le (map Pathlib.name l).
Proof.
  intros C SS; induction SS as [|x l SS IH F]; simpl; [constructor|].
  inversion C as [|? ? [n ->] C']; subst.
  constructor; [apply IH; exact C'|].
  rewrite Forall_forall in *. intros b I. apply in_map_iff in I.
  destruct I as (y & <- & I). destruct (C' y I) as [m ->].
  specialize (F _ I). unfold Listing.path_le, Listing.name_le in *.
  now rewrite child_leb in F; rewrite !child_name.
Qed.

(** C10: with sorting on, [get_files] returns exactly the directory's
    children that are regular files with a name not starting with ['.'],
    in ascending path order, which for the children of one directory is
    the order of their names; the world is left as it is.  So the plan
    built from that list takes its files in sorted order and never holds a
    dotfile. *)
Theorem get_files_sorted_without_dotfiles (path : Pathlib.Path) (w : World)
  (names : list ustring) :
  fs_listdir path (fs w) = Ret names ->
  exists files,
    Utils.get_files path true w = (Ret files, w)
    /\ Permutation files
         (filter (Listing.kept (fs w)) (map (Pathlib.make_child path) names))
    /\ Forall (fun f => fs_is_file f (fs w) = true
                        /\ Py.startswith (Pathlib.name f) "." = false) files
    /\ StronglySorted Listing.path_le files
    /\ StronglySorted Listing.name_le (map Pathlib.name files)
    /\ forall show_name episodes,
        exists changes,
          Main.get_file_changes_loop files show_name episodes [] w
          = (Ret changes, w)
          /\ Forall (fun c => Py.startswith
                                (Pathlib.name (Main.PathChange.old c)) "."
                              = false) changes
          /\ StronglySorted Listing.path_le (map Main.PathChange.old changes).
Proof.
  intros L.
  set (kept := filter (Listing.kept (fs w)) (map (Pathlib.make_child path) names)).
  exists (Py.sort Pathlib.ltb kept).
  assert (Permutation (Py.sort Pathlib.ltb kept) kept) as P
      by (symmetry; apply sort_perm).
  assert (Forall (fun f => fs_is_file f (fs w) = true
                           /\ Py.startswith (Pathlib.name f) "." = false)
            (Py.sort Pathlib.ltb kept)) as V.
  { apply (Permutation_Forall (Permutation_sym P)).
    apply Forall_forall. intros f I. apply filter_In in I.
    destruct I as [_ K]. unfold Listing.kept in K.
    apply andb_prop in K. destruct K as [K1 K2].
    split; [exact K1|]. now destruct (Py.startswith (Pathlib.name f) "."). }
  assert (Forall (fun f => exists n, f = Pathlib.make_child path n)
            (Py.sort Pathlib.ltb kept)) as C.
  { apply (Permutation_Forall (Permutation_sym P)).
    apply Forall_forall. intros f I. apply filter_In in I.
    destruct I as [I _]. apply in_map_iff in I. destruct I as (n & <- & _).
    now exists n. }
  pose proof (path_sort_sorted kept) as SS.
  repeat split; try assumption.
  - apply get_files_listing. exact L.
  - apply children_sorted_by_name with (p := path); assumption.
  - intros show_name episodes.
    exists (Plan.entries show_name episodes (Py.sort Pathlib.ltb kept)).
    split; [apply get_file_changes_loop_entries|].
    rewrite <- Forall_map with (f := Main.PathChange.old)
                               (P := fun p => Py.startswith (Pathlib.name p) "." = false).
    rewrite entries_old. split.
    + rewrite Forall_forall in *. intros f I. apply filter_In in I.
      now apply V.
    + apply strongly_sorted_filter. exact SS.
Qed.

End GetFiles.

Lemma get_files_sorted_without_dotfiles_witness :
  let E := Demo.env Demo.seasons Demo.episodes None in
  let w := Demo.world E Demo.files in
  let files := [Pathlib.of_string "shows/a_S01E01.mkv";
                Pathlib.of_string "shows/b_S01E02.mkv";
                Pathlib.of_string "shows/notes.txt"] in
  Utils.get_files Demo.dir true w = (Sys.Ret files, w)
  /\ StronglySorted Listing.path_le files
  /\ StronglySorted Listing.name_le (map Pathlib.name files).
Proof.
  intros E w files.
  destruct (get_files_sorted_without_dotfiles (E := E) Demo.dir w
              ["b_S01E02.mkv"; "notes.txt"; "a_S01E01.mkv";
               ".hidden_S01E03.mkv"; "extras_S01E04"] eq_refl)
    as (files' & G & _ & _ & SS & SN & _).
  assert (files' = files) as ->.
  { vm_compute in G. injection G as <-. reflexivity. }
  exact (conj G (conj SS SN)).
Defined.

(** ** Seasons *)

Section SeasonResolution.
Import Sys.
Context `{E : Env}.

Lemma seasons_loop_positive (data : list Json.season_result)
  (acc seasons : list TvSeason.t) :
  Forall Seasons.positive acc ->
  TraktAPI.seasons_loop data acc = Ret seasons ->
  Forall Seasons.positive seasons.
Proof.
  revert acc; induction data as [|r data IH]; intros acc PA; simpl.
  - now intros [= <-].
  - destruct (Json.season_number r) as [n|]; [|discriminate].
    destruct (Z.gtb_spec n 0) as [POS|_].
    + apply IH. apply Forall_app. split; [exact PA|].
      repeat constructor. exact POS.
    + apply IH. exact PA.
Qed.

Lemma seasons_loop_regular (data : list Json.season_result)
  (acc : list TvSeason.t) :
  Forall (fun r => Json.season_number r <> None) data ->
  TraktAPI.seasons_loop data acc = Ret (acc ++ Seasons.regular data).
Proof.
  intros F; revert acc; induction F as [|r data N F IH]; intros acc; simpl.
  - now rewrite app_nil_r.
  - destruct (Json.season_number r) as [n|]; [|contradiction].
    rewrite Z.gtb_ltb. destruct (0 <? n); rewrite IH; [|reflexivity].
    now rewrite <- app_assoc.
Qed.

Lemma get_show_seasons_world (show_id : Z) (w w' : World)
  (seasons : list TvSeason.t) :
  TraktAPI.get_show_seasons show_id w = (Ret seasons, w') ->
  w' = w /\ exists data, http_seasons show_id = Ret data
                         /\ TraktAPI.seasons_loop data [] = Ret seasons.
Proof.
  unfold TraktAPI.get_show_seasons, bind, lift.
  destruct (http_seasons show_id) as [data|e]; [|discriminate].
  destruct (TraktAPI.seasons_loop data []) as [l|e] eqn:L; [|discriminate].
  intros [= <- <-]. split; [reflexivity|]. now exists data.
Qed.

Lemma get_show_seasons_asked (show_id : Z) (w : World) :
  snd (TraktAPI.get_show_seasons show_id w) = w.
Proof.
  unfold TraktAPI.get_show_seasons, bind, lift.
  destruct (http_seasons show_id) as [data|e]; reflexivity.
Qed.

Lemma exit_on_null_ask_season_asked (message question : ustring)
  (choices : list (Choice TvSeason.t)) (w : World) :
  asked (snd (Main.exit_on_null message (ask_season question choices) w))
  = asked w ++ [AskSeason question choices].
Proof.
  unfold Main.exit_on_null, ask_season, bind, log_prompt, modify, lift. simpl.
  destruct (answer_season question choices) as [[s|]|e]; reflexivity.
Qed.

Lemma as_choices_values {A} `{Py.Str A} (l : list A) :
  map value (Utils.as_choices l) = l.
Proof.
  unfold Utils.as_choices. rewrite map_map. simpl. apply map_id.
Qed.

Lemma get_tv_season_unfold (show_id : Z) (season_num : option Z) (w : World)
  (seasons : list TvSeason.t) :
  TraktAPI.get_show_seasons show_id w = (Ret seasons, w) ->
  Main.get_tv_season show_id season_num w
  = Main.exit_on_null "Invalid season number given."
      (match season_num with
       | Some n =>
           if negb (n =? 0) && (0 <? n)
              && (n <=? Z.of_nat (List.length seasons))
           then bind (lift (Main.getitem seasons (n - 1)))
                  (fun season => ret (Some season))
           else ask_season "Season" (Utils.as_choices seasons)
       | None => ask_season "Season" (Utils.as_choices seasons)
       end) w.
Proof.
  intros G. unfold Main.get_tv_season, Main.exit_on_null, bind at 1.
  unfold bind at 1. rewrite G. reflexivity.
Qed.

(** C6: given the season list of the show, an explicit season number [n]
    resolves the season exactly when [0 < n <= len(seasons)]; the result is
    then the element at position [n] counted from one, whatever its own
    number field holds, and nobody is asked (the world is unchanged).  For
    any other [n], and when no number is given, the result is the
    selector's, and the selector's question is the one thing asked. *)
Theorem get_tv_season_by_position (show_id n : Z) (w : World)
  (seasons : list TvSeason.t) :
  TraktAPI.get_show_seasons show_id w = (Ret seasons, w) ->
  let selector :=
    Main.exit_on_null "Invalid season number given."
      (ask_season "Season" (Utils.as_choices seasons)) in
  (0 < n <= Z.of_nat (List.length seasons) ->
   exists season,
     nth_error seasons (Z.to_nat (n - 1)) = Some season
     /\ Main.get_tv_season show_id (Some n) w = (Ret (Some season), w))
  /\ (~ 0 < n <= Z.of_nat (List.length seasons) ->
      Main.get_tv_season show_id (Some n) w = selector w
      /\ asked (snd (Main.get_tv_season show_id (Some n) w))
         = asked w ++ [AskSeason "Season" (Utils.as_choices seasons)])
  /\ Main.get_tv_season show_id None w = selector w.
Proof.
  intros G selector.
  pose proof (fun season_num =>
                get_tv_season_unfold show_id season_num w seasons G) as STEP.
  split; [|split].
  - intros R.
    destruct (nth_error seasons (Z.to_nat (n - 1))) as [season|] eqn:NTH.
    + exists season. split; [reflexivity|].
      rewrite STEP.
      replace (negb (n =? 0) && (0 <? n) && (n <=? Z.of_nat (List.length seasons)))
        with true by (symmetry; rewrite !andb_true_iff, negb_true_iff;
                      repeat split; lia).
      unfold Main.exit_on_null, bind, lift, Main.getitem.
      replace (n - 1 <? 0) with false by (symmetry; lia).
      cbv zeta. replace (n - 1 <? 0) with false by (symmetry; lia).
      now rewrite NTH.
    + apply nth_error_None in NTH. lia.
  - intros NR.
    assert (Main.get_tv_season show_id (Some n) w = selector w) as SEL.
    { rewrite STEP.
      replace (negb (n =? 0) && (0 <? n) && (n <=? Z.of_nat (List.length seasons)))
        with false; [reflexivity|].
      symmetry. rewrite !andb_false_iff, negb_false_iff. lia. }
    split; [exact SEL|]. rewrite SEL.
    apply exit_on_null_ask_season_asked.
  - apply STEP.
Qed.

Lemma exit_on_null_getitem_asked (message : ustring)
  (seasons : list TvSeason.t) (i : Z) (w : World) :
  asked (snd (Main.exit_on_null message
                (bind (lift (Main.getitem seasons i))
                   (fun season => ret (Some season))) w))
  = asked w.
Proof.
  unfold Main.exit_on_null, bind, lift.
  destruct (Main.getitem seasons i); reflexivity.
Qed.

(** C8: every season in a list [get_show_seasons] returns has a number
    greater than zero; when each entry of the response carries a number the
    call returns, with exactly the entries whose number is greater than
    zero; and the seasons [get_tv_season] offers to the user are such
    seasons. *)
Theorem season_lists_exclude_specials (show_id : Z) (w : World) :
  (forall seasons w',
      TraktAPI.get_show_seasons show_id w = (Ret seasons, w') ->
      Forall Seasons.positive seasons)
  /\ (forall data,
         http_seasons show_id = Ret data ->
         Forall (fun r => Json.season_number r <> None) data ->
         TraktAPI.get_show_seasons show_id w = (Ret (Seasons.regular data), w))
  /\ (forall season_num,
         Forall Seasons.prompt_positive (asked w) ->
         Forall Seasons.prompt_positive
           (asked (snd (Main.get_tv_season show_id season_num w)))).
Proof.
  assert (forall seasons w',
             TraktAPI.get_show_seasons show_id w = (Ret seasons, w') ->
             Forall Seasons.positive seasons) as POS.
  { intros seasons w' G. apply get_show_seasons_world in G.
    destruct G as (_ & data & _ & L).
    apply (seasons_loop_positive data [] seasons); [constructor|exact L]. }
  split; [exact POS|]. split.
  - intros data H F. unfold TraktAPI.get_show_seasons, bind, lift.
    rewrite H. now rewrite (seasons_loop_regular data [] F).
  - intros season_num A.
    destruct (TraktAPI.get_show_seasons show_id w) as [[seasons|e] w'] eqn:G.
    + pose proof (POS seasons w' eq_refl) as PS.
      destruct (get_show_seasons_world _ _ _ _ G) as [-> _].
      rewrite (get_tv_season_unfold show_id season_num w seasons G).
      assert (Forall Seasons.prompt_positive
                (asked w ++ [AskSeason "Season" (Utils.as_choices seasons)]))
        as AP.
      { apply Forall_app. split; [exact A|]. repeat constructor. simpl.
        unfold Utils.as_choices. rewrite Forall_map. exact PS. }
      destruct season_num as [n|];
        [destruct (negb (n =? 0) && (0 <? n)
                   && (n <=? Z.of_nat (List.length seasons)))|].
      * now rewrite exit_on_null_getitem_asked.
      * now rewrite exit_on_null_ask_season_asked.
      * now rewrite exit_on_null_ask_season_asked.
    + pose proof (get_show_seasons_asked show_id w) as S.
      rewrite G in S. simpl in S. subst w'.
      unfold Main.get_tv_season, Main.exit_on_null, bind at 1.
      unfold bind at 1. rewrite G. exact A.
Qed.

End SeasonResolution.

Lemma get_tv_season_by_position_witness :
  let E := Demo.env Demo.late_seasons Demo.episodes None in
  let w := Demo.world E Demo.files in
  let season2 := TvSeason.mk "Season 2" 3 2 72 in
  let season3 := TvSeason.mk "Season 3" 4 3 73 in
  Main.get_tv_season 7 (Some 1) w = (Sys.Ret (Some season2), w)
  /\ Sys.asked (snd (Main.get_tv_season 7 (Some 3) w))
     = [Sys.AskSeason "Season" (Utils.as_choices [season2; season3])].
Proof.
  intros E w season2 season3.
  destruct (get_tv_season_by_position (E := E) 7 1 w [season2; season3] eq_refl)
    as [K _].
  destruct (get_tv_season_by_position (E := E) 7 3 w [season2; season3] eq_refl)
    as (_ & K' & _).
  split.
  - destruct K as (season & NTH & G); [simpl; lia|].
    injection NTH as <-. exact G.
  - destruct K' as [_ A]; [simpl; lia|]. exact A.
Defined.

Lemma season_lists_exclude_specials_witness :
  let E := Demo.env Demo.seasons Demo.episodes None in
  let w := Demo.world E Demo.files in
  TraktAPI.get_show_seasons 7 w
  = (Sys.Ret [TvSeason.mk "Season 1" 2 1 71; TvSeason.mk "Season 2" 3 2 72], w)
  /\ Forall Seasons.prompt_positive
       (Sys.asked (snd (Main.get_tv_season 7 None w))).
Proof.
  intros E w.
  destruct (season_lists_exclude_specials (E := E) 7 w) as (_ & R & P).
  split.
  - apply (R Demo.seasons eq_refl). repeat constructor; discriminate.
  - apply P. constructor.
Defined.

(** ** The configuration *)

Section ConfigSet.
Local Open Scope string_scope.
Local Open Scope list_scope.
Local Open Scope Z_scope.
Import Sys.
Variable APP_NAME : string.

Lemma dict_get_set {V} (d : ConfigParser.dict V) (k : string) (v : V) :
  ConfigParser.dict_get (ConfigParser.dict_set d k v) k = Some v.
Proof.
  induction d as [|[k' v'] d IH]; simpl.
  - now rewrite String.eqb_refl.
  - destruct (String.eqb k' k) eqn:K; simpl.
    + now rewrite String.eqb_refl.
    + now rewrite K.
Qed.

Lemma key_value_lower (key : Config.CliConfigKey) :
  Latin1.lower (Config.key_value key) = Config.key_value key.
Proof. destruct key; reflexivity. Qed.





End ConfigSet.

Section ConfigSetExamples.
Local Open Scope string_scope.
Local Open Scope list_scope.
Local Open Scope Z_scope.



End ConfigSetExamples.

(** ** The orchestrator *)

Section Run.
Import Sys.
Context `{E : Env}.

Lemma keeps_fs_ret {A} (a : A) : Frame.keeps_fs (ret a).
Proof. intros w. reflexivity. Qed.

Lemma keeps_fs_raise {A} (e : exn) : Frame.keeps_fs (@raise World A e).
Proof. intros w. reflexivity. Qed.

Lemma keeps_fs_lift {A} (o : outcome A) : Frame.keeps_fs (lift o).
Proof. intros w. reflexivity. Qed.

Lemma keeps_fs_bind {A B} (m : M World A) (k : A -> M World B) :
  Frame.keeps_fs m -> (forall a, Frame.keeps_fs (k a)) ->
  Frame.keeps_fs (bind m k).
Proof.
  intros Hm Hk w. unfold bind. specialize (Hm w).
  destruct (m w) as [[a|e] w']; simpl in *; [|exact Hm].
  now rewrite Hk.
Qed.

Lemma keeps_fs_console_print (r : renderable) :
  Frame.keeps_fs (console_print r).
Proof. intros w. reflexivity. Qed.

Lemma keeps_fs_log_prompt (p : prompt) : Frame.keeps_fs (log_prompt p).
Proof. intros w. reflexivity. Qed.

Lemma keeps_fs_path_iterdir (p : Pathlib.Path) :
  Frame.keeps_fs (path_iterdir p).
Proof.
  intros w. unfold path_iterdir. now destruct (fs_listdir p (fs w)).
Qed.

Lemma keeps_fs_error {A} (message : ustring) :
  Frame.keeps_fs (@Main.error E A message).
Proof.
  apply keeps_fs_bind; [apply keeps_fs_console_print|].
  intros _. apply keeps_fs_raise.
Qed.

Lemma keeps_fs_exit_on_null {R} `{Main.Nullish R} (message : ustring)
  (func : M World R) :
  Frame.keeps_fs func -> Frame.keeps_fs (Main.exit_on_null message func).
Proof.
  intros F. apply keeps_fs_bind; [exact F|].
  intros r. destruct (Main.is_null r);
    [apply keeps_fs_error|apply keeps_fs_ret].
Qed.

Ltac keeps_fs :=
  repeat first
    [ apply keeps_fs_ret | apply keeps_fs_raise | apply keeps_fs_lift
    | apply keeps_fs_console_print | apply keeps_fs_log_prompt
    | apply keeps_fs_path_iterdir | apply keeps_fs_error
    | apply keeps_fs_exit_on_null
    | apply keeps_fs_bind; [|intros ?] ].

Lemma keeps_fs_get_tv_show (show_name : option ustring) (auto : bool) :
  Frame.keeps_fs (Main.get_tv_show show_name auto).
Proof.
  unfold Main.get_tv_show. keeps_fs.
  - destruct show_name as [[|c s]|]; unfold ask_text; keeps_fs.
  - unfold TraktAPI.search_tv_shows.
    match goal with
    | |- Frame.keeps_fs (match ?x with _ => _ end) =>
        destruct x as [[|c s]|]
    end; keeps_fs.
  - match goal with
    | |- Frame.keeps_fs (match ?x with _ => _ end) =>
        destruct x as [|first rest]
    end; keeps_fs.
    destruct auto; unfold ask_show; keeps_fs.
Qed.

Lemma keeps_fs_get_tv_season (show_id : Z) (season_num : option Z) :
  Frame.keeps_fs (Main.get_tv_season show_id season_num).
Proof.
  unfold Main.get_tv_season, TraktAPI.get_show_seasons. keeps_fs.
  destruct season_num as [n|]; [|unfold ask_season; keeps_fs].
  match goal with
  | |- Frame.keeps_fs (if ?b then _ else _) => destruct b
  end; unfold ask_season; keeps_fs.
Qed.

Lemma keeps_fs_get_tv_episodes (show_id season_num : Z) :
  Frame.keeps_fs (Main.get_tv_episodes show_id season_num).
Proof.
  unfold Main.get_tv_episodes, TraktAPI.get_season_episodes. keeps_fs.
Qed.

Lemma keeps_fs_get_files (path : Pathlib.Path) (sort : bool) :
  Frame.keeps_fs (Utils.get_files path sort).
Proof.
  unfold Utils.get_files. keeps_fs.
  intros w. now rewrite get_files_loop_kept.
Qed.

Lemma keeps_fs_get_file_changes (files : list Pathlib.Path)
  (show_name : ustring) (episodes : list TvEpisode.t) :
  Frame.keeps_fs (Main.get_file_changes files show_name episodes).
Proof. intros w. apply get_file_changes_fs. Qed.

Lemma keeps_fs_deref {A} (o : option A) : Frame.keeps_fs (Main.deref o).
Proof. destruct o; keeps_fs. Qed.

(** Without confirmation nothing is renamed, whatever the plan. *)
Lemma run_unconfirmed_keeps_fs (path : Pathlib.Path) (show : option ustring)
  (season : option Z) (auto : bool) :
  Frame.keeps_fs (Main.run path show season auto false).
Proof.
  unfold Main.run.
  apply keeps_fs_bind.
  { apply keeps_fs_bind; [intros w; reflexivity|].
    intros [|]; [intros w; reflexivity|apply keeps_fs_ret]. }
  intros path_ok. apply keeps_fs_bind.
  { destruct (negb path_ok); keeps_fs. }
  intros _. apply keeps_fs_bind.
  { apply keeps_fs_bind; [apply keeps_fs_get_tv_show|apply keeps_fs_deref]. }
  intros tv_show. apply keeps_fs_bind.
  { apply keeps_fs_bind; [apply keeps_fs_get_tv_season|apply keeps_fs_deref]. }
  intros tv_season. apply keeps_fs_bind; [apply keeps_fs_get_tv_episodes|].
  intros tv_episodes. apply keeps_fs_bind; [apply keeps_fs_get_files|].
  intros files. apply keeps_fs_bind; [apply keeps_fs_get_file_changes|].
  intros changes. keeps_fs.
Qed.

(** [rename_files] applies the renames in order and stops at the first
    failure, keeping what the earlier renames did. *)
Lemma rename_files_sequential (paths : list (Pathlib.Path * Pathlib.Path))
  (w : World) :
  Utils.rename_files paths w
  = (match fst (Frame.apply_renames paths (fs w)) with
     | None => Ret tt
     | Some e => Raise e
     end,
     mkWorld (snd (Frame.apply_renames paths (fs w))) (console w) (asked w)).
Proof.
  revert w; induction paths as [|[old_file new_file] paths IH]; intros w.
  - now destruct w.
  - cbn [Utils.rename_files Frame.apply_renames]. unfold bind, path_rename.
    destruct (fs_rename old_file new_file (fs w)) as [files'|e].
    + rewrite IH. reflexivity.
    + now destruct w.
Qed.

Lemma apply_renames_app (done rest : list (Pathlib.Path * Pathlib.Path))
  (files files' : FS) :
  Frame.apply_renames done files = (None, files') ->
  Frame.apply_renames (done ++ rest) files = Frame.apply_renames rest files'.
Proof.
  revert files; induction done as [|[o n] done IH]; intros files; simpl.
  - now intros [= ->].
  - destruct (fs_rename o n files) as [f|e]; [apply IH|discriminate].
Qed.

(** A failing rename ends the whole call: the renames before it stay, the
    ones after it are not attempted. *)
Lemma rename_files_halts (done rest : list (Pathlib.Path * Pathlib.Path))
  (old_file new_file : Pathlib.Path) (e : exn) (files' : FS) (w : World) :
  Frame.apply_renames done (fs w) = (None, files') ->
  fs_rename old_file new_file files' = Raise e ->
  Utils.rename_files (done ++ (old_file, new_file) :: rest) w
  = (Raise e, mkWorld files' (console w) (asked w)).
Proof.
  intros D F. rewrite rename_files_sequential.
  rewrite (apply_renames_app done _ _ _ D). simpl. now rewrite F.
Qed.

End Run.

(** C1: a run on the directory [shows], which holds [a_S01E01.mkv] and
    [b_S01E02.mkv] among its files, with the show given, season 1 and
    automatic selection.  The plan has two entries.  With user confirmation
    disabled the run asks nothing, renames nothing (the file system is the
    initial one) and prints [Done!]; with confirmation enabled and granted
    both files are renamed, in plan order. *)
Theorem run_renames_only_after_confirmation :
  let E := Demo.env Demo.seasons Demo.episodes (Some true) in
  let w := Demo.world E Demo.files in
  let a := Pathlib.of_string "shows/a_S01E01.mkv" in
  let b := Pathlib.of_string "shows/b_S01E02.mkv" in
  let notes := Pathlib.of_string "shows/notes.txt" in
  let a' := Pathlib.of_string "shows/Show Title S01E01 Pilot.mkv" in
  let b' := Pathlib.of_string "shows/Show Title S01E02 Second.mkv" in
  Main.get_file_changes [a; b; notes] "Show: Title"
    [TvEpisode.mk "Pilot" 1 101; TvEpisode.mk "Second" 2 102] w
  = (Sys.Ret [Main.PathChange.make a a'; Main.PathChange.make b b'], w)
  /\ Main.run Demo.dir (Some "Show") (Some 1) true false w
     = (Sys.Ret tt,
        Sys.mkWorld Demo.files [Sys.Text "Done!" "bold green"] [])
  /\ Sys.fs (snd (Main.run Demo.dir (Some "Show") (Some 1) true true w))
     = [(Demo.dir, true); (b', false); (notes, false); (a', false);
        (Pathlib.of_string "shows/.hidden_S01E03.mkv", false);
        (Pathlib.of_string "shows/extras_S01E04", true)].
Proof.
  intros E w a b notes a' b'.
  split; [vm_compute; reflexivity|].
  split; vm_compute; reflexivity.
Qed.

(** A rename that fails in the middle of a confirmed run: the second new
    name holds a ['/'], its directory does not exist, the exception leaves
    the run, the first file stays renamed and [Done!] is not printed. *)
Lemma run_failed_rename_keeps_earlier_ones :
  let E := Demo.env Demo.seasons
             [Json.mk_episode "Pilot" 1 101; Json.mk_episode "Yes/No" 2 102]
             (Some true) in
  let w := Demo.world E Demo.files in
  let out := Main.run Demo.dir (Some "Show") (Some 1) true true w in
  fst out = Sys.Raise (Sys.Error "FileNotFoundError")
  /\ Sys.fs (snd out)
     = [(Demo.dir, true);
        (Pathlib.of_string "shows/b_S01E02.mkv", false);
        (Pathlib.of_string "shows/notes.txt", false);
        (Pathlib.of_string "shows/Show Title S01E01 Pilot.mkv", false);
        (Pathlib.of_string "shows/.hidden_S01E03.mkv", false);
        (Pathlib.of_string "shows/extras_S01E04", true)]
  /\ ~ In (Sys.Text "Done!" "bold green") (Sys.console (snd out)).
Proof.
  intros E w out. split; [vm_compute; reflexivity|].
  split; [vm_compute; reflexivity|].
  vm_compute. intros [H|[]]. discriminate H.
Qed.

(* ================================================================== *)
(** * Further properties of the package *)

(** ** Parsed numbers and the characters of a new filename *)

Section ParserBounds.
Import Sys.

Lemma tag_numbers_bounds (m : ustring) :
  Spec.tagb m = true ->
  0 <= fst (Spec.tag_numbers m) <= 99 /\ 0 <= snd (Spec.tag_numbers m) <= 99.
Proof.
  intros T. destruct (tag_shape m T) as (s & d1 & d2 & e & d3 & d4 & ->).
  cbn [Spec.tagb] in T.
  repeat (apply andb_prop in T; destruct T as [T ?]).
  unfold Spec.tag_numbers, Spec.number_of_digits.
  cbn [Ustring.substring Ustring.to_list fold_left fst snd].
  pose proof (digit_value_range d1). pose proof (digit_value_range d2).
  pose proof (digit_value_range d3). pose proof (digit_value_range d4).
  lia.
Qed.

(** X1: a season and an episode number the parser returns are both
    between 0 and 99. *)
Theorem parse_episode_file_bounds (filename : ustring) (season episode : Z) :
  Main.parse_episode_file filename = Ret (Some (season, episode)) ->
  0 <= season <= 99 /\ 0 <= episode <= 99.
Proof.
  rewrite parse_of_first_match.
  destruct (Scan.first_match Main.pattern filename) as [m|] eqn:FM;
    [|discriminate].
  destruct (first_match_sound _ _ FM) as (pre & suf & [_ T] & _).
  pose proof (tag_numbers_bounds m T) as B.
  cbn [option_map]. destruct (Spec.tag_numbers m) as [a b].
  intros [= <- <-]. exact B.
Qed.

Lemma parse_episode_file_bounds_witness :
  0 <= 1 <= 99 /\ 0 <= 5 <= 99.
Proof.
  apply (parse_episode_file_bounds "Show.Name.S01E05.mkv" 1 5). reflexivity.
Defined.

Lemma has_app (c : uchar) (a b : ustring) :
  Text.has c (a ++ b) = Text.has c a || Text.has c b.
Proof.
  induction a as [|x a IH]; [reflexivity|].
  simpl. now rewrite IH, orb_assoc.
Qed.

Lemma has_without_colons (s : ustring) :
  Text.has ":" (Spec.without_colons s) = false.
Proof.
  induction s as [|c s IH]; [reflexivity|].
  simpl. destruct (Uchar.eqb c ":") eqn:C; [exact IH|].
  simpl. now rewrite C.
Qed.

Lemma not_digit_neq (c k : uchar) :
  Spec.is_digit c = false -> Spec.is_digit k = true -> Uchar.eqb k c = false.
Proof. intros ND K. destruct (uchar_eqb_spec k c) as [->|]; congruence. Qed.

Lemma has_uint (c : uchar) (d : Decimal.uint) :
  Spec.is_digit c = false ->
  Text.has c (Ustring.of_string (NilEmpty.string_of_uint d)) = false.
Proof.
  intros ND.
  induction d; cbn [NilEmpty.string_of_uint Ustring.of_string Text.has];
    rewrite ?IHd, ?orb_false_r; try reflexivity;
    apply (not_digit_neq c _ ND); reflexivity.
Qed.

(** The rendering of an integer holds digits and, at most, a sign. *)
Lemma has_str_int (c : uchar) (n : Z) :
  Spec.is_digit c = false -> Uchar.eqb "-" c = false ->
  Text.has c (Py.str_int n) = false.
Proof.
  intros ND NS.
  assert (forall d, Text.has c (Ustring.of_string (NilZero.string_of_uint d))
                    = false) as U.
  { intros d. unfold NilZero.string_of_uint.
    pose proof (has_uint c d ND) as H.
    destruct d; try exact H. cbn [Ustring.of_string Text.has].
    rewrite orb_false_r. apply (not_digit_neq c _ ND). reflexivity. }
  destruct n as [|p|p]; unfold Py.str_int; cbn [Z.to_int NilZero.string_of_int].
  - apply U.
  - apply U.
  - cbn [Ustring.of_string Text.has].
    change (N_of_ascii "-") with "-"%uchar. now rewrite NS, U.
Qed.

Lemma has_format_02 (c : uchar) (n : Z) :
  Spec.is_digit c = false -> Uchar.eqb "-" c = false ->
  Text.has c (Py.format_02 n) = false.
Proof.
  intros ND NS. rewrite format_02_zero_padded. unfold Spec.zero_padded.
  destruct ((0 <=? n) && (n <? 10)).
  - cbn [Ustring.append Text.has]. rewrite (has_str_int c n ND NS), orb_false_r.
    apply (not_digit_neq c _ ND). reflexivity.
  - apply has_str_int; assumption.
Qed.

(** X2: the new filename holds a [':'] exactly when the episode name or
    the extension holds one: the colons of the show name are removed, those
    of the episode name are kept. *)
Theorem format_filename_colons (show_name : ustring) (season episode : Z)
  (episode_name ext : ustring) :
  Text.has ":" (Main.format_filename show_name season episode episode_name ext)
  = Text.has ":" episode_name || Text.has ":" ext.
Proof.
  unfold Main.format_filename. rewrite replace_colons.
  rewrite !has_app, has_without_colons, !has_format_02 by reflexivity.
  reflexivity.
Qed.

End ParserBounds.

(** ** A plan with nothing in it *)

Section EmptyPlan.
Import Sys.
Context `{E : Env}.

Lemma entries_nil_iff (show_name : ustring) (episodes : list TvEpisode.t)
  (files : list Pathlib.Path) :
  Plan.entries show_name episodes files = [] <->
  Forall (fun f => Plan.parses (Pathlib.name f) = false) files.
Proof.
  rewrite Forall_forall. split.
  - intros EN f I.
    pose proof (entries_old show_name episodes files) as O.
    rewrite EN in O. simpl in O.
    destruct (Plan.parses (Pathlib.name f)) eqn:P; [|reflexivity].
    assert (In f (filter (fun f => Plan.parses (Pathlib.name f)) files)) as IN
        by (apply filter_In; now split).
    rewrite <- O in IN. contradiction.
  - intros NP. apply map_eq_nil with (f := Main.PathChange.old).
    rewrite entries_old. induction files as [|f files IH]; [reflexivity|].
    simpl. rewrite (NP f (or_introl eq_refl)). apply IH.
    intros g I. apply NP. now right.
Qed.

(** X3: when no file name parses (an empty list included) the decorated
    builder prints the error panel and exits with code 1, the file system
    and the questions asked being as before; when some file name parses it
    returns a plan that is not empty and prints nothing. *)
Theorem get_file_changes_exits_when_nothing_parses
  (files : list Pathlib.Path) (show_name : ustring)
  (episodes : list TvEpisode.t) (w : World) :
  (Forall (fun f => Plan.parses (Pathlib.name f) = false) files ->
   Main.get_file_changes files show_name episodes w
   = (Raise (Exit 1),
      mkWorld (fs w)
        (console w ++ [Panel "Unable to parse files in given directory."
                         "Error" "red" "left"])
        (asked w)))
  /\ (Exists (fun f => Plan.parses (Pathlib.name f) = true) files ->
      exists c changes,
        Main.get_file_changes files show_name episodes w
        = (Ret (c :: changes), w)).
Proof.
  split.
  - intros NP. apply entries_nil_iff with (show_name := show_name)
                                          (episodes := episodes) in NP.
    unfold Main.get_file_changes.
    rewrite (exit_on_null_list _ _ _ w w
               (get_file_changes_loop_entries files show_name episodes [] w)).
    simpl. now rewrite NP.
  - intros EX.
    destruct (Plan.entries show_name episodes files) as [|c changes] eqn:EN.
    + apply entries_nil_iff in EN. rewrite Exists_exists in EX.
      destruct EX as (f & I & P). rewrite Forall_forall in EN.
      rewrite (EN f I) in P. discriminate.
    + exists c, changes. rewrite <- EN. apply get_file_changes_entries.
      now rewrite EN.
Qed.

End EmptyPlan.

Lemma get_file_changes_exits_when_nothing_parses_witness :
  let E := Demo.env Demo.seasons Demo.episodes None in
  let w := Demo.world E Demo.files in
  fst (Main.get_file_changes [Pathlib.of_string "shows/notes.txt"] "Show" [] w)
  = Sys.Raise (Sys.Exit 1)
  /\ exists c changes,
      Main.get_file_changes
        [Pathlib.of_string "shows/notes.txt";
         Pathlib.of_string "shows/a_S01E01.mkv"] "Show" [] w
      = (Sys.Ret (c :: changes), w).
Proof.
  intros E w.
  split.
  - rewrite (proj1 (get_file_changes_exits_when_nothing_parses (E := E)
                      [Pathlib.of_string "shows/notes.txt"] "Show" [] w)).
    + reflexivity.
    + repeat constructor.
  - apply (proj2 (get_file_changes_exits_when_nothing_parses (E := E) _ "Show" [] w)).
    apply Exists_cons_tl, Exists_cons_hd. reflexivity.
Defined.

(** ** Where a renamed file goes *)

Section NewPath.
Import Sys.
Context `{E : Env}.

Lemma append_assoc (a b c : ustring) : ((a ++ b) ++ c = a ++ (b ++ c))%ustring.
Proof. induction a as [|x a IH]; [reflexivity|]. simpl. now rewrite IH. Qed.

Lemma append_len (a b : ustring) :
  Ustring.length (a ++ b) = (Ustring.length a + Ustring.length b)%nat.
Proof. induction a as [|x a IH]; [reflexivity|]. simpl. now rewrite IH. Qed.

Lemma split_plain (sep : uchar) (s : ustring) :
  Text.has sep s = false -> Pathlib.split sep s = [s].
Proof.
  induction s as [|c s IH]; [reflexivity|].
  cbn [Text.has Pathlib.split]. intros H. apply orb_false_iff in H.
  destruct H as [C H]. rewrite C, (IH H). reflexivity.
Qed.

Lemma startswith_has (c : uchar) (s : ustring) :
  Text.has c s = false -> Py.startswith s (UString c "") = false.
Proof.
  destruct s as [|a s]; [reflexivity|].
  cbn [Text.has]. intros H. apply orb_false_iff in H. destruct H as [C _].
  unfold Py.startswith. cbn [Ustring.prefix].
  destruct (uchar_eqb_spec c a) as [->|]; [|reflexivity].
  now rewrite uchar_eqb_refl in C.
Qed.

(** Joining a name that holds no ['/'] appends it as one component. *)
Lemma truediv_plain (p : Pathlib.Path) (s : ustring) :
  Text.has "/" s = false -> s <> "" -> s <> "."%ustring ->
  Pathlib.truediv p s = Pathlib.make_child p s.
Proof.
  intros NS NE ND. unfold Pathlib.truediv, Pathlib.splitroot.
  rewrite (startswith_has "/" s NS). cbn [Ustring.eqb].
  unfold Pathlib.parse_parts. rewrite (split_plain "/" s NS).
  cbn [filter]. unfold Pathlib.is_component.
  apply ustring_eqb_neq in NE, ND. now rewrite NE, ND.
Qed.

Lemma parent_child (p : Pathlib.Path) (s : ustring) :
  Pathlib.parent (Pathlib.make_child p s) = p.
Proof.
  unfold Pathlib.parent, Pathlib.make_child. cbn [Pathlib.parts Pathlib.root].
  destruct (Pathlib.parts p ++ [s]) as [|x l] eqn:L.
  - now apply app_eq_nil in L.
  - rewrite <- L, removelast_last. now destruct p.
Qed.

Lemma has_slice_from (c : uchar) (i : nat) (s : ustring) :
  Text.has c s = false -> Text.has c (Py.slice_from i s) = false.
Proof.
  revert s; induction i as [|i IH]; intros [|a s]; try easy.
  cbn [Text.has Py.slice_from]. intros H. apply orb_false_iff in H.
  now apply IH.
Qed.

Lemma has_suffix (c : uchar) (f : Pathlib.Path) :
  Text.has c (Pathlib.name f) = false -> Text.has c (Pathlib.suffix f) = false.
Proof.
  intros H. unfold Pathlib.suffix.
  destruct (Py.rfind_char "." (Pathlib.name f)) as [i|]; [|reflexivity].
  destruct (_ && _); [|reflexivity]. now apply has_slice_from.
Qed.

Lemma has_without_colons_le (c : uchar) (s : ustring) :
  Text.has c s = false -> Text.has c (Spec.without_colons s) = false.
Proof.
  induction s as [|a s IH]; [reflexivity|].
  cbn [Text.has Spec.without_colons]. intros H. apply orb_false_iff in H.
  destruct H as [C H]. destruct (Uchar.eqb a ":"); [now apply IH|].
  cbn [Text.has]. now rewrite C, IH.
Qed.

Lemma find_by_attr_in {A} `{Py.Attrs A} (lst : list A) (attr : ustring)
  (v : Py.value) (x : A) :
  Utils.find_by_attr lst attr v = Some x -> In x lst.
Proof.
  induction lst as [|i lst IH]; [discriminate|].
  cbn [Utils.find_by_attr].
  destruct (Py.getattr i attr) as [u|]; [destruct (Py.value_eqb u v)|].
  - intros [= ->]. now left.
  - intros F. right. now apply IH.
  - intros F. right. now apply IH.
Qed.

(** The characters a new filename can hold beyond those of its inputs. *)
Lemma has_new_name (c : uchar) (show_name : ustring) (season episode : Z)
  (episodes : list TvEpisode.t) (ext : ustring) :
  Spec.is_digit c = false ->
  Text.has c " S-E None" = false ->
  Text.has c show_name = false ->
  Forall (fun ep => Text.has c (TvEpisode.name ep) = false) episodes ->
  Text.has c ext = false ->
  Text.has c (Main.format_filename show_name season episode
                (Utils.find_by_attr episodes "number" (Py.VInt episode)) ext)
  = false.
Proof.
  intros ND NL NS NEP NX. unfold Main.format_filename.
  rewrite replace_colons, !has_app.
  cbn [Text.has] in NL. rewrite !orb_false_iff in NL.
  destruct NL as (L1 & L2 & L3 & L4 & L5 & L6 & L7 & L8 & L9 & _).
  assert (Uchar.eqb "-" c = false) as NM by exact L3.
  rewrite (has_without_colons_le c _ NS), !has_format_02, NX by assumption.
  cbn [Text.has]. rewrite L1, L2, L4.
  destruct (Utils.find_by_attr episodes "number" (Py.VInt episode)) as [ep|]
    eqn:F.
  - apply find_by_attr_in in F. rewrite Forall_forall in NEP.
    change (Py.str (Some ep)) with (TvEpisode.name ep).
    now rewrite (NEP ep F).
  - change (Py.str (@None TvEpisode.t)) with "None". cbn [Text.has].
    now rewrite L6, L7, L8, L9.
Qed.

Lemma new_name_proper {A} `{Py.Str A} (show_name : ustring) (season episode : Z)
  (episode_name : A) (ext : ustring) :
  Main.format_filename show_name season episode episode_name ext <> ""
  /\ Main.format_filename show_name season episode episode_name ext
     <> "."%ustring.
Proof.
  assert (Text.has " " (Main.format_filename show_name season episode
                          episode_name ext) = true) as SP.
  { unfold Main.format_filename. rewrite !has_app. cbn [Text.has].
    rewrite uchar_eqb_refl. cbn [orb]. now rewrite orb_true_r. }
  split; intros EQ; rewrite EQ in SP; discriminate SP.
Qed.

Lemma entry_plain (show_name : ustring) (episodes : list TvEpisode.t)
  (f : Pathlib.Path) (c : Main.PathChange.t) :
  Text.has "/" show_name = false ->
  Forall (fun ep => Text.has "/" (TvEpisode.name ep) = false) episodes ->
  Text.has "/" (Pathlib.name f) = false ->
  Plan.entry show_name episodes f = Some c ->
  exists season episode,
    Main.parse_episode_file (Pathlib.name f) = Ret (Some (season, episode))
    /\ c = Main.PathChange.make f
             (Pathlib.make_child (Pathlib.parent f)
                (Main.format_filename show_name season episode
                   (Utils.find_by_attr episodes "number" (Py.VInt episode))
                   (Pathlib.suffix f))).
Proof.
  intros NS NEP NF. unfold Plan.entry.
  destruct (Main.parse_episode_file (Pathlib.name f)) as [[[s e]|]|];
    try discriminate.
  intros [= <-]. exists s, e. split; [reflexivity|]. f_equal.
  apply truediv_plain; try apply new_name_proper.
  apply has_new_name; try reflexivity; try assumption.
  now apply has_suffix.
Qed.

(** X4: when neither the show name, nor an episode name, nor a file name
    holds a ['/'], every entry of the plan keeps the file in its directory:
    the new path has the parent of the old one, and its name is the
    filename computed for the season and episode parsed from the old
    name. *)
Theorem new_path_is_a_sibling (files : list Pathlib.Path)
  (show_name : ustring) (episodes : list TvEpisode.t) (w : World) :
  Text.has "/" show_name = false ->
  Forall (fun ep => Text.has "/" (TvEpisode.name ep) = false) episodes ->
  Forall (fun f => Text.has "/" (Pathlib.name f) = false) files ->
  exists changes,
    Main.get_file_changes_loop files show_name episodes [] w = (Ret changes, w)
    /\ Forall (fun c =>
                 Pathlib.parent (Main.PathChange.new c)
                 = Pathlib.parent (Main.PathChange.old c)
                 /\ exists season episode,
                     Main.parse_episode_file
                       (Pathlib.name (Main.PathChange.old c))
                     = Ret (Some (season, episode))
                     /\ Pathlib.name (Main.PathChange.new c)
                        = Main.format_filename show_name season episode
                            (Utils.find_by_attr episodes "number"
                               (Py.VInt episode))
                            (Pathlib.suffix (Main.PathChange.old c)))
         changes.
Proof.
  intros NS NEP NF. exists (Plan.entries show_name episodes files).
  split; [apply get_file_changes_loop_entries|].
  apply Forall_forall. intros c I. unfold Plan.entries in I.
  apply in_flat_map in I. destruct I as (f & IF & I).
  destruct (Plan.entry show_name episodes f) as [c'|] eqn:EN; [|contradiction].
  destruct I as [<-|[]]. rewrite Forall_forall in NF.
  destruct (entry_plain _ _ _ _ NS NEP (NF f IF) EN) as (s & e & P & ->).
  cbn [Main.PathChange.make Main.PathChange.new Main.PathChange.old].
  rewrite parent_child, child_name. split; [reflexivity|]. now exists s, e.
Qed.

End NewPath.

Lemma new_path_is_a_sibling_witness :
  let E := Demo.env Demo.seasons Demo.episodes None in
  let w := Demo.world E Demo.files in
  let files := [Pathlib.of_string "shows/a_S01E01.mkv";
                Pathlib.of_string "shows/notes.txt"] in
  let episodes := [TvEpisode.mk "Pilot" 1 101] in
  exists changes,
    Main.get_file_changes_loop files "Show: Title" episodes [] w
    = (Sys.Ret changes, w)
    /\ Forall (fun c =>
                 Pathlib.parent (Main.PathChange.new c)
                 = Pathlib.parent (Main.PathChange.old c)
                 /\ exists season episode,
                     Main.parse_episode_file
                       (Pathlib.name (Main.PathChange.old c))
                     = Sys.Ret (Some (season, episode))
                     /\ Pathlib.name (Main.PathChange.new c)
                        = Main.format_filename "Show: Title" season episode
                            (Utils.find_by_attr episodes "number"
                               (Py.VInt episode))
                            (Pathlib.suffix (Main.PathChange.old c)))
         changes.
Proof.
  intros E w files episodes.
  apply (new_path_is_a_sibling (E := E)); repeat constructor.
Defined.

(** ** The extension of a renamed file *)

Section Extension.
Import Sys.
Context `{E : Env}.

Lemma slice_to_len (i : nat) (s : ustring) :
  (i <= Ustring.length s)%nat -> Ustring.length (Py.slice_to i s) = i.
Proof.
  revert s; induction i as [|i IH]; intros [|a s] L; simpl in *; try lia.
  rewrite IH; lia.
Qed.

Lemma slice_from_app (pre x : ustring) :
  Py.slice_from (Ustring.length pre) (pre ++ x) = x.
Proof. induction pre as [|a pre IH]; [now destruct x|exact IH]. Qed.

Lemma slice_from_len (i : nat) (s : ustring) :
  Ustring.length (Py.slice_from i s) = (Ustring.length s - i)%nat.
Proof.
  revert s; induction i as [|i IH]; intros [|a s]; simpl; try lia. apply IH.
Qed.

Lemma rfind_bound (c : uchar) (s : ustring) (i : nat) :
  Py.rfind_char c s = Some i -> (i < Ustring.length s)%nat.
Proof.
  revert i; induction s as [|a s IH]; intros i; [discriminate|].
  cbn [Py.rfind_char Ustring.length].
  destruct (Py.rfind_char c s) as [j|].
  - intros [= <-]. specialize (IH j eq_refl). lia.
  - destruct (Uchar.eqb a c); [|discriminate]. intros [= <-]. lia.
Qed.

(** The text from the last occurrence of a character on starts with it and
    holds it nowhere else. *)
Lemma rfind_tail (c : uchar) (s : ustring) (i : nat) :
  Py.rfind_char c s = Some i ->
  exists r, Py.slice_from i s = UString c r /\ Py.rfind_char c r = None.
Proof.
  revert i; induction s as [|a s IH]; intros i; [discriminate|].
  cbn [Py.rfind_char].
  destruct (Py.rfind_char c s) as [j|] eqn:R.
  - intros [= <-]. cbn [Py.slice_from]. now apply IH.
  - destruct (uchar_eqb_spec a c) as [->|]; [|discriminate].
    intros [= <-]. now exists s.
Qed.

Lemma rfind_app (c : uchar) (pre r : ustring) :
  Py.rfind_char c r = None ->
  Py.rfind_char c (pre ++ UString c r) = Some (Ustring.length pre).
Proof.
  intros R. induction pre as [|a pre IH]; cbn [Ustring.append Py.rfind_char].
  - now rewrite R, uchar_eqb_refl.
  - now rewrite IH.
Qed.

(** A suffix that is not empty is a dot followed by a text without dots
    that is not empty either. *)
Lemma suffix_shape (p : Pathlib.Path) :
  Pathlib.suffix p <> "" ->
  exists r, Pathlib.suffix p = UString "." r /\ r <> ""
            /\ Py.rfind_char "." r = None.
Proof.
  unfold Pathlib.suffix.
  destruct (Py.rfind_char "." (Pathlib.name p)) as [i|] eqn:R; [|easy].
  destruct (Nat.ltb_spec 0 i) as [P|]; [|easy].
  destruct (Nat.ltb_spec i (Py.len (Pathlib.name p) - 1)) as [L|]; [|easy].
  cbn [andb]. intros _.
  destruct (rfind_tail _ _ _ R) as (r & S & N). exists r.
  split; [exact S|]. split; [|exact N].
  intros ->. pose proof (slice_from_len i (Pathlib.name p)) as LEN.
  rewrite S in LEN. unfold Py.len in L. simpl in LEN. lia.
Qed.

Lemma suffix_of_child (p : Pathlib.Path) (x r : ustring) :
  x <> "" -> r <> "" -> Py.rfind_char "." r = None ->
  Pathlib.suffix (Pathlib.make_child p (x ++ UString "." r)) = UString "." r.
Proof.
  intros NX NR R. unfold Pathlib.suffix. rewrite child_name.
  rewrite (rfind_app "." x r R).
  assert (0 < Ustring.length x)%nat as PX by (destruct x; simpl; [easy|lia]).
  assert (0 < Ustring.length r)%nat as PR by (destruct r; simpl; [easy|lia]).
  unfold Py.len. rewrite append_len. cbn [Ustring.length].
  destruct (Nat.ltb_spec 0 (Ustring.length x)) as [_|]; [|lia].
  destruct (Nat.ltb_spec (Ustring.length x)
              (Ustring.length x + S (Ustring.length r) - 1)) as [_|]; [|lia].
  cbn [andb]. apply slice_from_app.
Qed.

(** The filename the template writes is a text that is not empty followed
    by the extension. *)
Lemma new_name_ends_with_ext {A} `{Py.Str A} (show_name : ustring)
  (season episode : Z) (episode_name : A) (ext : ustring) :
  exists x, x <> ""
            /\ Main.format_filename show_name season episode episode_name ext
               = (x ++ ext)%ustring.
Proof.
  exists (Py.replace ":" "" show_name ++ " S" ++ Py.format_02 season
            ++ "E" ++ Py.format_02 episode ++ " " ++ Py.str episode_name)%ustring.
  split.
  - intros EQ.
    assert (Ustring.length
              (Py.replace ":" "" show_name ++ " S" ++ Py.format_02 season
                 ++ "E" ++ Py.format_02 episode ++ " "
                 ++ Py.str episode_name) = 0%nat) as L by now rewrite EQ.
    rewrite !append_len in L. simpl in L. lia.
  - unfold Main.format_filename. now rewrite !append_assoc.
Qed.

(** A file with an extension keeps it under the name the template
    writes. *)
Lemma renamed_suffix {A} `{Py.Str A} (f : Pathlib.Path) (show_name : ustring)
  (season episode : Z) (episode_name : A) :
  Pathlib.suffix f <> "" ->
  Pathlib.suffix
    (Pathlib.make_child (Pathlib.parent f)
       (Main.format_filename show_name season episode episode_name
          (Pathlib.suffix f)))
  = Pathlib.suffix f.
Proof.
  intros SX. destruct (suffix_shape f SX) as (r & -> & NR & R).
  destruct (new_name_ends_with_ext show_name season episode episode_name
              (UString "." r)) as (x & NX & ->).
  now apply suffix_of_child.
Qed.

(** X5: when neither the show name, nor an episode name, nor a file name
    holds a ['/'], every entry of the plan whose old path has a suffix
    gives the new path the same suffix. *)
Theorem new_path_keeps_extension (files : list Pathlib.Path)
  (show_name : ustring) (episodes : list TvEpisode.t) (w : World) :
  Text.has "/" show_name = false ->
  Forall (fun ep => Text.has "/" (TvEpisode.name ep) = false) episodes ->
  Forall (fun f => Text.has "/" (Pathlib.name f) = false) files ->
  exists changes,
    Main.get_file_changes_loop files show_name episodes [] w = (Ret changes, w)
    /\ Forall (fun c =>
                 Pathlib.suffix (Main.PathChange.old c) <> "" ->
                 Pathlib.suffix (Main.PathChange.new c)
                 = Pathlib.suffix (Main.PathChange.old c))
         changes.
Proof.
  intros NS NEP NF. exists (Plan.entries show_name episodes files).
  split; [apply get_file_changes_loop_entries|].
  apply Forall_forall. intros c I. unfold Plan.entries in I.
  apply in_flat_map in I. destruct I as (f & IF & I).
  destruct (Plan.entry show_name episodes f) as [c'|] eqn:EN; [|contradiction].
  destruct I as [<-|[]]. rewrite Forall_forall in NF.
  destruct (entry_plain _ _ _ _ NS NEP (NF f IF) EN) as (s & e & P & ->).
  cbn [Main.PathChange.make Main.PathChange.new Main.PathChange.old].
  apply renamed_suffix.
Qed.

(** The entry of a file that a first plan has renamed. *)
Lemma entry_of_renamed (show_name : ustring) (episodes : list TvEpisode.t)
  (f : Pathlib.Path) (c : Main.PathChange.t) :
  Text.has "/" show_name = false ->
  Forall (fun ep => Text.has "/" (TvEpisode.name ep) = false) episodes ->
  Spec.no_occurrence (Spec.without_colons show_name) ->
  Text.has "/" (Pathlib.name f) = false ->
  Pathlib.suffix f <> "" ->
  Plan.entry show_name episodes f = Some c ->
  Plan.entry show_name episodes (Main.PathChange.new c)
  = Some (Main.PathChange.make (Main.PathChange.new c) (Main.PathChange.new c)).
Proof.
  intros NS NEP NO NF SX EN.
  destruct (entry_plain _ _ _ _ NS NEP NF EN) as (s & e & P & ->).
  cbn [Main.PathChange.make Main.PathChange.new].
  set (ep := Utils.find_by_attr episodes "number" (Py.VInt e)).
  set (N := Main.format_filename show_name s e ep (Pathlib.suffix f)).
  assert (0 <= s <= 99 /\ 0 <= e <= 99) as [RS RE].
  { rewrite parse_of_first_match in P.
    destruct (Scan.first_match Main.pattern (Pathlib.name f)) as [m|] eqn:FM;
      [|discriminate].
    destruct (first_match_sound _ _ FM) as (pre & suf & [_ T] & _).
    pose proof (tag_numbers_bounds m T) as B. cbn [option_map] in P.
    destruct (Spec.tag_numbers m) as [a b]. now injection P as <- <-. }
  rewrite <- replace_colons in NO.
  pose proof (renamed_suffix f show_name s e ep SX) as RSX. fold N in RSX.
  pose proof (parse_format_roundtrip show_name s e ep (Pathlib.suffix f)
                NO RS RE) as PN. fold N in PN.
  unfold Plan.entry. rewrite child_name, parent_child, PN, RSX.
  fold ep. fold N. f_equal. f_equal.
  apply truediv_plain; try apply new_name_proper.
  apply has_new_name; try reflexivity; try assumption.
  now apply has_suffix.
Qed.

(** The entries of the files a first plan has renamed. *)
Lemma entries_of_renamed (show_name : ustring) (episodes : list TvEpisode.t)
  (files : list Pathlib.Path) :
  Text.has "/" show_name = false ->
  Forall (fun ep => Text.has "/" (TvEpisode.name ep) = false) episodes ->
  Spec.no_occurrence (Spec.without_colons show_name) ->
  Forall (fun f => Text.has "/" (Pathlib.name f) = false
                   /\ Pathlib.suffix f <> "") files ->
  Plan.entries show_name episodes
    (map Main.PathChange.new (Plan.entries show_name episodes files))
  = map (fun c => Main.PathChange.make (Main.PathChange.new c)
                    (Main.PathChange.new c))
      (Plan.entries show_name episodes files).
Proof.
  intros NS NEP NO NF.
  induction NF as [|f files [NFf SX] NF IH]; [reflexivity|].
  cbn [Plan.entries flat_map]. fold (Plan.entries show_name episodes files).
  rewrite !map_app. unfold Plan.entries at 1. rewrite flat_map_app.
  fold (Plan.entries show_name episodes
          (map Main.PathChange.new (Plan.entries show_name episodes files))).
  rewrite IH. f_equal.
  destruct (Plan.entry show_name episodes f) as [c|] eqn:EN; [|reflexivity].
  cbn [map flat_map].
  rewrite (entry_of_renamed _ _ _ _ NS NEP NO NFf SX EN). reflexivity.
Qed.

(** X6: when neither the show name, nor an episode name, nor a file name
    holds a ['/'], every file has a suffix, and the show name without its
    colons contains no tag, a second plan built over the new paths of a
    first plan (same show, same episodes) maps every one of them to
    itself. *)
Theorem second_plan_renames_nothing (files : list Pathlib.Path)
  (show_name : ustring) (episodes : list TvEpisode.t) (w : World) :
  Text.has "/" show_name = false ->
  Forall (fun ep => Text.has "/" (TvEpisode.name ep) = false) episodes ->
  Spec.no_occurrence (Spec.without_colons show_name) ->
  Forall (fun f => Text.has "/" (Pathlib.name f) = false
                   /\ Pathlib.suffix f <> "") files ->
  exists changes,
    Main.get_file_changes_loop files show_name episodes [] w = (Ret changes, w)
    /\ Main.get_file_changes_loop (map Main.PathChange.new changes)
         show_name episodes [] w
       = (Ret (map (fun c => Main.PathChange.make (Main.PathChange.new c)
                               (Main.PathChange.new c)) changes), w).
Proof.
  intros NS NEP NO NF. exists (Plan.entries show_name episodes files).
  split; [apply get_file_changes_loop_entries|].
  rewrite get_file_changes_loop_entries. cbn [app].
  now rewrite entries_of_renamed.
Qed.

End Extension.

Lemma new_path_keeps_extension_witness :
  let E := Demo.env Demo.seasons Demo.episodes None in
  let w := Demo.world E Demo.files in
  let files := [Pathlib.of_string "shows/a_S01E01.final.mkv";
                Pathlib.of_string "shows/b_S01E02"] in
  let episodes := [TvEpisode.mk "Pilot" 1 101; TvEpisode.mk "Mr. Two" 2 102] in
  exists changes,
    Main.get_file_changes_loop files "Show: Title" episodes [] w
    = (Sys.Ret changes, w)
    /\ Forall (fun c =>
                 Pathlib.suffix (Main.PathChange.old c) <> "" ->
                 Pathlib.suffix (Main.PathChange.new c)
                 = Pathlib.suffix (Main.PathChange.old c))
         changes.
Proof.
  intros E w files episodes.
  apply (new_path_keeps_extension (E := E)); repeat constructor.
Defined.

Lemma second_plan_renames_nothing_witness :
  let E := Demo.env Demo.seasons Demo.episodes None in
  let w := Demo.world E Demo.files in
  let files := [Pathlib.of_string "shows/a_S01E01.mkv";
                Pathlib.of_string "shows/notes.txt";
                Pathlib.of_string "shows/b_S01E02.mkv"] in
  let episodes := [TvEpisode.mk "Pilot" 1 101; TvEpisode.mk "Mr. Two" 2 102] in
  exists changes,
    Main.get_file_changes_loop files "Show: Title" episodes [] w
    = (Sys.Ret changes, w)
    /\ Main.get_file_changes_loop (map Main.PathChange.new changes)
         "Show: Title" episodes [] w
       = (Sys.Ret (map (fun c => Main.PathChange.make (Main.PathChange.new c)
                                   (Main.PathChange.new c)) changes), w).
Proof.
  intros E w files episodes.
  apply (second_plan_renames_nothing (E := E)).
  - reflexivity.
  - repeat constructor.
  - apply first_match_none_sound. reflexivity.
  - repeat constructor; discriminate.
Defined.

(** ** Parsing what the template wrote *)

Section RoundTrip.
Import Sys.
Context `{E : Env}.

(** C9 (amended): when the show name, once its [':'] characters are
    removed, contains no tag, the filename the template produces for a
    season and an episode between 0 and 99 parses back to that season and
    episode, for every episode name and extension.  When moreover neither
    the show name nor an episode name holds a ['/'], a second plan over the
    files a first plan has renamed maps each of them to itself, for every
    list of files whose names hold no ['/'] and have a suffix. *)
Theorem renamed_file_parses_back (show_name : ustring) :
  Spec.no_occurrence (Spec.without_colons show_name) ->
  (forall (season episode : Z) (episode_name ext : ustring),
      0 <= season <= 99 -> 0 <= episode <= 99 ->
      Main.parse_episode_file
        (Main.format_filename show_name season episode episode_name ext)
      = Ret (Some (season, episode)))
  /\ (Text.has "/" show_name = false ->
      forall (episodes : list TvEpisode.t) (files : list Pathlib.Path)
             (changes : list Main.PathChange.t) (w w' : World),
        Forall (fun ep => Text.has "/" (TvEpisode.name ep) = false) episodes ->
        Forall (fun f => Text.has "/" (Pathlib.name f) = false
                         /\ Pathlib.suffix f <> "") files ->
        Main.get_file_changes files show_name episodes w = (Ret changes, w') ->
        Main.get_file_changes (map Main.PathChange.new changes)
          show_name episodes w
        = (Ret (map (fun c => Main.PathChange.make (Main.PathChange.new c)
                                (Main.PathChange.new c)) changes), w)).
Proof.
  intros NO. split.
  - intros season episode episode_name ext RS RE.
    rewrite <- replace_colons in NO. now apply parse_format_roundtrip.
  - intros NS episodes files changes w w' NEP NF G.
    unfold Main.get_file_changes in G.
    rewrite (exit_on_null_list _ _ _ w w
               (get_file_changes_loop_entries files show_name episodes [] w))
      in G.
    cbn [app] in G.
    destruct (Plan.entries show_name episodes files) as [|c l] eqn:EN;
      [discriminate|].
    injection G as <- _. rewrite <- EN.
    rewrite <- (entries_of_renamed show_name episodes files NS NEP NO NF).
    apply get_file_changes_entries.
    rewrite (entries_of_renamed show_name episodes files NS NEP NO NF), EN.
    discriminate.
Qed.

End RoundTrip.

Lemma renamed_file_parses_back_witness :
  let E := Demo.env Demo.seasons Demo.episodes None in
  let w := Demo.world E Demo.files in
  let files := [Pathlib.of_string "shows/a_S01E01.mkv";
                Pathlib.of_string "shows/notes.txt";
                Pathlib.of_string "shows/b_S01E02.mkv"] in
  let episodes := [TvEpisode.mk "Pilot" 1 101; TvEpisode.mk "Second" 2 102] in
  let a := Pathlib.of_string "shows/Show Title S01E01 Pilot.mkv" in
  let b := Pathlib.of_string "shows/Show Title S01E02 Second.mkv" in
  Main.parse_episode_file
    (Main.format_filename "Show: Title" 1 1 "Pilot" ".mkv")
  = Sys.Ret (Some (1, 1))
  /\ Main.get_file_changes files "Show: Title" episodes w
     = (Sys.Ret [Main.PathChange.make (Pathlib.of_string "shows/a_S01E01.mkv") a;
                 Main.PathChange.make (Pathlib.of_string "shows/b_S01E02.mkv") b],
        w)
  /\ Main.get_file_changes [a; b] "Show: Title" episodes w
     = (Sys.Ret [Main.PathChange.make a a; Main.PathChange.make b b], w).
Proof.
  intros E w files episodes a b.
  destruct (renamed_file_parses_back (E := E) "Show: Title") as [P K].
  - apply first_match_none_sound. reflexivity.
  - assert (Main.get_file_changes files "Show: Title" episodes w
            = (Sys.Ret [Main.PathChange.make
                          (Pathlib.of_string "shows/a_S01E01.mkv") a;
                        Main.PathChange.make
                          (Pathlib.of_string "shows/b_S01E02.mkv") b], w))
      as G by (vm_compute; reflexivity).
    split; [apply P; lia|]. split; [exact G|].
    refine (K eq_refl episodes files _ w w _ _ G).
    + repeat constructor.
    + repeat constructor; discriminate.
Defined.

(** The show name ["S:01E01"] contains no tag, yet the filename built from it
    for season 2, episode 3 parses to season 1, episode 1. *)
Lemma renamed_file_parses_back_counterexample :
  Spec.no_occurrence "S:01E01"
  /\ 0 <= 2 <= 99 /\ 0 <= 3 <= 99
  /\ Main.format_filename "S:01E01" 2 3 "Pilot" ".mkv"
     = "S01E01 S02E03 Pilot.mkv"
  /\ Main.parse_episode_file
       (Main.format_filename "S:01E01" 2 3 "Pilot" ".mkv")
     = Sys.Ret (Some (1, 1))
  /\ Main.parse_episode_file
       (Main.format_filename "S:01E01" 2 3 "Pilot" ".mkv")
     <> Sys.Ret (Some (2, 3)).
Proof.
  split; [apply first_match_none_sound; reflexivity|].
  split; [lia|]. split; [lia|].
  split; [vm_compute; reflexivity|].
  split; [vm_compute; reflexivity|].
  vm_compute. discriminate.
Qed.

(** The second plan needs the file's suffix to be the extension used: a
    file renamed without an extension takes its suffix from the last dot of
    the show or episode name, and a second plan moves it again. *)
Lemma rebuilt_plan_moves_file_without_extension :
  let E := Demo.env Demo.seasons Demo.episodes None in
  let w := Demo.world E Demo.files in
  let pilot := TvEpisode.mk "Pilot" 1 101 in
  let f := Pathlib.of_string "shows/a_S01E01" in
  let g := Pathlib.of_string "shows/Mr. Robot S01E01 Pilot" in
  Main.get_file_changes [f] "Mr. Robot" [pilot] w
  = (Sys.Ret [Main.PathChange.make f g], w)
  /\ Main.get_file_changes [g] "Mr. Robot" [pilot] w
     = (Sys.Ret [Main.PathChange.make g
                   (Pathlib.of_string
                      "shows/Mr. Robot S01E01 Pilot. Robot S01E01 Pilot")], w).
Proof.
  intros E w pilot f g. split; vm_compute; reflexivity.
Qed.

(** It needs a show name without ['/'] as well: the part of the name up to
    its last ['/'] names directories, so the renamed file lies deeper than
    the one it comes from, and a second plan moves it deeper again. *)
Lemma rebuilt_plan_moves_file_of_show_with_slash :
  let E := Demo.env Demo.seasons Demo.episodes None in
  let w := Demo.world E Demo.files in
  let pilot := TvEpisode.mk "Pilot" 1 101 in
  let f := Pathlib.of_string "shows/a_S01E01.mkv" in
  let g := Pathlib.of_string "shows/A/B S01E01 Pilot.mkv" in
  Spec.no_occurrence (Spec.without_colons "A/B")
  /\ Main.get_file_changes [f] "A/B" [pilot] w
     = (Sys.Ret [Main.PathChange.make f g], w)
  /\ Main.get_file_changes [g] "A/B" [pilot] w
     = (Sys.Ret [Main.PathChange.make g
                   (Pathlib.of_string "shows/A/A/B S01E01 Pilot.mkv")], w).
Proof.
  intros E w pilot f g.
  split; [apply first_match_none_sound; reflexivity|].
  split; vm_compute; reflexivity.
Qed.

(** ** The decorated lookups *)

Section Lookups.
Import Sys.
Context `{E : Env}.

Lemma exit_on_null_not_null {R} `{Main.Nullish R} (message : ustring)
  (func : M World R) (w w' : World) (r : R) :
  Main.exit_on_null message func w = (Ret r, w') -> Main.is_null r = false.
Proof.
  unfold Main.exit_on_null, bind.
  destruct (func w) as [[r0|e] w0]; [|discriminate].
  destruct (Main.is_null r0) eqn:N; [discriminate|].
  now intros [= <- _].
Qed.

(** X7: a decorated lookup that returns never returns [None] or an empty
    list: the show and the season are there, the episode list and the plan
    are not empty. *)
Theorem decorated_lookups_return_something (w w' : World) :
  (forall show_name auto r,
      Main.get_tv_show show_name auto w = (Ret r, w') -> r <> None)
  /\ (forall show_id season_num r,
         Main.get_tv_season show_id season_num w = (Ret r, w') -> r <> None)
  /\ (forall show_id season_num r,
         Main.get_tv_episodes show_id season_num w = (Ret r, w') -> r <> [])
  /\ (forall files show_name episodes r,
         Main.get_file_changes files show_name episodes w = (Ret r, w') ->
         r <> []).
Proof.
  repeat split; intros;
    match goal with
    | H : _ = (Ret ?r, _) |- _ =>
        apply exit_on_null_not_null in H; intros ->; discriminate H
    end.
Qed.

Lemma search_loop_map (data : list Json.show_result) (acc : list TvShow.t) :
  TraktAPI.search_loop data acc = acc ++ map TraktAPI.show_of_result data.
Proof.
  revert acc; induction data as [|r data IH]; intros acc; simpl.
  - now rewrite app_nil_r.
  - now rewrite IH, <- app_assoc.
Qed.

(** X8: a query that is missing or empty gives no show, whatever the
    provider would answer; otherwise the shows are those of the first
    [limit] entries of the response, in its order, so at most [limit] of
    them; a failure of the provider leaves the call as it is raised. *)
Theorem search_tv_shows_at_most_limit (limit : nat) (w : World) :
  TraktAPI.search_tv_shows None limit w = (Ret [], w)
  /\ TraktAPI.search_tv_shows (Some "") limit w = (Ret [], w)
  /\ (forall query data,
         query <> "" -> http_search query = Ret data ->
         TraktAPI.search_tv_shows (Some query) limit w
         = (Ret (map TraktAPI.show_of_result (firstn limit data)), w)
         /\ (List.length (map TraktAPI.show_of_result (firstn limit data))
             <= limit)%nat)
  /\ (forall query e,
         query <> "" -> http_search query = Raise e ->
         TraktAPI.search_tv_shows (Some query) limit w = (Raise e, w)).
Proof.
  split; [reflexivity|]. split; [reflexivity|]. split.
  - intros query data NE H. destruct query as [|c q]; [contradiction|].
    unfold TraktAPI.search_tv_shows, bind, lift. rewrite H.
    rewrite search_loop_map. split; [reflexivity|].
    rewrite length_map. apply firstn_le_length.
  - intros query e NE H. destruct query as [|c q]; [contradiction|].
    unfold TraktAPI.search_tv_shows, bind, lift. now rewrite H.
Qed.

Lemma get_tv_show_unfold (query : ustring) (auto : bool) (w : World)
  (data : list Json.show_result) :
  query <> "" -> http_search query = Ret data ->
  Main.get_tv_show (Some query) auto w
  = Main.exit_on_null "Unable to find TV Show matching given name."
      (match map TraktAPI.show_of_result (firstn 5 data) with
       | [] => ret None
       | first :: _ =>
           if auto then ret (Some first)
           else ask_show "Tv Show"
                  (Utils.as_choices
                     (map TraktAPI.show_of_result (firstn 5 data)))
       end) w.
Proof.
  intros NE H. destruct query as [|c q]; [contradiction|].
  unfold Main.get_tv_show, Main.exit_on_null, bind at 1.
  unfold bind at 1. unfold bind at 1. cbn [ret].
  unfold TraktAPI.search_tv_shows, bind at 1, lift. rewrite H.
  rewrite search_loop_map. reflexivity.
Qed.

(** X9: with a show name given, a response without entries makes
    [get_tv_show] print its error panel and exit with code 1; with entries
    and automatic selection it returns the first one and asks nothing;
    without automatic selection it asks once, offering the first five
    entries at most. *)
Theorem get_tv_show_picks_first_when_auto (query : ustring) (w : World)
  (data : list Json.show_result) :
  query <> "" -> http_search query = Ret data ->
  (data = [] ->
   forall auto,
     Main.get_tv_show (Some query) auto w
     = (Raise (Exit 1),
        Report.failed w "Unable to find TV Show matching given name."))
  /\ (forall r rest,
         data = r :: rest ->
         Main.get_tv_show (Some query) true w
         = (Ret (Some (TraktAPI.show_of_result r)), w)
         /\ asked (snd (Main.get_tv_show (Some query) false w))
            = asked w
                ++ [AskShow "Tv Show"
                      (Utils.as_choices
                         (map TraktAPI.show_of_result (firstn 5 data)))]).
Proof.
  intros NE H. split.
  - intros -> auto. rewrite (get_tv_show_unfold query auto w [] NE H).
    reflexivity.
  - intros r rest ->. split.
    + rewrite (get_tv_show_unfold query true w _ NE H). reflexivity.
    + rewrite (get_tv_show_unfold query false w _ NE H).
      cbn [firstn map].
      unfold Main.exit_on_null, ask_show, bind, log_prompt, modify, lift.
      cbn [fst snd].
      destruct (answer_show _ _) as [[s|]|e]; reflexivity.
Qed.

(** X10: when the season number does not select a season and the user is
    asked, the season the user picks is returned; only a cancelled
    question makes [get_tv_season] print its error panel and exit with
    code 1. *)
Theorem get_tv_season_asks_before_failing (show_id n : Z) (w : World)
  (seasons : list TvSeason.t) (answer : option TvSeason.t) :
  TraktAPI.get_show_seasons show_id w = (Ret seasons, w) ->
  ~ 0 < n <= Z.of_nat (List.length seasons) ->
  answer_season "Season" (Utils.as_choices seasons) = Ret answer ->
  let w' := Report.questioned w
              (AskSeason "Season" (Utils.as_choices seasons)) in
  Main.get_tv_season show_id (Some n) w
  = match answer with
    | Some season => (Ret (Some season), w')
    | None => (Raise (Exit 1), Report.failed w' "Invalid season number given.")
    end.
Proof.
  intros G NR A w'. rewrite (get_tv_season_unfold show_id (Some n) w seasons G).
  replace (negb (n =? 0) && (0 <? n) && (n <=? Z.of_nat (List.length seasons)))
    with false by (symmetry; rewrite !andb_false_iff, negb_false_iff; lia).
  unfold Main.exit_on_null, ask_season, bind, log_prompt, modify, lift.
  rewrite A. now destruct answer.
Qed.

Lemma episodes_loop_map (data : list Json.episode_result)
  (acc : list TvEpisode.t) :
  TraktAPI.episodes_loop data acc
  = acc ++ map TraktAPI.episode_of_result data.
Proof.
  revert acc; induction data as [|r data IH]; intros acc; simpl.
  - now rewrite app_nil_r.
  - now rewrite IH, <- app_assoc.
Qed.

(** X11: [get_tv_episodes] returns one episode for each entry of the
    response, in its order, specials and repeated numbers included; a
    response without entries makes it print its error panel and exit with
    code 1. *)
Theorem get_tv_episodes_keeps_every_entry (show_id season_num : Z)
  (w : World) (data : list Json.episode_result) :
  http_episodes show_id season_num = Ret data ->
  (data = [] ->
   Main.get_tv_episodes show_id season_num w
   = (Raise (Exit 1),
      Report.failed w "Unable to find episodes for given season."))
  /\ (data <> [] ->
      Main.get_tv_episodes show_id season_num w
      = (Ret (map TraktAPI.episode_of_result data), w)).
Proof.
  intros H.
  unfold Main.get_tv_episodes, Main.exit_on_null,
    TraktAPI.get_season_episodes, bind, lift.
  rewrite H, episodes_loop_map. cbn [app ret]. split.
  - now intros ->.
  - destruct data; [contradiction|reflexivity].
Qed.

Lemma seasons_loop_raises (data : list Json.season_result)
  (acc : list TvSeason.t) :
  Exists (fun r => Json.season_number r = None) data ->
  TraktAPI.seasons_loop data acc = Raise (Error "TypeError").
Proof.
  intros EX; revert acc; induction EX as [r data N|r data EX IH]; intros acc;
    cbn [TraktAPI.seasons_loop].
  - now rewrite N.
  - destruct (Json.season_number r) as [n|]; [|reflexivity].
    destruct (n >? 0); apply IH.
Qed.

(** X12: a response in which some season entry carries no number makes
    [get_show_seasons] raise [TypeError], wherever the entry stands: no
    season list is returned, not even the seasons before it. *)
Theorem get_show_seasons_needs_every_number (show_id : Z) (w : World)
  (data : list Json.season_result) :
  http_seasons show_id = Ret data ->
  Exists (fun r => Json.season_number r = None) data ->
  TraktAPI.get_show_seasons show_id w = (Raise (Error "TypeError"), w).
Proof.
  intros H EX. unfold TraktAPI.get_show_seasons, bind, lift.
  now rewrite H, (seasons_loop_raises data [] EX).
Qed.

End Lookups.

Lemma decorated_lookups_return_something_witness :
  let E := Demo.env Demo.seasons Demo.episodes None in
  let w := Demo.world E Demo.files in
  Some (TvShow.mk "Show: Title" "2020" 7) <> None
  /\ [TvEpisode.mk "Pilot" 1 101; TvEpisode.mk "Second" 2 102] <> [].
Proof.
  intros E w.
  destruct (decorated_lookups_return_something (E := E) w w)
    as (S & _ & EP & _).
  split.
  - apply (S (Some "Show") true). reflexivity.
  - apply (EP 7 1). reflexivity.
Defined.

Lemma search_tv_shows_at_most_limit_witness :
  let E := Demo.env Demo.seasons Demo.episodes None in
  let w := Demo.world E Demo.files in
  TraktAPI.search_tv_shows (Some "Show") 5 w
  = (Sys.Ret [TvShow.mk "Show: Title" "2020" 7], w)
  /\ TraktAPI.search_tv_shows (Some "Show") 0 w = (Sys.Ret [], w).
Proof.
  intros E w.
  destruct (search_tv_shows_at_most_limit (E := E) 5 w) as (_ & _ & K5 & _).
  destruct (search_tv_shows_at_most_limit (E := E) 0 w) as (_ & _ & K0 & _).
  split.
  - apply (K5 "Show" [Json.mk_show "Show: Title" "2020" 7]);
      [discriminate|reflexivity].
  - apply (K0 "Show" [Json.mk_show "Show: Title" "2020" 7]);
      [discriminate|reflexivity].
Defined.

Lemma get_tv_show_picks_first_when_auto_witness :
  let E := Demo.env Demo.seasons Demo.episodes None in
  let w := Demo.world E Demo.files in
  Main.get_tv_show (Some "Show") true w
  = (Sys.Ret (Some (TvShow.mk "Show: Title" "2020" 7)), w).
Proof.
  intros E w.
  destruct (get_tv_show_picks_first_when_auto (E := E) "Show" w
              [Json.mk_show "Show: Title" "2020" 7])
    as [_ K]; [discriminate|reflexivity|].
  apply (K _ [] eq_refl).
Defined.

Lemma get_tv_season_asks_before_failing_witness :
  let E := Demo.env Demo.seasons Demo.episodes None in
  let w := Demo.world E Demo.files in
  let season1 := TvSeason.mk "Season 1" 2 1 71 in
  let season2 := TvSeason.mk "Season 2" 3 2 72 in
  Main.get_tv_season 7 (Some 9) w
  = (Sys.Ret (Some season1),
     Report.questioned w
       (Sys.AskSeason "Season" (Utils.as_choices [season1; season2]))).
Proof.
  intros E w season1 season2.
  apply (get_tv_season_asks_before_failing (E := E) 7 9 w [season1; season2]
           (Some season1)).
  - reflexivity.
  - simpl. lia.
  - reflexivity.
Defined.

Lemma get_tv_episodes_keeps_every_entry_witness :
  let E := Demo.env Demo.seasons Demo.episodes None in
  let w := Demo.world E Demo.files in
  Main.get_tv_episodes 7 1 w
  = (Sys.Ret [TvEpisode.mk "Pilot" 1 101; TvEpisode.mk "Second" 2 102], w).
Proof.
  intros E w.
  apply (get_tv_episodes_keeps_every_entry (E := E) 7 1 w Demo.episodes eq_refl).
  discriminate.
Defined.

Lemma get_show_seasons_needs_every_number_witness :
  let E := Demo.env [Json.mk_season "Season 1" 2 (Some 1) 71;
                     Json.mk_season "Season 2" 3 None 72]
             Demo.episodes None in
  let w := Demo.world E Demo.files in
  TraktAPI.get_show_seasons 7 w = (Sys.Raise (Sys.Error "TypeError"), w).
Proof.
  intros E w.
  apply (get_show_seasons_needs_every_number (E := E) 7 w
           [Json.mk_season "Season 1" 2 (Some 1) 71;
            Json.mk_season "Season 2" 3 None 72] eq_refl).
  apply Exists_cons_tl, Exists_cons_hd. reflexivity.
Defined.

(** ** The helpers of [tvfmt/utils.py] *)

Section UtilsFacts.
Import Sys.
Context `{E : Env}.

(** X13: [find_by_attr] returns the first item of the list that has the
    attribute with a value equal to the one sought: the items before it
    lack the attribute or hold another value; it returns [None] exactly
    when every item does. *)
Theorem find_by_attr_first_match {A} `{Py.Attrs A} (lst : list A)
  (attr : ustring) (v : Py.value) :
  let differs (i : A) :=
    forall u, Py.getattr i attr = Some u -> Py.value_eqb u v = false in
  match Utils.find_by_attr lst attr v with
  | Some x =>
      exists before after u,
        lst = before ++ x :: after
        /\ Py.getattr x attr = Some u /\ Py.value_eqb u v = true
        /\ Forall differs before
  | None => Forall differs lst
  end.
Proof.
  intros differs. induction lst as [|i lst IH]; [constructor|].
  cbn [Utils.find_by_attr].
  destruct (Py.getattr i attr) as [u|] eqn:G;
    [destruct (Py.value_eqb u v) eqn:EQ|].
  - exists [], lst, u. repeat split; try assumption. constructor.
  - assert (differs i) as D by (intros u' G'; congruence).
    destruct (Utils.find_by_attr lst attr v) as [x|].
    + destruct IH as (before & after & u' & -> & G' & EQ' & F).
      exists (i :: before), after, u'. repeat split; try assumption.
      now constructor.
    + now constructor.
  - assert (differs i) as D by (intros u' G'; congruence).
    destruct (Utils.find_by_attr lst attr v) as [x|].
    + destruct IH as (before & after & u' & -> & G' & EQ' & F).
      exists (i :: before), after, u'. repeat split; try assumption.
      now constructor.
    + now constructor.
Qed.

(** X14: [rename_files] applies the renames in list order.  When all of
    them succeed it returns with the file system they lead to; when one
    fails its exception leaves the call, the renames before it stay
    applied and the ones after it are not attempted.  Nothing is printed
    or asked either way. *)
Theorem rename_files_stops_at_first_failure
  (paths : list (Pathlib.Path * Pathlib.Path)) (w : World) :
  (forall files',
      Frame.apply_renames paths (fs w) = (None, files') ->
      Utils.rename_files paths w
      = (Ret tt, mkWorld files' (console w) (asked w)))
  /\ (forall done old_file new_file rest files' e,
         paths = done ++ (old_file, new_file) :: rest ->
         Frame.apply_renames done (fs w) = (None, files') ->
         fs_rename old_file new_file files' = Raise e ->
         Utils.rename_files paths w
         = (Raise e, mkWorld files' (console w) (asked w))).
Proof.
  split.
  - intros files' A. rewrite rename_files_sequential, A. reflexivity.
  - intros done old_file new_file rest files' e -> D F.
    rewrite rename_files_sequential.
    rewrite (apply_renames_app done _ _ _ D). simpl. now rewrite F.
Qed.

Lemma rename_files_app (first second : list (Pathlib.Path * Pathlib.Path)) :
  forall w,
    Utils.rename_files (first ++ second) w
    = bind (Utils.rename_files first)
        (fun _ => Utils.rename_files second) w.
Proof.
  induction first as [|[o n] first IH]; intros w.
  - reflexivity.
  - cbn [app Utils.rename_files]. unfold bind.
    destruct (path_rename o n w) as [[u|e] w1]; [|reflexivity].
    rewrite IH. reflexivity.
Qed.

(** X15: renaming a list of pairs that is the concatenation of two lists
    is renaming the first list and then, if that did not fail, the
    second. *)
Theorem rename_files_in_two_steps
  (first second : list (Pathlib.Path * Pathlib.Path)) (w : World) :
  Utils.rename_files (first ++ second) w
  = match Utils.rename_files first w with
    | (Ret _, w1) => Utils.rename_files second w1
    | (Raise e, w1) => (Raise e, w1)
    end.
Proof. rewrite rename_files_app. reflexivity. Qed.

(** X16: with sorting off, [get_files] returns the regular files of the
    directory whose name does not start with a dot in the order the
    directory lists them, and the sorted result is a permutation of it; a
    directory that cannot be listed makes the call raise what the listing
    raised. *)
Theorem get_files_unsorted_keeps_listing_order (path : Pathlib.Path)
  (w : World) :
  (forall names,
      fs_listdir path (fs w) = Ret names ->
      let kept := filter (Listing.kept (fs w))
                    (map (Pathlib.make_child path) names) in
      Utils.get_files path false w = (Ret kept, w)
      /\ exists sorted,
          Utils.get_files path true w = (Ret sorted, w)
          /\ Permutation kept sorted)
  /\ (forall e sort,
         fs_listdir path (fs w) = Raise e ->
         Utils.get_files path sort w = (Raise e, w)).
Proof.
  split.
  - intros names L kept. split.
    + unfold Utils.get_files, bind, path_iterdir. rewrite L.
      now rewrite get_files_loop_kept.
    + exists (Py.sort Pathlib.ltb kept). split.
      * now apply get_files_listing.
      * apply sort_perm.
  - intros e sort L. unfold Utils.get_files, bind, path_iterdir.
    now rewrite L.
Qed.

End UtilsFacts.

Lemma rename_files_stops_at_first_failure_witness :
  let E := Demo.env Demo.seasons Demo.episodes None in
  let w := Demo.world E Demo.files in
  let a := Pathlib.of_string "shows/a_S01E01.mkv" in
  let a' := Pathlib.of_string "shows/first.mkv" in
  let b := Pathlib.of_string "shows/b_S01E02.mkv" in
  let missing := Pathlib.of_string "shows/missing.mkv" in
  let after_a := [(Demo.dir, true); (b, false);
                  (Pathlib.of_string "shows/notes.txt", false); (a', false);
                  (Pathlib.of_string "shows/.hidden_S01E03.mkv", false);
                  (Pathlib.of_string "shows/extras_S01E04", true)] in
  Utils.rename_files [(a, a')] w = (Sys.Ret tt, Sys.mkWorld after_a [] [])
  /\ Utils.rename_files [(a, a'); (missing, a); (b, a)] w
     = (Sys.Raise (Sys.Error "FileNotFoundError"), Sys.mkWorld after_a [] []).
Proof.
  intros E w a a' b missing after_a.
  destruct (rename_files_stops_at_first_failure (E := E) [(a, a')] w)
    as [OK _].
  destruct (rename_files_stops_at_first_failure (E := E)
              [(a, a'); (missing, a); (b, a)] w) as [_ KO].
  split.
  - apply OK. reflexivity.
  - apply (KO [(a, a')] missing a [(b, a)]); reflexivity.
Defined.

Lemma get_files_unsorted_keeps_listing_order_witness :
  let E := Demo.env Demo.seasons Demo.episodes None in
  let w := Demo.world E Demo.files in
  Utils.get_files Demo.dir false w
  = (Sys.Ret [Pathlib.of_string "shows/b_S01E02.mkv";
              Pathlib.of_string "shows/notes.txt";
              Pathlib.of_string "shows/a_S01E01.mkv"], w)
  /\ Utils.get_files (Pathlib.of_string "nowhere") true w
     = (Sys.Raise (Sys.Error "FileNotFoundError"), w)
  /\ Utils.get_files (Pathlib.of_string "shows/notes.txt") true w
     = (Sys.Raise (Sys.Error "NotADirectoryError"), w).
Proof.
  intros E w.
  destruct (get_files_unsorted_keeps_listing_order (E := E) Demo.dir w)
    as [K _].
  destruct (get_files_unsorted_keeps_listing_order (E := E)
              (Pathlib.of_string "nowhere") w) as [_ R].
  destruct (get_files_unsorted_keeps_listing_order (E := E)
              (Pathlib.of_string "shows/notes.txt") w) as [_ R'].
  split; [|split].
  - apply (K ["b_S01E02.mkv"; "notes.txt"; "a_S01E01.mkv";
              ".hidden_S01E03.mkv"; "extras_S01E04"] eq_refl).
  - apply R. reflexivity.
  - apply R'. reflexivity.
Defined.

(** ** Short names and short paths *)

Section ShortNames.
Import Sys.
Context `{E : Env}.

Lemma replace_absent (old new s : ustring) :
  Text.contains old s = false -> Py.replace old new s = s.
Proof.
  unfold Py.replace. induction s as [|c s IH]; [reflexivity|].
  cbn [Text.contains Py.replace_from]. intros H.
  apply orb_false_iff in H. destruct H as [P H].
  rewrite P, (IH H). reflexivity.
Qed.

Lemma replace_from_skip (old new x rest : ustring) :
  Py.replace_from old new (Ustring.length x) (x ++ rest)
  = Py.replace_from old new 0 rest.
Proof.
  induction x as [|a x IH]; [reflexivity|]. exact IH.
Qed.

Lemma prefix_app (a b : ustring) : Ustring.prefix a (a ++ b) = true.
Proof.
  induction a as [|c a IH]; [now destruct b|].
  cbn [Ustring.append Ustring.prefix]. now rewrite uchar_eqb_refl.
Qed.

Lemma replace_prefix (old new rest : ustring) :
  old <> "" ->
  Py.replace old new (old ++ rest) = (new ++ Py.replace old new rest)%ustring.
Proof.
  intros NE. destruct old as [|c old]; [contradiction|].
  unfold Py.replace. cbn [Ustring.append Py.replace_from].
  change (UString c (old ++ rest)) with (UString c old ++ rest)%ustring.
  rewrite prefix_app. cbn [Py.len Ustring.length].
  replace (S (Ustring.length old) - 1)%nat with (Ustring.length old) by lia.
  now rewrite replace_from_skip.
Qed.

(** X17: [short_path] leaves the text of a path that does not contain the
    home directory's text as it is; the text of a path that starts with
    it gets ["~"] in its place, and further occurrences in the rest are
    replaced as well. *)
Theorem short_path_abbreviates_home (path : Pathlib.Path) :
  (Text.contains (Pathlib.to_string home) (Pathlib.to_string path) = false ->
   Utils.short_path path = Pathlib.to_string path)
  /\ (forall rest,
         Pathlib.to_string home <> "" ->
         Pathlib.to_string path = (Pathlib.to_string home ++ rest)%ustring ->
         Utils.short_path path
         = ("~" ++ Py.replace (Pathlib.to_string home) "~" rest)%ustring).
Proof.
  unfold Utils.short_path. split.
  - apply replace_absent.
  - intros rest NE ->. now apply replace_prefix.
Qed.

Lemma slice_upto_nonneg (j : Z) (s : ustring) :
  0 <= j -> Py.slice_upto j s = Py.slice_to (Z.to_nat j) s.
Proof.
  intros NN. unfold Py.slice_upto.
  destruct (Z.ltb_spec j 0); [lia|reflexivity].
Qed.

Lemma suffix_len (p : Pathlib.Path) :
  (Ustring.length (Pathlib.suffix p) <= Ustring.length (Pathlib.name p))%nat.
Proof.
  unfold Pathlib.suffix.
  destruct (Py.rfind_char "." (Pathlib.name p)) as [i|]; [|simpl; lia].
  destruct (_ && _); [|simpl; lia]. rewrite slice_from_len. lia.
Qed.

(** X18: [short_name] returns a name of at most [max_len] characters as it
    is.  A longer name whose suffix leaves room for the ellipsis
    ([len(suffix) + 5 <= max_len]) is cut to exactly [max_len] characters:
    a prefix of the name, then ["[...]"] and the suffix.  When the suffix
    leaves no room ([max_len < len(suffix) + 5]), the slice bound is
    negative and counts from the end: the result has
    [max(0, len(name) + max_len - len(suffix) - 5) + 5 + len(suffix)]
    characters, which for a [max_len] of 5 or more is [max_len] characters
    more than the name has. *)
Theorem short_name_length (path : Pathlib.Path) (max_len : Z) :
  let name := Pathlib.name path in
  let suffix := Pathlib.suffix path in
  (Z.of_nat (Ustring.length name) <= max_len ->
   Main.PathChange.short_name path max_len = name)
  /\ (max_len < Z.of_nat (Ustring.length name) ->
      Z.of_nat (Ustring.length suffix) + 5 <= max_len ->
      exists kept dropped,
        name = (kept ++ dropped)%ustring
        /\ Main.PathChange.short_name path max_len
           = (kept ++ "[...]" ++ suffix)%ustring
        /\ Z.of_nat (Ustring.length (Main.PathChange.short_name path max_len))
           = max_len)
  /\ (max_len < Z.of_nat (Ustring.length name) ->
      max_len < Z.of_nat (Ustring.length suffix) + 5 ->
      Z.of_nat (Ustring.length (Main.PathChange.short_name path max_len))
      = Z.max 0 (Z.of_nat (Ustring.length name) + max_len
                 - Z.of_nat (Ustring.length suffix) - 5)
        + 5 + Z.of_nat (Ustring.length suffix)
      /\ (5 <= max_len ->
          Z.of_nat (Ustring.length (Main.PathChange.short_name path max_len))
          = Z.of_nat (Ustring.length name) + max_len)).
Proof.
  intros name suffix. unfold Main.PathChange.short_name, Py.len.
  fold name. fold suffix. split; [|split].
  - intros SHORT.
    destruct (Z.gtb_spec (Z.of_nat (Ustring.length name)) max_len); [lia|].
    reflexivity.
  - intros LONG ROOM.
    destruct (Z.gtb_spec (Z.of_nat (Ustring.length name)) max_len); [|lia].
    change (Ustring.length ("[...]" ++ suffix))
      with (5 + Ustring.length suffix)%nat.
    set (j := max_len - Z.of_nat (5 + Ustring.length suffix)).
    rewrite (slice_upto_nonneg j name) by (unfold j; lia).
    exists (Py.slice_to (Z.to_nat j) name), (Py.slice_from (Z.to_nat j) name).
    split; [apply slice_split|]. split; [reflexivity|].
    assert (Z.to_nat j <= Ustring.length name)%nat as B by (unfold j; lia).
    rewrite !append_len, (slice_to_len _ _ B).
    cbn [Ustring.length]. unfold j. lia.
  - intros LONG TIGHT.
    destruct (Z.gtb_spec (Z.of_nat (Ustring.length name)) max_len); [|lia].
    change (Ustring.length ("[...]" ++ suffix))
      with (5 + Ustring.length suffix)%nat.
    set (j := max_len - Z.of_nat (5 + Ustring.length suffix)).
    pose proof (suffix_len path) as SL. fold name in SL. fold suffix in SL.
    unfold Py.slice_upto, Py.len. fold j.
    destruct (Z.ltb_spec j 0); [|unfold j in *; lia].
    assert (Ustring.length name - Z.to_nat (- j) <= Ustring.length name)%nat
      as B by lia.
    rewrite !append_len, (slice_to_len _ _ B).
    cbn [Ustring.length]. unfold j. lia.
Qed.

End ShortNames.

Lemma short_path_abbreviates_home_witness :
  let E := Demo.env Demo.seasons Demo.episodes None in
  Utils.short_path (E := E) (Pathlib.of_string "/home/user/videos/shows")
  = "~/videos/shows"
  /\ Utils.short_path (E := E) (Pathlib.of_string "/srv/media")
     = "/srv/media".
Proof.
  intros E.
  destruct (short_path_abbreviates_home (E := E)
              (Pathlib.of_string "/home/user/videos/shows")) as [_ K].
  destruct (short_path_abbreviates_home (E := E)
              (Pathlib.of_string "/srv/media")) as [A _].
  split.
  - apply (K "/videos/shows"); [discriminate|reflexivity].
  - apply A. reflexivity.
Defined.

Lemma short_name_length_witness :
  let long :=
    Pathlib.of_string
      "shows/Show Title S01E01 The One With The Very Long Title.mkv" in
  Main.PathChange.short_name (Pathlib.of_string "shows/a_S01E01.mkv") 40
  = "a_S01E01.mkv"
  /\ (exists kept dropped,
         Pathlib.name long = (kept ++ dropped)%ustring
         /\ Main.PathChange.short_name long 40
            = (kept ++ "[...]" ++ ".mkv")%ustring
         /\ Z.of_nat (Ustring.length (Main.PathChange.short_name long 40)) = 40)
  /\ Z.of_nat (Ustring.length
                 (Main.PathChange.short_name
                    (Pathlib.of_string "shows/abc.123456789") 12))
     = 13 + 12
  /\ Z.of_nat (Ustring.length
                 (Main.PathChange.short_name (Pathlib.of_string "shows/abc") 0))
     = Z.max 0 (3 + 0 - 0 - 5) + 5 + 0.
Proof.
  intros long.
  destruct (short_name_length (Pathlib.of_string "shows/a_S01E01.mkv") 40)
    as [A _].
  destruct (short_name_length long 40) as (_ & B & _).
  destruct (short_name_length (Pathlib.of_string "shows/abc.123456789") 12)
    as (_ & _ & C).
  destruct (short_name_length (Pathlib.of_string "shows/abc") 0)
    as (_ & _ & D).
  split; [|split; [|split]].
  - apply A. now vm_compute.
  - apply B; now vm_compute.
  - apply C; now vm_compute.
  - apply D; now vm_compute.
Defined.

(** ** What a run does and prints *)

Section RunFacts.
Import Sys.
Context `{E : Env}.

Lemma keeps_fs_unless_confirmed (changes : list Main.PathChange.t)
  (path : Pathlib.Path) :
  answer_confirm "Commit changes" <> Ret (Some true) ->
  Frame.keeps_fs
    (bind (Main.confirm_changes changes path)
       (fun confirm =>
          match confirm with
          | Some true =>
              Utils.rename_files (map Main.PathChange.paths changes)
          | _ => ret tt
          end)).
Proof.
  intros NO w.
  unfold Main.confirm_changes, ask_confirm, bind, console_print, log_prompt,
    modify, lift, ret. cbn [fst snd].
  destruct (answer_confirm "Commit changes") as [[[|]|]|e]; try reflexivity.
  now contradiction NO.
Qed.

(** X19: a run changes nothing in the file system unless user confirmation
    is enabled and the user answers the confirmation with yes: disabled
    confirmation, a refusal, a cancelled question and a failing question
    all leave every file where it was, however the run ends. *)
Theorem run_renames_nothing_without_consent (path : Pathlib.Path)
  (show : option ustring) (season : option Z) (auto user_confirm : bool)
  (w : World) :
  user_confirm = false \/ answer_confirm "Commit changes" <> Ret (Some true) ->
  fs (snd (Main.run path show season auto user_confirm w)) = fs w.
Proof.
  intros NO. revert w. change (Frame.keeps_fs
                                (Main.run path show season auto user_confirm)).
  unfold Main.run.
  apply keeps_fs_bind.
  { apply keeps_fs_bind; [intros w; reflexivity|].
    intros [|]; [intros w; reflexivity|apply keeps_fs_ret]. }
  intros path_ok. apply keeps_fs_bind.
  { destruct (negb path_ok); [apply keeps_fs_error|apply keeps_fs_ret]. }
  intros _. apply keeps_fs_bind.
  { apply keeps_fs_bind; [apply keeps_fs_get_tv_show|apply keeps_fs_deref]. }
  intros tv_show. apply keeps_fs_bind.
  { apply keeps_fs_bind; [apply keeps_fs_get_tv_season|apply keeps_fs_deref]. }
  intros tv_season. apply keeps_fs_bind; [apply keeps_fs_get_tv_episodes|].
  intros tv_episodes. apply keeps_fs_bind; [apply keeps_fs_get_files|].
  intros files. apply keeps_fs_bind; [apply keeps_fs_get_file_changes|].
  intros changes. apply keeps_fs_bind;
    [|intros _; apply keeps_fs_console_print].
  destruct user_confirm.
  - destruct NO as [NO|NO]; [discriminate|].
    now apply keeps_fs_unless_confirmed.
  - apply keeps_fs_ret.
Qed.

(** X20: when the path does not exist or is not a directory, the run prints
    one error panel naming the path and exits with code 1; nothing is asked
    and the file system is as before. *)
Theorem run_rejects_missing_directory (path : Pathlib.Path)
  (show : option ustring) (season : option Z) (auto user_confirm : bool)
  (w : World) :
  fs_exists path (fs w) && fs_is_dir path (fs w) = false ->
  Main.run path show season auto user_confirm w
  = (Raise (Exit 1),
     Report.failed w
       ("Invalid value for PATH: Directory '" ++ Utils.short_path path
          ++ "' doesn't exist.")).
Proof.
  intros BAD. unfold Main.run, bind at 1. unfold bind at 1.
  unfold path_exists, path_is_dir.
  destruct (fs_exists path (fs w)); cbn [andb] in BAD.
  - rewrite BAD. reflexivity.
  - reflexivity.
Qed.

(** X21: a confirmed run, step by step.  When the directory exists, the
    show, the season, the episodes, the files and the plan are found, and
    the user answers yes, the run prints the plan, asks once, and applies
    the renames of the plan in order: if all succeed it prints [Done!] and
    returns, otherwise the first failure leaves the run with the earlier
    renames applied and no [Done!]. *)
Theorem run_confirmed_applies_plan (path : Pathlib.Path)
  (show : option ustring) (season : option Z) (auto : bool)
  (w w1 w2 w3 w4 w5 : World) (tv_show : TvShow.t) (tv_season : TvSeason.t)
  (tv_episodes : list TvEpisode.t) (files : list Pathlib.Path)
  (changes : list Main.PathChange.t) :
  fs_exists path (fs w) = true -> fs_is_dir path (fs w) = true ->
  Main.get_tv_show show auto w = (Ret (Some tv_show), w1) ->
  Main.get_tv_season (TvShow.id tv_show) season w1
  = (Ret (Some tv_season), w2) ->
  Main.get_tv_episodes (TvShow.id tv_show) (TvSeason.number tv_season) w2
  = (Ret tv_episodes, w3) ->
  Utils.get_files path true w3 = (Ret files, w4) ->
  Main.get_file_changes files (TvShow.name tv_show) tv_episodes w4
  = (Ret changes, w5) ->
  answer_confirm "Commit changes" = Ret (Some true) ->
  let w6 := Report.questioned
              (Report.printed w5 (Report.plan_panel changes path))
              (AskConfirm "Commit changes") in
  Main.run path show season auto true w
  = match Frame.apply_renames (map Main.PathChange.paths changes) (fs w5) with
    | (None, files') =>
        (Ret tt,
         Report.printed (mkWorld files' (console w6) (asked w6)) Report.done)
    | (Some e, files') =>
        (Raise e, mkWorld files' (console w6) (asked w6))
    end.
Proof.
  intros EX DIR S1 S2 S3 S4 S5 YES w6.
  unfold Main.run, bind at 1. unfold bind at 1.
  unfold path_exists, path_is_dir. rewrite EX, DIR. cbn [negb].
  unfold bind at 1. cbn [ret]. unfold bind at 1. unfold bind at 1.
  rewrite S1. cbn [Main.deref ret].
  unfold bind at 1. unfold bind at 1. rewrite S2. cbn [Main.deref ret].
  unfold bind at 1. rewrite S3. unfold bind at 1. rewrite S4.
  unfold bind at 1. rewrite S5. unfold bind at 1. unfold bind at 1.
  unfold Main.confirm_changes, ask_confirm.
  unfold bind at 1. unfold bind at 1. unfold bind at 1.
  unfold console_print at 1, log_prompt, modify, lift, ret.
  rewrite YES. rewrite rename_files_sequential. cbn [fs console asked].
  fold (Report.plan_panel changes path).
  destruct (Frame.apply_renames (map Main.PathChange.paths changes) (fs w5))
    as [[e|] files']; reflexivity.
Qed.

(** A run that returns has printed [Done!] last. *)
Lemma returns_print_last {A} (m : M World A) (r : renderable)
  (w w' : World) :
  bind m (fun _ => console_print r) w = (Ret tt, w') ->
  exists before, console w' = before ++ [r].
Proof.
  unfold bind, console_print, modify.
  destruct (m w) as [[a|e] w0]; [|discriminate].
  intros [= <-]. now exists (console w0).
Qed.

End RunFacts.

Lemma run_renames_nothing_without_consent_witness :
  let E := Demo.env Demo.seasons Demo.episodes (Some false) in
  let w := Demo.world E Demo.files in
  Sys.fs (snd (Main.run Demo.dir (Some "Show") (Some 1) true true w))
  = Demo.files
  /\ Sys.fs (snd (Main.run Demo.dir (Some "Show") (Some 1) true false w))
     = Demo.files.
Proof.
  intros E w. split.
  - apply (run_renames_nothing_without_consent (E := E)). right. discriminate.
  - apply (run_renames_nothing_without_consent (E := E)). now left.
Defined.

Lemma run_rejects_missing_directory_witness :
  let E := Demo.env Demo.seasons Demo.episodes (Some true) in
  let w := Demo.world E Demo.files in
  Main.run (Pathlib.of_string "shows/notes.txt") (Some "Show") (Some 1)
    true true w
  = (Sys.Raise (Sys.Exit 1),
     Report.failed w
       "Invalid value for PATH: Directory 'shows/notes.txt' doesn't exist.").
Proof.
  intros E w.
  apply (run_rejects_missing_directory (E := E)). reflexivity.
Defined.

Lemma run_confirmed_applies_plan_witness :
  let E := Demo.env Demo.seasons
             [Json.mk_episode "Pilot" 1 101; Json.mk_episode "Yes/No" 2 102]
             (Some true) in
  let w := Demo.world E Demo.files in
  let a := Pathlib.of_string "shows/a_S01E01.mkv" in
  let b := Pathlib.of_string "shows/b_S01E02.mkv" in
  let notes := Pathlib.of_string "shows/notes.txt" in
  let changes :=
    [Main.PathChange.make a
       (Pathlib.of_string "shows/Show Title S01E01 Pilot.mkv");
     Main.PathChange.make b
       (Pathlib.of_string "shows/Show Title S01E02 Yes/No.mkv")] in
  fst (Main.run Demo.dir (Some "Show") (Some 1) true true w)
  = Sys.Raise (Sys.Error "FileNotFoundError")
  /\ Sys.console (snd (Main.run Demo.dir (Some "Show") (Some 1) true true w))
     = [Report.plan_panel changes Demo.dir].
Proof.
  intros E w a b notes changes.
  rewrite (run_confirmed_applies_plan (E := E) Demo.dir (Some "Show") (Some 1)
             true w w w w w w (TvShow.mk "Show: Title" "2020" 7)
             (TvSeason.mk "Season 1" 2 1 71)
             [TvEpisode.mk "Pilot" 1 101; TvEpisode.mk "Yes/No" 2 102]
             [a; b; notes] changes);
    try (vm_compute; reflexivity).
  split; vm_compute; reflexivity.
Defined.

(** ** What a run prints *)

Section RunOutput.
Import Sys.
Context `{E : Env}.

Lemma quiet_prints_panels {A} (m : M World A) :
  (forall w, console (snd (m w)) = console w) -> Report.prints_panels m.
Proof.
  intros Q w. exists []. rewrite app_nil_r. split; [apply Q|constructor].
Qed.

Lemma prints_panels_bind {A B} (m : M World A) (k : A -> M World B) :
  Report.prints_panels m -> (forall a, Report.prints_panels (k a)) ->
  Report.prints_panels (bind m k).
Proof.
  intros Hm Hk w. unfold bind. destruct (Hm w) as (p1 & C1 & F1).
  destruct (m w) as [[a|e] w1]; cbn [snd] in *.
  - destruct (Hk a w1) as (p2 & C2 & F2). exists (p1 ++ p2).
    rewrite C2, C1, app_assoc. split; [reflexivity|].
    apply Forall_app. now split.
  - now exists p1.
Qed.

Lemma prints_panels_error {A} (message : ustring) :
  Report.prints_panels (@Main.error E A message).
Proof.
  intros w. exists [Report.error_panel message].
  split; [reflexivity|]. repeat constructor.
Qed.

Lemma prints_panels_exit_on_null {R} `{Main.Nullish R} (message : ustring)
  (func : M World R) :
  Report.prints_panels func ->
  Report.prints_panels (Main.exit_on_null message func).
Proof.
  intros F. apply prints_panels_bind; [exact F|].
  intros r. destruct (Main.is_null r); [apply prints_panels_error|].
  now apply quiet_prints_panels.
Qed.

Lemma prints_panels_get_tv_show (show_name : option ustring) (auto : bool) :
  Report.prints_panels (Main.get_tv_show show_name auto).
Proof.
  apply prints_panels_exit_on_null. apply quiet_prints_panels. intros w.
  unfold bind, ask_text, ask_show, log_prompt, modify, lift, ret,
    TraktAPI.search_tv_shows, bind, lift, ret.
  destruct show_name as [[|c s]|]; cbn [fst snd].
  - destruct (answer_text "Search Tv Shows") as [[[|c q]|]|e];
      cbn [fst snd]; try reflexivity.
    destruct (http_search (UString c q)) as [data|e]; cbn [fst snd];
      [|reflexivity].
    destruct (TraktAPI.search_loop (firstn 5 data) []); cbn [fst snd];
      [reflexivity|].
    destruct auto; [reflexivity|].
    now destruct (answer_show _ _).
  - destruct (http_search (UString c s)) as [data|e]; cbn [fst snd];
      [|reflexivity].
    destruct (TraktAPI.search_loop (firstn 5 data) []); cbn [fst snd];
      [reflexivity|].
    destruct auto; [reflexivity|].
    now destruct (answer_show _ _).
  - destruct (answer_text "Search Tv Shows") as [[[|c q]|]|e];
      cbn [fst snd]; try reflexivity.
    destruct (http_search (UString c q)) as [data|e]; cbn [fst snd];
      [|reflexivity].
    destruct (TraktAPI.search_loop (firstn 5 data) []); cbn [fst snd];
      [reflexivity|].
    destruct auto; [reflexivity|].
    now destruct (answer_show _ _).
Qed.

Lemma prints_panels_get_tv_season (show_id : Z) (season_num : option Z) :
  Report.prints_panels (Main.get_tv_season show_id season_num).
Proof.
  apply prints_panels_exit_on_null. apply quiet_prints_panels. intros w.
  unfold bind at 1.
  destruct (TraktAPI.get_show_seasons show_id w) as [[seasons|e] w1] eqn:G.
  - destruct (get_show_seasons_world _ _ _ _ G) as [-> _].
    assert (console (snd (ask_season "Season" (Utils.as_choices seasons) w))
            = console w) as Q.
    { unfold ask_season, bind, log_prompt, modify, lift.
      now destruct (answer_season _ _). }
    destruct season_num as [n|]; [|exact Q].
    destruct (_ && _); [|exact Q].
    unfold bind, lift. now destruct (Main.getitem seasons (n - 1)).
  - pose proof (get_show_seasons_asked show_id w) as S. rewrite G in S.
    cbn [snd] in *. now subst.
Qed.

Lemma prints_panels_get_tv_episodes (show_id season_num : Z) :
  Report.prints_panels (Main.get_tv_episodes show_id season_num).
Proof.
  apply prints_panels_exit_on_null. apply quiet_prints_panels. intros w.
  unfold TraktAPI.get_season_episodes, bind, lift.
  now destruct (http_episodes show_id season_num).
Qed.

Lemma prints_panels_get_files (path : Pathlib.Path) (sort : bool) :
  Report.prints_panels (Utils.get_files path sort).
Proof.
  apply quiet_prints_panels. intros w.
  unfold Utils.get_files, bind, path_iterdir.
  destruct (fs_listdir path (fs w)); [|reflexivity].
  now rewrite get_files_loop_kept.
Qed.

Lemma prints_panels_get_file_changes (files : list Pathlib.Path)
  (show_name : ustring) (episodes : list TvEpisode.t) :
  Report.prints_panels (Main.get_file_changes files show_name episodes).
Proof.
  apply prints_panels_exit_on_null. apply quiet_prints_panels. intros w.
  now rewrite get_file_changes_loop_entries.
Qed.

Lemma prints_panels_deref {A} (o : option A) :
  Report.prints_panels (Main.deref o).
Proof. apply quiet_prints_panels. now destruct o. Qed.

Lemma prints_panels_commit (user_confirm : bool)
  (changes : list Main.PathChange.t) (path : Pathlib.Path) :
  Report.prints_panels
    (if user_confirm
     then bind (Main.confirm_changes changes path)
            (fun confirm =>
               match confirm with
               | Some true =>
                   Utils.rename_files (map Main.PathChange.paths changes)
               | _ => ret tt
               end)
     else ret tt).
Proof.
  destruct user_confirm; [|now apply quiet_prints_panels].
  intros w. exists [Report.plan_panel changes path].
  split; [|repeat constructor].
  unfold Main.confirm_changes, ask_confirm, bind, console_print, log_prompt,
    modify, lift, ret. cbn [fst snd].
  destruct (answer_confirm "Commit changes") as [[[|]|]|e]; try reflexivity.
  now rewrite rename_files_sequential.
Qed.

Lemma closes_with_done_bind {A B} (m : M World A) (k : A -> M World B) :
  Report.prints_panels m -> (forall a, Report.closes_with_done (k a)) ->
  Report.closes_with_done (bind m k).
Proof.
  intros Hm Hk w. unfold bind. destruct (Hm w) as (p1 & C1 & F1).
  destruct (m w) as [[a|e] w1]; cbn [fst snd] in *.
  - destruct (Hk a w1) as (p2 & F2 & C2). exists (p1 ++ p2).
    split; [apply Forall_app; now split|].
    rewrite C2, C1. destruct (fst (k a w1)); now rewrite <- !app_assoc.
  - exists p1. now split.
Qed.

Lemma closes_with_done_print :
  Report.closes_with_done (console_print Report.done).
Proof. intros w. exists []. split; [constructor|reflexivity]. Qed.

(** X22: everything a run prints before its closing message is a panel,
    and the closing [Done!] is printed exactly by the runs that return: a
    run that ends with an exception, whatever it is, has not printed it. *)
Theorem run_prints_done_only_on_return (path : Pathlib.Path)
  (show : option ustring) (season : option Z) (auto user_confirm : bool)
  (w : World) :
  exists panels,
    Forall Report.is_panel panels
    /\ console (snd (Main.run path show season auto user_confirm w))
       = match fst (Main.run path show season auto user_confirm w) with
         | Ret _ => console w ++ panels ++ [Report.done]
         | Raise _ => console w ++ panels
         end.
Proof.
  revert w.
  change (Report.closes_with_done
            (Main.run path show season auto user_confirm)).
  unfold Main.run.
  apply closes_with_done_bind.
  { apply quiet_prints_panels. intros w. unfold bind, path_exists, path_is_dir.
    now destruct (fs_exists path (fs w)). }
  intros path_ok. apply closes_with_done_bind.
  { destruct (negb path_ok);
      [apply prints_panels_error|now apply quiet_prints_panels]. }
  intros _. apply closes_with_done_bind.
  { apply prints_panels_bind;
      [apply prints_panels_get_tv_show|apply prints_panels_deref]. }
  intros tv_show. apply closes_with_done_bind.
  { apply prints_panels_bind;
      [apply prints_panels_get_tv_season|apply prints_panels_deref]. }
  intros tv_season.
  apply closes_with_done_bind; [apply prints_panels_get_tv_episodes|].
  intros tv_episodes.
  apply closes_with_done_bind; [apply prints_panels_get_files|].
  intros files.
  apply closes_with_done_bind; [apply prints_panels_get_file_changes|].
  intros changes.
  apply closes_with_done_bind; [apply prints_panels_commit|].
  intros _. apply closes_with_done_print.
Qed.

End RunOutput.

(** ** Reading the configuration back *)

Section ConfigRead.
Local Open Scope string_scope.
Local Open Scope list_scope.
Local Open Scope Z_scope.
Import Sys.
Variable APP_NAME : string.

Lemma dict_get_set_other {V} (d : ConfigParser.dict V) (k k' : string)
  (v : V) :
  k' <> k ->
  ConfigParser.dict_get (ConfigParser.dict_set d k v) k'
  = ConfigParser.dict_get d k'.
Proof.
  intros NE. induction d as [|[k0 v0] d IH]; simpl.
  - apply String.eqb_neq in NE. rewrite String.eqb_sym. now rewrite NE.
  - destruct (String.eqb k0 k) eqn:K; simpl.
    + apply String.eqb_eq in K. subst k0.
      apply String.eqb_neq in NE. rewrite String.eqb_sym in NE.
      now rewrite NE.
    + destruct (String.eqb k0 k'); [reflexivity|exact IH].
Qed.

(** A successful [set] is a successful [parser.set] followed by the
    rewriting of the file. *)
Lemma config_set_true (key : Config.CliConfigKey) (value : string)
  (st st' : Config.State) :
  Config.set APP_NAME key value st = (Ret true, st') ->
  exists p',
    ConfigParser.set (Config.parser st) APP_NAME (Config.key_value key) value
    = Ret p'
    /\ st' = Config.mkState p' (ConfigParser.write p') (Config.console st).
Proof.
  assert (bind (Config.parser_set APP_NAME (Config.key_value key) value)
            (fun _ => bind Config.write_config_file (fun _ => ret true)) st
          = (Ret true, st') ->
          exists p',
            ConfigParser.set (Config.parser st) APP_NAME
              (Config.key_value key) value = Ret p'
            /\ st' = Config.mkState p' (ConfigParser.write p')
                       (Config.console st)) as K.
  { unfold bind, Config.parser_set.
    destruct (ConfigParser.set _ _ _ _) as [p'|e]; [|discriminate].
    intros [= <-]. now exists p'. }
  unfold Config.set. destruct key; try exact K;
    (destruct (negb (Latin1.str_in (Latin1.lower value) ["true"; "false"]));
     [discriminate|exact K]).
Qed.

Lemma parser_set_other (p p' : ConfigParser.t) (option value other : string) :
  ConfigParser.set p APP_NAME option value = Ret p' ->
  other <> Latin1.lower option ->
  ConfigSpec.stored APP_NAME p' other = ConfigSpec.stored APP_NAME p other.
Proof.
  unfold ConfigParser.set, ConfigSpec.stored.
  destruct (negb (String.eqb value "") && _); [discriminate|].
  destruct (String.eqb APP_NAME "" || String.eqb APP_NAME ConfigParser.default_section).
  - intros [= <-] NE. simpl. now apply dict_get_set_other.
  - destruct (ConfigParser.dict_get (ConfigParser.sections p) APP_NAME)
      as [d|] eqn:G; [|discriminate].
    intros [= <-] NE. simpl. rewrite dict_get_set.
    now apply dict_get_set_other.
Qed.

(** X23: a [set] that returns [True] changes the value of its key only:
    every other option of the section reads as before, and nothing is
    printed. *)
Theorem config_set_touches_one_key (key : Config.CliConfigKey)
  (value : string) (st st' : Config.State) :
  Config.set APP_NAME key value st = (Ret true, st') ->
  (forall other,
      other <> Config.key_value key ->
      ConfigSpec.stored APP_NAME (Config.parser st') other
      = ConfigSpec.stored APP_NAME (Config.parser st) other)
  /\ ConfigSpec.stored APP_NAME (Config.parser st') (Config.key_value key)
     = Some value
  /\ Config.console st' = Config.console st.
Proof.
  intros S. destruct (config_set_true _ _ _ _ S) as (p' & PS & ->).
  cbn [Config.parser Config.console]. split; [|split; [|reflexivity]].
  - intros other NE. apply (parser_set_other _ _ _ _ _ PS).
    now rewrite key_value_lower.
  - revert PS. unfold ConfigParser.set, ConfigSpec.stored.
    destruct (negb (String.eqb value "") && _); [discriminate|].
    rewrite key_value_lower.
    destruct (String.eqb APP_NAME "" || String.eqb APP_NAME ConfigParser.default_section).
    + intros [= <-]. simpl. apply dict_get_set.
    + destruct (ConfigParser.dict_get (ConfigParser.sections (Config.parser st))
                  APP_NAME) as [d|]; [|discriminate].
      intros [= <-]. simpl. rewrite dict_get_set. apply dict_get_set.
Qed.

Lemma interpolate_loop_plain (deeper : string -> outcome string)
  (map : string -> option string) (a rest : string) :
  ConfigParser.contains_char "%" a = false ->
  ConfigParserGet.interpolate_loop deeper map 0 (a ++ rest)
  = match ConfigParserGet.interpolate_loop deeper map 0 rest with
    | Ret out => Ret (a ++ out)%string
    | Raise e => Raise e
    end.
Proof.
  induction a as [|c a IH]; intros NP.
  - cbn [append]. now destruct (ConfigParserGet.interpolate_loop _ _ _ _).
  - cbn [ConfigParser.contains_char] in NP. apply orb_false_iff in NP.
    destruct NP as [C NP]. cbn [append ConfigParserGet.interpolate_loop].
    rewrite C. cbn [negb]. rewrite (IH NP).
    now destruct (ConfigParserGet.interpolate_loop deeper map 0 rest).
Qed.

Lemma interpolate_loop_clean (deeper : string -> outcome string)
  (map : string -> option string) (s : string) :
  ConfigParser.contains_char "%" s = false ->
  ConfigParserGet.interpolate_loop deeper map 0 s = Ret s.
Proof.
  induction s as [|c s IH]; intros NP; [reflexivity|].
  cbn [ConfigParser.contains_char] in NP. apply orb_false_iff in NP.
  destruct NP as [C NP]. cbn [ConfigParserGet.interpolate_loop].
  rewrite C. cbn [negb]. now rewrite (IH NP).
Qed.

Lemma get_stored (p : ConfigParser.t) (option value : string) :
  APP_NAME <> "" -> APP_NAME <> ConfigParser.default_section ->
  ConfigSpec.stored APP_NAME p (Latin1.lower option) = Some value ->
  exists map,
    ConfigParserGet.get p APP_NAME option
    = ConfigParserGet.interpolate_some 10 map value.
Proof.
  intros N1 N2. unfold ConfigSpec.stored, ConfigParserGet.get,
    ConfigParserGet.unify_values.
  apply String.eqb_neq in N1, N2. rewrite N1, N2. cbn [orb].
  destruct (ConfigParser.dict_get (ConfigParser.sections p) APP_NAME)
    as [d|]; [|discriminate].
  intros S. rewrite S. eexists. reflexivity.
Qed.

(** X24: in an ordinary section (one that is neither unnamed nor the
    default one), a value that [set] has stored and that holds no [%]
    reads back through [get] as it was written; a value written with one
    escaped percent sign, [a%%b], reads back as [a%b]. *)
Theorem config_get_after_set (key : Config.CliConfigKey) (value : string)
  (st st' : Config.State) :
  APP_NAME <> "" -> APP_NAME <> ConfigParser.default_section ->
  Config.set APP_NAME key value st = (Ret true, st') ->
  (ConfigParser.contains_char "%" value = false ->
   CliConfig.get APP_NAME key st' = (Ret value, st'))
  /\ (forall a b,
         value = (a ++ "%%" ++ b)%string ->
         ConfigParser.contains_char "%" a = false ->
         ConfigParser.contains_char "%" b = false ->
         CliConfig.get APP_NAME key st' = (Ret (a ++ "%" ++ b)%string, st')).
Proof.
  intros N1 N2 S.
  assert (ConfigSpec.stored APP_NAME (Config.parser st')
            (Latin1.lower (Config.key_value key)) = Some value) as ST.
  { rewrite key_value_lower.
    destruct (config_set_true _ _ _ _ S) as (p' & PS & ->).
    cbn [Config.parser]. revert PS.
    unfold ConfigParser.set, ConfigSpec.stored.
    destruct (negb (String.eqb value "") && _); [discriminate|].
    rewrite key_value_lower.
    destruct (String.eqb APP_NAME "" || String.eqb APP_NAME ConfigParser.default_section).
    - intros [= <-]. simpl. apply dict_get_set.
    - destruct (ConfigParser.dict_get
                  (ConfigParser.sections (Config.parser st)) APP_NAME)
        as [d|]; [|discriminate].
      intros [= <-]. simpl. rewrite dict_get_set. apply dict_get_set. }
  destruct (get_stored _ _ _ N1 N2 ST) as (map & G).
  unfold CliConfig.get. rewrite G. split.
  - intros NP. f_equal. cbn [ConfigParserGet.interpolate_some].
    now apply interpolate_loop_clean.
  - intros a b -> NA NB. f_equal. cbn [ConfigParserGet.interpolate_some].
    rewrite (interpolate_loop_plain _ _ a _ NA).
    cbn [append ConfigParserGet.interpolate_loop Ascii.eqb negb].
    now rewrite (interpolate_loop_clean _ _ b NB).
Qed.

(** X25: [get_api_key] returns the environment variable when it is set and
    not empty; otherwise it returns what the configuration holds for
    [trakt_api_key], an empty key included, or raises what reading it
    raises.  The state is never changed: the decorator's error panel is
    never printed, a key that is a [str] being neither [None] nor a
    list. *)
Theorem get_api_key_prefers_environment (environ : option string)
  (st : Config.State) :
  snd (CliConfig.get_api_key APP_NAME environ st) = st
  /\ (forall key, environ = Some key -> key <> "" ->
                  fst (CliConfig.get_api_key APP_NAME environ st) = Ret key)
  /\ (environ = None \/ environ = Some "" ->
      fst (CliConfig.get_api_key APP_NAME environ st)
      = ConfigParserGet.get (Config.parser st) APP_NAME "trakt_api_key").
Proof.
  unfold CliConfig.get_api_key, CliConfig.exit_on_null, CliConfig.get, bind.
  split; [|split].
  - destruct environ as [[|c k]|]; cbn [ret fst snd];
      try reflexivity;
      now destruct (ConfigParserGet.get _ _ _).
  - intros key -> NE. destruct key; [contradiction|reflexivity].
  - intros [-> | ->]; cbn [Config.key_value];
      now destruct (ConfigParserGet.get _ _ _).
Qed.

End ConfigRead.

Section ConfigReadExamples.
Local Open Scope string_scope.
Local Open Scope list_scope.
Local Open Scope Z_scope.

Lemma config_set_touches_one_key_witness :
  let st := Config.mkState (ConfigSpec.fresh "tvfmt") "" [] in
  let st' := snd (Config.set "tvfmt" Config.AUTO "true" st) in
  ConfigSpec.stored "tvfmt" (Config.parser st') "confirm" = Some "True"
  /\ ConfigSpec.stored "tvfmt" (Config.parser st') "auto" = Some "true".
Proof.
  intros st st'.
  destruct (config_set_touches_one_key "tvfmt" Config.AUTO "true" st st'
              eq_refl) as (O & K & _).
  split; [|exact K]. rewrite O; [reflexivity|discriminate].
Defined.

Lemma config_get_after_set_witness :
  let st := Config.mkState (ConfigSpec.fresh "tvfmt") "" [] in
  let st1 := snd (Config.set "tvfmt" Config.TRAKT_API_KEY "abc123" st) in
  let st2 := snd (Config.set "tvfmt" Config.TRAKT_API_KEY "50%%" st) in
  CliConfig.get "tvfmt" Config.TRAKT_API_KEY st1 = (Sys.Ret "abc123", st1)
  /\ CliConfig.get "tvfmt" Config.TRAKT_API_KEY st2 = (Sys.Ret "50%", st2).
Proof.
  intros st st1 st2.
  destruct (config_get_after_set "tvfmt" Config.TRAKT_API_KEY "abc123" st st1)
    as [A _]; try discriminate; try reflexivity.
  destruct (config_get_after_set "tvfmt" Config.TRAKT_API_KEY "50%%" st st2)
    as [_ B]; try discriminate; try reflexivity.
  split; [apply A; reflexivity|].
  apply (B "50" ""); reflexivity.
Defined.

Lemma get_api_key_prefers_environment_witness :
  let st := Config.mkState (ConfigSpec.fresh "tvfmt") "" [] in
  CliConfig.get_api_key "tvfmt" (Some "from-env") st = (Sys.Ret "from-env", st)
  /\ CliConfig.get_api_key "tvfmt" None st = (Sys.Ret "", st).
Proof.
  intros st.
  destruct (get_api_key_prefers_environment "tvfmt" (Some "from-env") st)
    as (S1 & K1 & _).
  destruct (get_api_key_prefers_environment "tvfmt" None st)
    as (S2 & _ & K2).
  split.
  - rewrite (surjective_pairing (CliConfig.get_api_key _ _ _)), S1.
    now rewrite (K1 "from-env" eq_refl).
  - rewrite (surjective_pairing (CliConfig.get_api_key _ _ _)), S2.
    rewrite K2 by now left. reflexivity.
Defined.

End ConfigReadExamples.

(** ** Targets that coincide, and a show name that is asked for *)

Section Collisions.
Import Sys.
Context `{E : Env}.

(** X26: the builder does not tell apart two files of one directory whose
    names parse to the same season and episode and whose suffixes agree:
    both get a plan entry, and the two entries have the same new path. *)
Theorem plan_gives_twins_one_target (files : list Pathlib.Path)
  (show_name : ustring) (episodes : list TvEpisode.t) (f g : Pathlib.Path)
  (season episode : Z) (w : World) :
  In f files -> In g files ->
  Main.parse_episode_file (Pathlib.name f) = Ret (Some (season, episode)) ->
  Main.parse_episode_file (Pathlib.name g) = Ret (Some (season, episode)) ->
  Pathlib.parent f = Pathlib.parent g ->
  Pathlib.suffix f = Pathlib.suffix g ->
  exists changes target,
    Main.get_file_changes files show_name episodes w = (Ret changes, w)
    /\ In (Main.PathChange.make f target) changes
    /\ In (Main.PathChange.make g target) changes.
Proof.
  intros IF IG PF PG PAR SUF.
  set (target := Pathlib.truediv (Pathlib.parent f)
                   (Main.format_filename show_name season episode
                      (Utils.find_by_attr episodes "number"
                         (Py.VInt episode))
                      (Pathlib.suffix f))).
  assert (Plan.entry show_name episodes f
          = Some (Main.PathChange.make f target)) as EF.
  { unfold Plan.entry. now rewrite PF. }
  assert (Plan.entry show_name episodes g
          = Some (Main.PathChange.make g target)) as EG.
  { unfold Plan.entry. rewrite PG. unfold target. now rewrite PAR, SUF. }
  pose proof (entry_in_entries _ _ _ _ _ IF EF) as INF.
  pose proof (entry_in_entries _ _ _ _ _ IG EG) as ING.
  exists (Plan.entries show_name episodes files), target.
  split; [|now split].
  apply get_file_changes_entries. intros Z. now rewrite Z in INF.
Qed.

(** X27: without a show name (none given, or an empty one) the user is
    asked for it once; when the answer is empty or the question is
    cancelled, no show is looked up and [get_tv_show] prints its error
    panel and exits with code 1. *)
Theorem get_tv_show_asks_for_missing_name (show_name answer : option ustring)
  (auto : bool) (w : World) :
  show_name = None \/ show_name = Some "" ->
  answer = None \/ answer = Some "" ->
  answer_text "Search Tv Shows" = Ret answer ->
  Main.get_tv_show show_name auto w
  = (Raise (Exit 1),
     Report.failed (Report.questioned w (AskText "Search Tv Shows"))
       "Unable to find TV Show matching given name.").
Proof.
  intros S A T.
  unfold Main.get_tv_show, Main.exit_on_null, bind at 1.
  unfold bind at 1.
  assert (match show_name with
          | Some (UString _ _) => ret show_name
          | _ => ask_text "Search Tv Shows"
          end w
          = (Ret answer, Report.questioned w (AskText "Search Tv Shows")))
    as ASK.
  { unfold ask_text, bind, log_prompt, modify, lift. cbn [fst snd].
    rewrite T. now destruct S as [-> | ->]. }
  rewrite ASK. unfold bind at 1.
  now destruct A as [-> | ->].
Qed.

End Collisions.

Lemma plan_gives_twins_one_target_witness :
  let E := Demo.env Demo.seasons Demo.episodes None in
  let w := Demo.world E Demo.files in
  let f := Pathlib.of_string "shows/a_S01E01.mkv" in
  let g := Pathlib.of_string "shows/copy.s01e01.mkv" in
  let pilot := TvEpisode.mk "Pilot" 1 101 in
  exists changes target,
    Main.get_file_changes [f; g] "Show" [pilot] w = (Sys.Ret changes, w)
    /\ In (Main.PathChange.make f target) changes
    /\ In (Main.PathChange.make g target) changes.
Proof.
  intros E w f g pilot.
  apply (plan_gives_twins_one_target (E := E) [f; g] "Show" [pilot] f g 1 1 w);
    try reflexivity; simpl; auto.
Defined.

Lemma get_tv_show_asks_for_missing_name_witness :
  let E := Demo.env Demo.seasons Demo.episodes None in
  let w := Demo.world E Demo.files in
  Main.get_tv_show None false w
  = (Sys.Raise (Sys.Exit 1),
     Report.failed (Report.questioned w (Sys.AskText "Search Tv Shows"))
       "Unable to find TV Show matching given name.").
Proof.
  intros E w.
  apply (get_tv_show_asks_for_missing_name (E := E) None None false w);
    auto; reflexivity.
Defined.

